(** * EvacuationRoot: route recommendation engine

    A shallow embedding of the route functions of the Mumbai flood
    evacuation scripts (app.py, mumbai_evacuation_real.py,
    streamlit_app.py, mumbai_evacuation_complete.py,
    evacuation_app_simple.py, evacuation_app.py, tload.py, warp.py).

    Conventions of the embedding:
    - a pandas DataFrame is the list of its rows, in index order;
    - Python [float] values are real numbers ([R]): arithmetic is exact,
      there is no NaN and no rounding error;
    - Python [int] values are [Z]; [str] values are [string] (the ASCII
      fragment for [lower], [strip] and [title]);
    - a dict that may miss a key is looked up into an [option];
    - the similarity metric behind [process.extractOne] lives in the
      fuzzywuzzy / rapidfuzz packages: every comparison of the query with
      one choice is an event of the [prog] monad, answered by the scorer
      that [run] is given;
    - exceptions are the [Raise] leaves of [prog]. *)

From Stdlib Require Import String Ascii List ZArith Reals Lra Lia Bool.
From Stdlib Require Import Sorted Permutation.
Import ListNotations.

Set Implicit Arguments.

(** ** Python strings *)

Module PyStr.

(* str.isspace on one ASCII character: TAB..CR, FS..US and SPACE *)
Definition is_space (c : ascii) : bool :=
  let n := nat_of_ascii c in
  ((9 <=? n) && (n <=? 13)) || ((28 <=? n) && (n <=? 32)).

Definition is_upper (c : ascii) : bool :=
  let n := nat_of_ascii c in (65 <=? n) && (n <=? 90).

Definition is_lower (c : ascii) : bool :=
  let n := nat_of_ascii c in (97 <=? n) && (n <=? 122).

Definition lower_char (c : ascii) : ascii :=
  if is_upper c then ascii_of_nat (nat_of_ascii c + 32) else c.

Definition upper_char (c : ascii) : ascii :=
  if is_lower c then ascii_of_nat (nat_of_ascii c - 32) else c.

(* str.lower *)
Fixpoint lower (s : string) : string :=
  match s with
  | EmptyString => EmptyString
  | String c t => String (lower_char c) (lower t)
  end.

(* str.lstrip *)
Fixpoint lstrip (s : string) : string :=
  match s with
  | EmptyString => EmptyString
  | String c t => if is_space c then lstrip t else s
  end.

(* str.rstrip: the empty string when only white space follows *)
Fixpoint rstrip (s : string) : string :=
  match s with
  | EmptyString => EmptyString
  | String c t =>
      match rstrip t with
      | EmptyString => if is_space c then EmptyString else String c EmptyString
      | t' => String c t'
      end
  end.

(* str.strip *)
Definition strip (s : string) : string := rstrip (lstrip s).

(* str.title: a letter is upper-cased when the character before it is
   not a letter, lower-cased otherwise *)
Fixpoint title_from (previous_is_cased : bool) (s : string) : string :=
  match s with
  | EmptyString => EmptyString
  | String c t =>
      if is_lower c then
        String (if previous_is_cased then c else upper_char c) (title_from true t)
      else if is_upper c then
        String (if previous_is_cased then lower_char c else c) (title_from true t)
      else String c (title_from false t)
  end.

Definition title (s : string) : string := title_from false s.

(* truth value of a str *)
Definition truthy (s : string) : bool :=
  match s with EmptyString => false | _ => true end.

(* x in [..] for strings, also Series.isin *)
Definition isin (x : string) (l : list string) : bool :=
  existsb (String.eqb x) l.

End PyStr.

(** ** Programs that call the similarity metric *)

Inductive exn : Type :=
| TypeError
| IndexError
| KeyError
| ValueError
| NetworkXNoPath
| SystemExit.

Inductive outcome (A : Type) : Type :=
| Ok (a : A)
| Err (e : exn).

Arguments Err {A} e.

Inductive prog (A : Type) : Type :=
| Ret (a : A)
| Raise (e : exn)
| Similarity (query choice : string) (k : Z -> prog A).

Arguments Raise {A} e.

Fixpoint bind {A B : Type} (p : prog A) (f : A -> prog B) : prog B :=
  match p with
  | Ret a => f a
  | Raise e => Raise e
  | Similarity q c k => Similarity q c (fun s => bind (k s) f)
  end.

Notation "x <- p ;; q" := (bind p (fun x => q))
  (at level 61, p at next level, right associativity).
Notation "' pat <- p ;; q" := (bind p (fun x => match x with pat => q end))
  (at level 61, pat pattern, p at next level, right associativity).

(* the value of a program when the metric is [scorer] *)
Fixpoint run {A : Type} (scorer : string -> string -> Z) (p : prog A) : outcome A :=
  match p with
  | Ret a => Ok a
  | Raise e => Err e
  | Similarity q c k => run scorer (k (scorer q c))
  end.

(* the comparisons a program asks for, in order *)
Fixpoint calls {A : Type} (scorer : string -> string -> Z) (p : prog A)
  : list (string * string) :=
  match p with
  | Ret _ => []
  | Raise _ => []
  | Similarity q c k => (q, c) :: calls scorer (k (scorer q c))
  end.

Fixpoint mapM {A B : Type} (f : A -> prog B) (l : list A) : prog (list B) :=
  match l with
  | [] => Ret []
  | x :: t => y <- f x ;; ys <- mapM f t ;; Ret (y :: ys)
  end.

(** ** fuzzywuzzy's process.extractOne

    The package is not part of the repository.  [extractOne query choices]
    scores the query against every choice with the metric, keeps the pairs
    whose score reaches the cut-off 0, and returns the first pair of
    greatest score ([max] keeps the first maximum); [None] when no pair is
    left. *)

Module Fuzzy.

Fixpoint extractWithoutOrder (query : string) (choices : list string)
  : prog (list (string * Z)) :=
  match choices with
  | [] => Ret []
  | choice :: rest =>
      Similarity query choice (fun score =>
        l <- extractWithoutOrder query rest ;;
        Ret (if (0 <=? score)%Z then (choice, score) :: l else l))
  end.

(* max(best_list, key=lambda i: i[1]) from a first candidate on *)
Fixpoint max_from (best : string * Z) (l : list (string * Z)) : string * Z :=
  match l with
  | [] => best
  | x :: t => if (snd best <? snd x)%Z then max_from x t else max_from best t
  end.

Definition max_by_score (l : list (string * Z)) : option (string * Z) :=
  match l with
  | [] => None
  | x :: t => Some (max_from x t)
  end.

Definition extractOne (query : string) (choices : list string)
  : prog (option (string * Z)) :=
  best_list <- extractWithoutOrder query choices ;;
  Ret (max_by_score best_list).

End Fuzzy.

(** ** pandas and builtins *)

Module Py.

(* Series.unique: first occurrences, in order *)
Fixpoint unique_from (seen : list string) (l : list string) : list string :=
  match l with
  | [] => []
  | x :: t =>
      if PyStr.isin x seen then unique_from seen t
      else x :: unique_from (x :: seen) t
  end.

Definition unique (l : list string) : list string := unique_from [] l.

(* best_match, score = <result of extractOne> *)
Definition unpack2 {A B : Type} (r : option (A * B)) : prog (A * B) :=
  match r with
  | Some p => Ret p
  | None => Raise TypeError
  end.

(* df.iloc[0] *)
Definition iloc0 {A : Type} (df : list A) : prog A :=
  match df with
  | x :: _ => Ret x
  | [] => Raise IndexError
  end.

(* df.empty, not l *)
Definition empty {A : Type} (df : list A) : bool :=
  match df with [] => true | _ => false end.

(* d[key] *)
Definition getitem {V : Type} (d : list (string * V)) (key : string) : prog V :=
  match find (fun kv => String.eqb (fst kv) key) d with
  | Some kv => Ret (snd kv)
  | None => Raise KeyError
  end.

(* d.get(key, default) *)
Definition get {V : Type} (d : list (string * V)) (key : string) (default : V) : V :=
  match find (fun kv => String.eqb (fst kv) key) d with
  | Some kv => snd kv
  | None => default
  end.

Definition Rltb (x y : R) : bool := if Rlt_dec x y then true else false.
Definition Rleb (x y : R) : bool := if Rle_dec x y then true else false.

(* sorted(l, key=key): a stable sort; [lt] is the order of the keys *)
Section Sorted.
Variables (A K : Type) (lt : K -> K -> bool) (key : A -> K).

Fixpoint insert (x : A) (l : list A) : list A :=
  match l with
  | [] => [x]
  | y :: t => if lt (key y) (key x) then y :: insert x t else x :: l
  end.

Fixpoint sorted (l : list A) : list A :=
  match l with
  | [] => []
  | x :: t => insert x (sorted t)
  end.
End Sorted.

(* math.floor, as an integer *)
Definition floor (x : R) : Z := (up x - 1)%Z.

(* round(x, ndigits): nearest multiple of 10^-ndigits, a tie goes to
   the even neighbour *)
Definition round_half_even (x : R) : Z :=
  let f := floor x in
  let d := (x - IZR f)%R in
  if Rlt_dec d (1 / 2) then f
  else if Rlt_dec (1 / 2) d then (f + 1)%Z
  else if Z.even f then f else (f + 1)%Z.

Definition round (x : R) (ndigits : nat) : R :=
  (IZR (round_half_even (x * 10 ^ ndigits)) / 10 ^ ndigits)%R.

(* math.radians *)
Definition radians (x : R) : R := (x * PI / 180)%R.

End Py.

(** ** app.py *)

Module App.
Local Open Scope string_scope.
Local Open Scope R_scope.

Record Row : Type := {
  Ward_Code : string;
  Areas : string;
  Latitude : R;
  Longitude : R;
  Flood_Risk_Level : string
}.

Record Route : Type := {
  destination : string;
  ward : string;
  destination_lat : R;
  destination_lon : R;
  distance_km : R;
  eta_min : R;
  risk_level : string;
  combined_score : R
}.

(* lines 126-134, the distance of the loop body *)
Definition haversine_km (start_lat start_lon lat lon : R) : R :=
  let lat1 := Py.radians start_lat in
  let lon1 := Py.radians start_lon in
  let lat2 := Py.radians lat in
  let lon2 := Py.radians lon in
  let dlat := lat2 - lat1 in
  let dlon := lon2 - lon1 in
  let a := sin (dlat / 2) ^ 2 + cos lat1 * cos lat2 * sin (dlon / 2) ^ 2 in
  let c := 2 * asin (sqrt a) in
  6371 * c.

Definition risk_scores : list (string * Z) :=
  [("Low", 1%Z); ("Medium", 2%Z); ("High", 3%Z)].

(* line 138 *)
Definition score_formula (risk_score : Z) (distance_km : R) : R :=
  (IZR risk_score * 2) + (distance_km * 0.5).

(* lines 141-146 *)
Definition speed_for (distance_km : R) : R :=
  if Rlt_dec distance_km 5 then 15
  else if Rlt_dec distance_km 15 then 25
  else 35.

(* one iteration of the loop of lines 125-159 *)
Definition route_to (start_lat start_lon : R) (safe_area : Row) : prog Route :=
  let distance_km :=
    haversine_km start_lat start_lon (Latitude safe_area) (Longitude safe_area) in
  risk_score <- Py.getitem risk_scores (Flood_Risk_Level safe_area) ;;
  let combined_score := score_formula risk_score distance_km in
  let speed_kmh := speed_for distance_km in
  let eta_min := (distance_km / speed_kmh) * 60 * 1.3 in
  Ret {| destination := PyStr.title (Areas safe_area);
         ward := Ward_Code safe_area;
         destination_lat := Latitude safe_area;
         destination_lon := Longitude safe_area;
         distance_km := Py.round distance_km 2;
         eta_min := Py.round eta_min 1;
         risk_level := Flood_Risk_Level safe_area;
         combined_score := combined_score |}.

Definition result : Type := option string * option Z * list Route.

Definition calculate_evacuation_routes (user_area : string) (flood_df : list Row)
  : prog result :=
  let all_areas := Py.unique (map Areas flood_df) in
  res <- Fuzzy.extractOne (PyStr.lower user_area) all_areas ;;
  '(best_match, score) <- Py.unpack2 res ;;
  if (score <? 50)%Z then Ret (None, None, [])
  else
    start_area <- Py.iloc0 (filter (fun r => Areas r =? best_match)%string flood_df) ;;
    let start_lat := Latitude start_area in
    let start_lon := Longitude start_area in
    let safe_zones :=
      filter (fun r => PyStr.isin (Flood_Risk_Level r) ["Low"; "Medium"]) flood_df in
    let safe_zones :=
      filter (fun r => negb (Areas r =? best_match)%string) safe_zones in
    if Py.empty safe_zones then Ret (Some best_match, Some score, [])
    else
      routes <- mapM (route_to start_lat start_lon) safe_zones ;;
      let routes := Py.sorted Py.Rltb combined_score routes in
      Ret (Some best_match, Some score, firstn 3 routes).

(* st.session_state *)
Record session_state : Type := {
  routes_computed : bool;
  best_match : option string;
  match_score : option Z;
  routes : option (list Route);
  user_region_input : string
}.

(* lines 194-196 *)
Definition initial_state : session_state :=
  {| routes_computed := false; best_match := None; match_score := None;
     routes := None; user_region_input := "" |}.

(* lines 239-251: the FIND EVACUATION ROUTES button; the Boolean tells
   whether st.error was shown *)
Definition on_find_button (user_region : string) (flood_df : list Row)
    (st : session_state) : prog (session_state * bool) :=
  if negb (PyStr.truthy (PyStr.strip user_region)) then
    Ret ({| routes_computed := false; best_match := best_match st;
            match_score := match_score st; routes := routes st;
            user_region_input := user_region_input st |}, true)
  else
    '(best_match, score, routes) <- calculate_evacuation_routes user_region flood_df ;;
    Ret ({| routes_computed := true; best_match := best_match;
            match_score := score; routes := Some routes;
            user_region_input := user_region |}, false).

End App.

(** ** mumbai_evacuation_real.py *)

Module Real.
Local Open Scope string_scope.
Local Open Scope R_scope.

Record Row : Type := {
  Ward_Code : string;
  Areas : string;
  Latitude : R;
  Longitude : R;
  Flood_Risk_Level : string
}.

Record Route : Type := {
  destination : string;
  ward : string;
  destination_lat : R;
  destination_lon : R;
  distance_km : R;
  eta_min : R;
  risk_level : string;
  safety_score : Z;
  combined_score : R
}.

(* lines 122-129 *)
Definition haversine_km (start_lat start_lon lat lon : R) : R :=
  let lat1 := Py.radians start_lat in
  let lon1 := Py.radians start_lon in
  let lat2 := Py.radians lat in
  let lon2 := Py.radians lon in
  let dlat := lat2 - lat1 in
  let dlon := lon2 - lon1 in
  let a := sin (dlat / 2) ^ 2 + cos lat1 * cos lat2 * sin (dlon / 2) ^ 2 in
  let c := 2 * asin (sqrt a) in
  6371 * c.

Definition risk_scores : list (string * Z) :=
  [("Low", 1%Z); ("Medium", 2%Z); ("High", 3%Z)].

(* one iteration of the loop of lines 120-161 *)
Definition route_to (start_lat start_lon : R) (safe_area : Row) : prog Route :=
  let distance_km :=
    haversine_km start_lat start_lon (Latitude safe_area) (Longitude safe_area) in
  risk_score <- Py.getitem risk_scores (Flood_Risk_Level safe_area) ;;
  let distance_score := distance_km in
  let combined_score := (IZR risk_score * 2) + (distance_score * 0.5) in
  let speed_kmh :=
    if Rlt_dec distance_km 5 then 15
    else if Rlt_dec distance_km 15 then 25
    else 35 in
  let eta_min := (distance_km / speed_kmh) * 60 in
  let eta_min := eta_min * 1.3 in
  Ret {| destination := PyStr.title (Areas safe_area);
         ward := Ward_Code safe_area;
         destination_lat := Latitude safe_area;
         destination_lon := Longitude safe_area;
         distance_km := Py.round distance_km 2;
         eta_min := Py.round eta_min 1;
         risk_level := Flood_Risk_Level safe_area;
         safety_score := risk_score;
         combined_score := combined_score |}.

Definition result : Type := option string * option Z * list Route.

Definition calculate_evacuation_routes (user_area : string) (flood_df : list Row)
  : prog result :=
  let all_areas := Py.unique (map Areas flood_df) in
  res <- Fuzzy.extractOne (PyStr.lower user_area) all_areas ;;
  '(best_match, score) <- Py.unpack2 res ;;
  if (score <? 50)%Z then Ret (None, None, [])
  else
    start_area <- Py.iloc0 (filter (fun r => Areas r =? best_match)%string flood_df) ;;
    let start_lat := Latitude start_area in
    let start_lon := Longitude start_area in
    let safe_zones :=
      filter (fun r => PyStr.isin (Flood_Risk_Level r) ["Low"; "Medium"]) flood_df in
    let safe_zones :=
      filter (fun r => negb (Areas r =? best_match)%string) safe_zones in
    if Py.empty safe_zones then Ret (Some best_match, Some score, [])
    else
      routes <- mapM (route_to start_lat start_lon) safe_zones ;;
      let routes := Py.sorted Py.Rltb combined_score routes in
      Ret (Some best_match, Some score, firstn 3 routes).

End Real.

(** ** streamlit_app.py *)

Module Streamlit.
Local Open Scope string_scope.
Local Open Scope R_scope.

Record Row : Type := {
  Ward : string;
  Area_Name : string;
  Latitude : R;
  Longitude : R;
  Flood_Risk : string;
  Evacuation_Priority : string;
  Population_Density : Z
}.

Record Route : Type := {
  destination : string;
  ward : string;
  destination_lat : R;
  destination_lon : R;
  distance_km : R;
  eta_minutes : R;
  risk_level : string;
  evacuation_priority : string;
  safety_improvement : Z;
  capacity_score : R;
  route_score : R;
  population_density : Z;
  transport : string
}.

(* lines 314-321 *)
Definition haversine_km (start_lat start_lon lat lon : R) : R :=
  let lat1 := Py.radians start_lat in
  let lon1 := Py.radians start_lon in
  let lat2 := Py.radians lat in
  let lon2 := Py.radians lon in
  let dlat := lat2 - lat1 in
  let dlon := lon2 - lon1 in
  let a := sin (dlat / 2) ^ 2 + cos lat1 * cos lat2 * sin (dlon / 2) ^ 2 in
  let c := 2 * asin (sqrt a) in
  6371 * c.

Definition risk_scores : list (string * Z) :=
  [("Critical", 4%Z); ("High", 3%Z); ("Medium", 2%Z); ("Low", 1%Z)].

(* line 330 *)
Definition safety_improvement_of (current_risk_score safety_score : Z) : Z :=
  ((current_risk_score - safety_score) * 2)%Z.

(* lines 329 and 331 *)
Definition route_score_of (distance_km : R) (safety_improvement : Z) : R :=
  let distance_score := distance_km * 0.3 in
  distance_score - IZR safety_improvement.

(* lines 334-345 *)
Definition total_eta_of (distance_km : R) : R :=
  let base_speed :=
    if Rlt_dec distance_km 3 then 12
    else if Rlt_dec distance_km 8 then 18
    else if Rlt_dec distance_km 15 then 25
    else 35 in
  let emergency_speed_factor := 0.7 in
  let actual_speed := base_speed * emergency_speed_factor in
  ((distance_km / actual_speed) * 60) * 1.4.

(* lines 348-362 *)
Definition transport_of (current_priority : string) (distance_km : R) : string :=
  if (current_priority =? "Immediate")%string then
    if Rlt_dec distance_km 2 then "🚶‍♂️ Walk Fast"
    else if Rlt_dec distance_km 8 then "🚲 Bicycle/Auto"
    else "🚐 Emergency Vehicle"
  else if Rlt_dec distance_km 1 then "🚶‍♂️ Walk"
  else if Rlt_dec distance_km 5 then "🚲 Bicycle"
  else if Rlt_dec distance_km 12 then "🚗 Car/Taxi"
  else "🚌 Bus/Train".

(* one iteration of the loop of lines 312-380 *)
Definition route_to (start_lat start_lon : R) (current_risk current_priority : string)
    (destination : Row) : Route :=
  let distance_km :=
    haversine_km start_lat start_lon (Latitude destination) (Longitude destination) in
  let safety_score := Py.get risk_scores (Flood_Risk destination) 2%Z in
  let current_risk_score := Py.get risk_scores current_risk 2%Z in
  let safety_improvement := safety_improvement_of current_risk_score safety_score in
  let route_score := route_score_of distance_km safety_improvement in
  let total_eta := total_eta_of distance_km in
  let transport := transport_of current_priority distance_km in
  let capacity_score :=
    Rmin 100 (Rmax 10 (100 - (IZR (Population_Density destination) / 1000))) in
  {| destination := PyStr.title (Area_Name destination);
     ward := Ward destination;
     destination_lat := Latitude destination;
     destination_lon := Longitude destination;
     distance_km := Py.round distance_km 2;
     eta_minutes := Py.round total_eta 1;
     risk_level := Flood_Risk destination;
     evacuation_priority := Evacuation_Priority destination;
     safety_improvement := safety_improvement;
     capacity_score := Py.round capacity_score 1;
     route_score := Py.round route_score 2;
     population_density := Population_Density destination;
     transport := transport |}.

Definition result : Type := option string * option Z * list Route.

Definition calculate_evacuation_routes (user_area : string) (flood_df : list Row)
  : prog result :=
  let all_areas := Py.unique (map Area_Name flood_df) in
  res <- Fuzzy.extractOne (PyStr.lower user_area) all_areas ;;
  '(best_match, score) <- Py.unpack2 res ;;
  if (score <? 40)%Z then Ret (None, None, [])
  else
    current_location <-
      Py.iloc0 (filter (fun r => Area_Name r =? best_match)%string flood_df) ;;
    let start_lat := Latitude current_location in
    let start_lon := Longitude current_location in
    let current_risk := Flood_Risk current_location in
    let current_priority := Evacuation_Priority current_location in
    let safe_zones :=
      filter (fun r =>
                PyStr.isin (Flood_Risk r) ["Low"; "Medium"]
                && negb (Area_Name r =? best_match)%string
                && PyStr.isin (Evacuation_Priority r) ["Safe"; "Standard"])
             flood_df in
    if Py.empty safe_zones then Ret (Some best_match, Some score, [])
    else
      let routes :=
        map (route_to start_lat start_lon current_risk current_priority) safe_zones in
      let routes := Py.sorted Py.Rltb route_score routes in
      Ret (Some best_match, Some score, firstn 5 routes).

End Streamlit.

(** ** mumbai_evacuation_complete.py *)

Module Complete.
Local Open Scope string_scope.
Local Open Scope R_scope.

Record Row : Type := {
  Ward : string;
  Area_Name : string;
  Latitude : R;
  Longitude : R;
  Flood_Risk : string;
  Evacuation_Priority : string;
  Population_Density : Z
}.

Record Route : Type := {
  destination : string;
  ward : string;
  destination_lat : R;
  destination_lon : R;
  distance_km : R;
  eta_minutes : R;
  risk_level : string;
  evacuation_priority : string;
  safety_improvement : Z;
  capacity_score : R;
  route_score : R;
  population_density : Z;
  recommended_transport : string
}.

(* lines 332-339 *)
Definition haversine_km (start_lat start_lon lat lon : R) : R :=
  let lat1 := Py.radians start_lat in
  let lon1 := Py.radians start_lon in
  let lat2 := Py.radians lat in
  let lon2 := Py.radians lon in
  let dlat := lat2 - lat1 in
  let dlon := lon2 - lon1 in
  let a := sin (dlat / 2) ^ 2 + cos lat1 * cos lat2 * sin (dlon / 2) ^ 2 in
  let c := 2 * asin (sqrt a) in
  6371 * c.

Definition risk_scores : list (string * Z) :=
  [("Critical", 4%Z); ("High", 3%Z); ("Medium", 2%Z); ("Low", 1%Z)].

Definition urgency_multipliers : list (string * R) :=
  [("Immediate", 3); ("Urgent", 2); ("Standard", 1.5); ("Safe", 1)].

(* line 347 *)
Definition density_factor_of (population_density : Z) : R :=
  IZR population_density / 100000.

(* line 354 *)
Definition safety_improvement_of (current_risk_score safety_score : Z) : Z :=
  ((current_risk_score - safety_score) * 2)%Z.

(* lines 353-358 *)
Definition route_score_of (distance_km : R) (safety_improvement : Z)
    (density_factor urgency_multiplier : R) : R :=
  let distance_score := distance_km * 0.3 in
  let density_penalty := density_factor * 0.5 in
  (distance_score - IZR safety_improvement + density_penalty) * urgency_multiplier.

(* lines 361-377 *)
Definition total_eta_of (distance_km : R) : R :=
  let base_speed :=
    if Rlt_dec distance_km 3 then 12
    else if Rlt_dec distance_km 8 then 18
    else if Rlt_dec distance_km 15 then 25
    else 35 in
  let emergency_speed_factor := 0.7 in
  let actual_speed := base_speed * emergency_speed_factor in
  let base_eta := (distance_km / actual_speed) * 60 in
  let emergency_buffer := base_eta * 0.4 in
  base_eta + emergency_buffer.

Definition get_transport_recommendation (distance_km : R) (priority : string) : string :=
  if (priority =? "Immediate")%string then
    if Rlt_dec distance_km 2 then "🚶‍♂️ Walk Fast"
    else if Rlt_dec distance_km 8 then "🚲 Bicycle/Auto"
    else "🚐 Emergency Vehicle"
  else if Rlt_dec distance_km 1 then "🚶‍♂️ Walk"
  else if Rlt_dec distance_km 5 then "🚲 Bicycle"
  else if Rlt_dec distance_km 12 then "🚗 Car/Taxi"
  else "🚌 Bus/Train".

(* one iteration of the loop of lines 330-396 *)
Definition route_to (start_lat start_lon : R) (current_risk current_priority : string)
    (destination : Row) : prog Route :=
  let distance_km :=
    haversine_km start_lat start_lon (Latitude destination) (Longitude destination) in
  let safety_score := Py.get risk_scores (Flood_Risk destination) 2%Z in
  let current_risk_score := Py.get risk_scores current_risk 2%Z in
  let density_factor := density_factor_of (Population_Density destination) in
  urgency_multiplier <- Py.getitem urgency_multipliers current_priority ;;
  let safety_improvement := safety_improvement_of current_risk_score safety_score in
  let route_score :=
    route_score_of distance_km safety_improvement density_factor urgency_multiplier in
  let total_eta := total_eta_of distance_km in
  let capacity_score :=
    Rmin 100 (Rmax 10 (100 - (IZR (Population_Density destination) / 1000))) in
  Ret {| destination := PyStr.title (Area_Name destination);
         ward := Ward destination;
         destination_lat := Latitude destination;
         destination_lon := Longitude destination;
         distance_km := Py.round distance_km 2;
         eta_minutes := Py.round total_eta 1;
         risk_level := Flood_Risk destination;
         evacuation_priority := Evacuation_Priority destination;
         safety_improvement := safety_improvement;
         capacity_score := Py.round capacity_score 1;
         route_score := Py.round route_score 2;
         population_density := Population_Density destination;
         recommended_transport :=
           get_transport_recommendation distance_km current_priority |}.

Definition result : Type := option string * option Z * list Route.

Definition calculate_advanced_evacuation_routes (user_area : string)
    (flood_df : list Row) : prog result :=
  let all_areas := Py.unique (map Area_Name flood_df) in
  res <- Fuzzy.extractOne (PyStr.lower user_area) all_areas ;;
  '(best_match, score) <- Py.unpack2 res ;;
  if (score <? 40)%Z then Ret (None, None, [])
  else
    current_location <-
      Py.iloc0 (filter (fun r => Area_Name r =? best_match)%string flood_df) ;;
    let start_lat := Latitude current_location in
    let start_lon := Longitude current_location in
    let current_risk := Flood_Risk current_location in
    let current_priority := Evacuation_Priority current_location in
    let safe_zones :=
      filter (fun r =>
                PyStr.isin (Flood_Risk r) ["Low"; "Medium"]
                && negb (Area_Name r =? best_match)%string
                && PyStr.isin (Evacuation_Priority r) ["Safe"; "Standard"])
             flood_df in
    if Py.empty safe_zones then Ret (Some best_match, Some score, [])
    else
      routes <-
        mapM (route_to start_lat start_lon current_risk current_priority) safe_zones ;;
      let routes := Py.sorted Py.Rltb route_score routes in
      Ret (Some best_match, Some score, firstn 5 routes).

End Complete.

(** ** evacuation_app_simple.py *)

Module Simple.
Local Open Scope string_scope.
Local Open Scope R_scope.

Record Row : Type := {
  Ward_Code : string;
  Areas : string;
  Latitude : R;
  Longitude : R;
  Flood_risk_level : string
}.

Record Route : Type := {
  destination : string;
  destination_lat : R;
  destination_lon : R;
  distance_km : R;
  eta_min : R;
  risk_level : string
}.

(* lines 24-34: the sample data used when the CSV file is missing *)
Definition sample_data : list Row :=
  [ {| Ward_Code := "Ward A"; Areas := "colaba causeway"; Latitude := 18.9151;
       Longitude := 72.8141; Flood_risk_level := "Moderate" |};
    {| Ward_Code := "Ward B"; Areas := "fort"; Latitude := 19.0509;
       Longitude := 72.7615; Flood_risk_level := "Low" |};
    {| Ward_Code := "Ward C"; Areas := "marine lines"; Latitude := 18.9458;
       Longitude := 72.8238; Flood_risk_level := "Moderate" |};
    {| Ward_Code := "A"; Areas := "ballard estate"; Latitude := 18.9496;
       Longitude := 72.8414; Flood_risk_level := "Moderate" |};
    {| Ward_Code := "B"; Areas := "dongri circle"; Latitude := 18.9594;
       Longitude := 72.8376; Flood_risk_level := "Moderate" |};
    {| Ward_Code := "C"; Areas := "cst"; Latitude := 18.9472;
       Longitude := 72.8272; Flood_risk_level := "Moderate" |} ].

(* lines 64-66 *)
Definition euclid_km (start_lat start_lon lat lon : R) : R :=
  let lat_diff := lat - start_lat in
  let lon_diff := lon - start_lon in
  sqrt (lat_diff ^ 2 + lon_diff ^ 2) * 111.

(* one iteration of the loop of lines 62-78 *)
Definition route_to (start_lat start_lon : R) (safe_area : Row) : Route :=
  let distance_km :=
    euclid_km start_lat start_lon (Latitude safe_area) (Longitude safe_area) in
  let eta_min := (distance_km / 25) * 60 in
  {| destination := PyStr.title (Areas safe_area);
     destination_lat := Latitude safe_area;
     destination_lon := Longitude safe_area;
     distance_km := distance_km;
     eta_min := eta_min;
     risk_level := Flood_risk_level safe_area |}.

Definition result : Type := option string * option Z * list Route.

Definition calculate_simple_routes (user_area : string) (flood_df : list Row)
  : prog result :=
  let all_areas := Py.unique (map Areas flood_df) in
  res <- Fuzzy.extractOne (PyStr.lower user_area) all_areas ;;
  '(best_match, score) <- Py.unpack2 res ;;
  if (score <? 60)%Z then Ret (None, None, [])
  else
    start <- Py.iloc0 (filter (fun r => Areas r =? best_match)%string flood_df) ;;
    let start_lat := Latitude start in
    let start_lon := Longitude start in
    let safe_areas :=
      filter (fun r =>
                PyStr.isin (PyStr.lower (Flood_risk_level r)) ["low"; "minimal"; "safe"])
             flood_df in
    if Py.empty safe_areas then Ret (Some best_match, Some score, [])
    else
      let routes := map (route_to start_lat start_lon) (firstn 3 safe_areas) in
      let routes := Py.sorted Py.Rltb distance_km routes in
      Ret (Some best_match, Some score, firstn 2 routes).

End Simple.

(** ** Python dicts, in insertion order *)

Module Dict.
Section Dict.
Variables (K V : Type) (eqb : K -> K -> bool).

Definition t : Type := list (K * V).

(* d.get(k) *)
Definition get (d : t) (k : K) : option V :=
  match find (fun kv => eqb (fst kv) k) d with
  | Some kv => Some (snd kv)
  | None => None
  end.

(* d[k] = v *)
Fixpoint set (d : t) (k : K) (v : V) : t :=
  match d with
  | [] => [(k, v)]
  | (k', v') :: rest => if eqb k' k then (k', v) :: rest else (k', v') :: set rest k v
  end.

(* dict(pairs) *)
Definition of_pairs (pairs : list (K * V)) : t :=
  fold_left (fun d kv => set d (fst kv) (snd kv)) pairs [].

End Dict.
End Dict.

(** ** Road graphs

    A networkx MultiDiGraph as the scripts read it: nodes with their
    x (longitude) and y (latitude), edges (u, v, key) with their data.
    The graph algorithms belong to networkx and osmnx; the functions
    below take them in a [RoadLib]. *)

Module Road.

Definition node : Type := Z.

Record NodeData : Type := {
  x : R;
  y : R
}.

Record EdgeData : Type := {
  length_attr : option R;
  risk_attr : option Z;
  name_attr : option string
}.

Definition edge : Type := (node * node * Z * EdgeData)%type.

Record Graph : Type := {
  nodes : list (node * NodeData);
  edges : list edge
}.

Record RoadLib : Type := {
  (* ox.distance.nearest_nodes(G, X, Y) *)
  nearest_nodes : Graph -> R -> R -> node;
  (* nx.shortest_path(G, source, target, weight="length");
     None when it raises NetworkXNoPath or NodeNotFound *)
  shortest_path : Graph -> node -> node -> option (list node);
  (* nx.single_source_dijkstra_path_length(G, source, weight="length") *)
  single_source_dijkstra_path_length : Graph -> node -> list (node * R);
  (* ox.utils_graph.get_route_edge_attributes(G, route, "length");
     None when it raises *)
  get_route_edge_attributes : Graph -> list node -> option (list R)
}.

(* G[u][v][0] *)
Definition edge0 (G : Graph) (u v : node) : option EdgeData :=
  match find (fun e : edge =>
                let '(u', v', k, _) := e in
                ((u' =? u) && (v' =? v) && (k =? 0))%Z) (edges G) with
  | Some (_, _, _, d) => Some d
  | None => None
  end.

(* G.get_edge_data(u, v): the data of the parallel edges from u to v *)
Definition get_edge_data (G : Graph) (u v : node) : list EdgeData :=
  map (fun e : edge => snd e)
      (filter (fun e : edge =>
                 let '(u', v', _, _) := e in ((u' =? u) && (v' =? v))%Z) (edges G)).

(* zip(path[:-1], path[1:]) *)
Fixpoint steps (path : list node) : list (node * node) :=
  match path with
  | u :: (v :: _) as rest => (u, v) :: steps rest
  | _ => []
  end.

End Road.

(** ** evacuation_app.py *)

Module EvacApp.
Import Road.
Local Open Scope string_scope.
Local Open Scope R_scope.

Record Row : Type := {
  Ward_Code : string;
  Areas : string;
  Latitude : R;
  Longitude : R;
  Flood_risk_level : string
}.

Record Route : Type := {
  path : list node;
  distance_km : R;
  eta_min : R;
  risk : Z;
  roads : list string
}.

(* lines 51-55 *)
Definition assign_risk_to_edges (G : Graph) : Graph :=
  {| nodes := nodes G;
     edges := map (fun e : edge =>
                     let '(u, v, k, data) := e in
                     (u, v, k, {| length_attr := length_attr data;
                                  risk_attr := Some 0%Z;
                                  name_attr := name_attr data |})) (edges G) |}.

(* sum([G[u][v][0].get(attr, 0) for u, v in zip(path[:-1], path[1:])]);
   None when some G[u][v][0] raises KeyError *)
Fixpoint sum_lengths (G : Graph) (pairs : list (node * node)) : option R :=
  match pairs with
  | [] => Some 0
  | (u, v) :: rest =>
      match edge0 G u v, sum_lengths G rest with
      | Some d, Some total =>
          Some (match length_attr d with Some l => l | None => 0 end + total)
      | _, _ => None
      end
  end.

Fixpoint sum_risks (G : Graph) (pairs : list (node * node)) : option Z :=
  match pairs with
  | [] => Some 0%Z
  | (u, v) :: rest =>
      match edge0 G u v, sum_risks G rest with
      | Some d, Some total =>
          Some (match risk_attr d with Some r => r | None => 0 end + total)%Z
      | _, _ => None
      end
  end.

Definition node_in (n : node) (path : list node) : bool :=
  existsb (Z.eqb n) path.

(* lines 92-96 and 102; list(set(..)) is taken in order of first occurrence *)
Definition road_names (G : Graph) (path : list node) : list string :=
  Py.unique
    (map (fun e : edge =>
            let '(_, _, _, d) := e in
            match name_attr d with Some n => n | None => "Unnamed Road" end)
         (filter (fun e : edge =>
                    let '(u, v, _, _) := e in node_in u path && node_in v path)
                 (edges G))).

(* the body of the try of lines 87-103; None when it raises *)
Definition try_route (lib : RoadLib) (G : Graph) (orig_node dest_node : node)
  : option Route :=
  match shortest_path lib G orig_node dest_node with
  | None => None
  | Some path =>
      match sum_lengths G (steps path), sum_risks G (steps path) with
      | Some length, Some risk =>
          let eta := (length / 1000) / 30 * 60 in
          Some {| path := path;
                  distance_km := length / 1000;
                  eta_min := eta;
                  risk := risk;
                  roads := road_names G path |}
      | _, _ => None
      end
  end.

(* lines 85-105 *)
Fixpoint routes_to (lib : RoadLib) (G : Graph) (orig_node : node)
    (dest_nodes : list node) : list Route :=
  match dest_nodes with
  | [] => []
  | dest_node :: rest =>
      match try_route lib G orig_node dest_node with
      | Some r => r :: routes_to lib G orig_node rest
      | None => routes_to lib G orig_node rest
      end
  end.

(* (risk, distance_km) < (risk', distance_km') on tuples *)
Definition key_lt (a b : Z * R) : bool :=
  if (fst a =? fst b)%Z then Py.Rltb (snd a) (snd b) else (fst a <? fst b)%Z.

Definition result : Type := option string * option Z * option (list Route).

Definition get_two_safest_routes (lib : RoadLib) (user_area : string) (G : Graph)
    (flood_df : list Row) : prog result :=
  let all_areas := Py.unique (map Areas flood_df) in
  res <- Fuzzy.extractOne (PyStr.lower user_area) all_areas ;;
  '(best_match, score) <- Py.unpack2 res ;;
  if (score <? 60)%Z then Ret (None, None, None)
  else
    start <- Py.iloc0 (filter (fun r => Areas r =? best_match)%string flood_df) ;;
    let start_lat := Latitude start in
    let start_lon := Longitude start in
    let orig_node := nearest_nodes lib G start_lon start_lat in
    let safe_df :=
      filter (fun r =>
                PyStr.isin (PyStr.lower (Flood_risk_level r)) ["low"; "minimal"; "safe"])
             flood_df in
    let safe_nodes :=
      map (fun row => nearest_nodes lib G (Longitude row) (Latitude row)) safe_df in
    if Py.empty safe_nodes then Ret (Some best_match, Some score, Some [])
    else
      let routes := routes_to lib G orig_node (firstn 5 safe_nodes) in
      let routes := Py.sorted key_lt (fun x => (risk x, distance_km x)) routes in
      Ret (Some best_match, Some score, Some (firstn 2 routes)).

End EvacApp.

(** ** tload.py *)

Module Tload.
Import Road.
Local Open Scope string_scope.
Local Open Scope R_scope.

(* a row of flood_df after normalize_columns *)
Record Row : Type := {
  areas : string;
  latitude : R;
  longitude : R;
  flood_risk_level : string
}.

(* lines 65-74; a fuzzywuzzy result is a pair, a rapidfuzz result a triple:
   both give res[0], int(res[1]) *)
Definition extract_best_match (query : string) (choices : list string)
  : prog (option string * Z) :=
  res <- Fuzzy.extractOne query choices ;;
  match res with
  | None => Ret (None, 0%Z)
  | Some (choice, score) => Ret (Some choice, score)
  end.

(* numpy.arctan2(y, x): the angle of the point (x, y) *)
Definition arctan2 (y x : R) : R :=
  if Rlt_dec 0 x then atan (y / x)
  else if Rlt_dec x 0 then
    if Rle_dec 0 y then atan (y / x) + PI else atan (y / x) - PI
  else if Rlt_dec 0 y then PI / 2
  else if Rlt_dec y 0 then - (PI / 2)
  else 0.

(* lines 76-84; R_ is the local R of the source *)
Definition haversine_m (lon1 lat1 lon2 lat2 : R) : R :=
  let R_ := 6371000.0 in
  let lon1 := Py.radians lon1 in
  let lat1 := Py.radians lat1 in
  let lon2 := Py.radians lon2 in
  let lat2 := Py.radians lat2 in
  let dlon := lon2 - lon1 in
  let dlat := lat2 - lat1 in
  let a := sin (dlat / 2.0) ^ 2 + cos lat1 * cos lat2 * sin (dlon / 2.0) ^ 2 in
  let c := 2 * arctan2 (sqrt a) (sqrt (1 - a)) in
  R_ * c.

(* d.get("length", float("inf")) < d'.get("length", float("inf")) *)
Definition length_lt (d d' : EdgeData) : bool :=
  match length_attr d, length_attr d' with
  | Some l, Some l' => Py.Rltb l l'
  | Some _, None => true
  | None, _ => false
  end.

(* min(vals, key=...) from a first candidate on: the first minimum *)
Fixpoint min_from (best : EdgeData) (vals : list EdgeData) : EdgeData :=
  match vals with
  | [] => best
  | d :: rest => if length_lt d best then min_from d rest else min_from best rest
  end.

(* lines 86-98 *)
Definition route_length_m (lib : RoadLib) (G : Graph) (route : list node) : R :=
  match get_route_edge_attributes lib G route with
  | Some lengths => fold_left Rplus lengths 0
  | None =>
      fold_left
        (fun total uv =>
           match get_edge_data G (fst uv) (snd uv) with
           | [] => total
           | d :: vals =>
               let best := min_from d vals in
               total + match length_attr best with Some l => l | None => 0.0 end
           end)
        (steps route) 0.0
  end.

(* np.argmin over one column of distances_stack: the first least entry *)
Fixpoint argmin_from (best_i : nat) (best : R) (i : nat) (l : list R) : nat :=
  match l with
  | [] => best_i
  | d :: rest =>
      if Rlt_dec d best then argmin_from i d (S i) rest
      else argmin_from best_i best (S i) rest
  end.

Definition argmin (l : list R) : prog nat :=
  match l with
  | [] => Raise ValueError
  | d :: rest => Ret (argmin_from 0 d 1 rest)
  end.

(* a row of edges_gdf with the columns of lines 147-152 *)
Record EdgeRow : Type := {
  _u : node;
  _v : node;
  region_idx : option nat;
  region_name : string;
  risk_level : string
}.

(* the state the script builds before it asks for a location *)
Record Globals : Type := {
  G : Graph;
  regions : list string;
  region_lons : list R;
  region_lats : list R;
  region_risks : list string;
  nodeid_to_region_idx : Dict.t node nat;
  edges_gdf : list EdgeRow
}.

(* l[i] *)
Definition item {A : Type} (l : list A) (i : nat) : prog A :=
  match nth_error l i with
  | Some a => Ret a
  | None => Raise IndexError
  end.

(* lines 150-152 for one edge *)
Definition tag_edge (regions region_risks : list string)
    (nodeid_to_region_idx : Dict.t node nat) (e : edge) : prog EdgeRow :=
  let '(u, v, _, _) := e in
  let region_idx := Dict.get Z.eqb nodeid_to_region_idx u in
  region_name <-
    match region_idx with Some i => item regions i | None => Ret "unknown" end ;;
  risk_level <-
    match region_idx with Some i => item region_risks i | None => Ret "unknown" end ;;
  Ret {| _u := u; _v := v; region_idx := region_idx;
         region_name := region_name; risk_level := risk_level |}.

(* df.iloc[::10] *)
Fixpoint every_10th (skip : nat) (l : list EdgeRow) : list EdgeRow :=
  match l with
  | [] => []
  | e :: rest =>
      match skip with
      | O => e :: every_10th 9 rest
      | S n => every_10th n rest
      end
  end.

(* lines 117-155 *)
Definition load (G : Graph) (flood_df : list Row) : prog Globals :=
  let regions := map areas flood_df in
  let region_lons := map longitude flood_df in
  let region_lats := map latitude flood_df in
  let region_risks := map flood_risk_level flood_df in
  nearest_region_idx_per_node <-
    mapM (fun n : node * NodeData =>
            argmin (map (fun r => haversine_m (longitude r) (latitude r)
                                    (x (snd n)) (y (snd n))) flood_df))
         (nodes G) ;;
  let nodeid_to_region_idx :=
    Dict.of_pairs Z.eqb (combine (map fst (nodes G)) nearest_region_idx_per_node) in
  edges_gdf <- mapM (tag_edge regions region_risks nodeid_to_region_idx) (edges G) ;;
  Ret {| G := G; regions := regions; region_lons := region_lons;
         region_lats := region_lats; region_risks := region_risks;
         nodeid_to_region_idx := nodeid_to_region_idx;
         edges_gdf := every_10th 0 edges_gdf |}.

Record Route : Type := {
  dest_region : string;
  dest_region_idx : nat;
  dest_node : node;
  path : list node;
  distance_km : R;
  eta_min : R
}.

(* regions.index(best_match) *)
Fixpoint index_from (i : nat) (l : list string) (s : string) : prog nat :=
  match l with
  | [] => Raise ValueError
  | a :: rest => if (a =? s)%string then Ret i else index_from (S i) rest s
  end.

(* [i for i, r in enumerate(region_risks) if str(r).lower() == "low"] *)
Fixpoint low_idxs_from (i : nat) (risks : list string) : list nat :=
  match risks with
  | [] => []
  | r :: rest =>
      if (PyStr.lower r =? "low")%string then i :: low_idxs_from (S i) rest
      else low_idxs_from (S i) rest
  end.

Definition opt_nat_eqb (a b : option nat) : bool :=
  match a, b with
  | Some i, Some j => Nat.eqb i j
  | None, None => true
  | _, _ => false
  end.

(* lines 202-209 *)
Fixpoint select (nodeid_to_region_idx : Dict.t node nat) (candidates : list (node * R))
    (selected : list (node * R * option nat)) (seen : list (option nat))
  : list (node * R * option nat) :=
  match candidates with
  | [] => selected
  | (node, dist_m) :: rest =>
      let ridx := Dict.get Z.eqb nodeid_to_region_idx node in
      let fresh := negb (existsb (opt_nat_eqb ridx) seen) in
      let selected :=
    if fresh then (selected ++ [(node, dist_m, ridx)])%list else selected in
      let seen := if fresh then ridx :: seen else seen in
      if (2 <=? List.length selected)%nat then selected
      else select nodeid_to_region_idx rest selected seen
  end.

(* one iteration of the loop of lines 212-223 *)
Definition route_to (lib : RoadLib) (g : Globals) (start_node : node)
    (sel : node * R * option nat) : prog Route :=
  let '(node, dist_m, ridx) := sel in
  match shortest_path lib (G g) start_node node with
  | None => Raise NetworkXNoPath
  | Some path =>
      let length_m := route_length_m lib (G g) path in
      let eta_min := (length_m / 1000.0) / 25.0 * 60.0 in
      match ridx with
      | None => Raise TypeError
      | Some ridx =>
          dest_region <- item (regions g) ridx ;;
          Ret {| dest_region := dest_region;
                 dest_region_idx := ridx;
                 dest_node := node;
                 path := path;
                 distance_km := length_m / 1000.0;
                 eta_min := eta_min |}
      end
  end.

Definition result : Type := option string * Z * list Route.

(* lines 176-224 *)
Definition find_two_safest_routes_for_user (lib : RoadLib) (g : Globals)
    (user_input_str : string) : prog result :=
  '(best_match, score) <-
    extract_best_match (PyStr.strip (PyStr.lower user_input_str)) (regions g) ;;
  match best_match with
  | None => Ret (None, score, [])
  | Some best_match =>
      if negb (PyStr.truthy best_match) || (score <? 50)%Z then Ret (None, score, [])
      else
        idx <- index_from 0 (regions g) best_match ;;
        start_lon <- item (region_lons g) idx ;;
        start_lat <- item (region_lats g) idx ;;
        let start_node := nearest_nodes lib (G g) start_lon start_lat in
        let low_region_idxs := low_idxs_from 0 (region_risks g) in
        if Py.empty low_region_idxs then Ret (Some best_match, score, [])
        else
          let safe_nodes :=
            map fst (filter (fun kv => existsb (Nat.eqb (snd kv)) low_region_idxs)
                            (nodeid_to_region_idx g)) in
          if Py.empty safe_nodes then Ret (Some best_match, score, [])
          else
            let lengths :=
              single_source_dijkstra_path_length lib (G g) start_node in
            let candidates :=
              flat_map (fun node =>
                          match Dict.get Z.eqb lengths node with
                          | Some l => [(node, l)]
                          | None => []
                          end) safe_nodes in
            if Py.empty candidates then Ret (Some best_match, score, [])
            else
              let candidates := Py.sorted Py.Rltb snd candidates in
              let selected := select (nodeid_to_region_idx g) candidates [] [] in
              routes <- mapM (route_to lib g start_node) selected ;;
              Ret (Some best_match, score, routes)
  end.

(* lines 269-293, up to the calls that print and save the map *)
Definition main (lib : RoadLib) (g : Globals) (typed : string)
  : prog (string * Z * list Route) :=
  let user_input := PyStr.strip typed in
  if negb (PyStr.truthy user_input) then Raise SystemExit
  else
    '(matched, score, routes) <- find_two_safest_routes_for_user lib g user_input ;;
    match matched with
    | None => Raise SystemExit
    | Some matched =>
        if negb (PyStr.truthy matched) then Raise SystemExit
        else if Py.empty routes then Raise SystemExit
        else Ret (matched, score, routes)
    end.

End Tload.

(** ** warp.py *)

Module Warp.
Import Road.
Local Open Scope string_scope.
Local Open Scope R_scope.

(* a record of region_data (line 98) *)
Record region_info : Type := {
  areas : string;
  flood_risk_level : string;
  latitude : R;
  longitude : R
}.

Definition edge_key : Type := (node * node * Z)%type.

Definition edge_key_eqb (a b : edge_key) : bool :=
  let '(u, v, k) := a in
  let '(u', v', k') := b in
  ((u =? u') && (v =? v') && (k =? k'))%Z.

(* line 140 *)
Definition risk_priority : list (string * Z) :=
  [("low", 0%Z); ("moderate", 1%Z); ("high", 2%Z); ("severe", 3%Z); ("extreme", 4%Z)].

(* l[i] *)
Definition item {A : Type} (l : list A) (i : nat) : prog A :=
  match nth_error l i with
  | Some a => Ret a
  | None => Raise IndexError
  end.

(* region_networks[name].append(node_id) on a defaultdict(list) *)
Definition append_to (d : Dict.t string (list node)) (name : string) (node_id : node)
  : Dict.t string (list node) :=
  match Dict.get String.eqb d name with
  | Some l => Dict.set String.eqb d name (l ++ [node_id])%list
  | None => Dict.set String.eqb d name [node_id]
  end.

(* lines 111-127; [tree_query coords point] is cKDTree(coords).query(point),
   from scipy: the distance to the nearest row of coords and its index *)
Fixpoint assign_nodes (tree_query : list (R * R) -> R * R -> R * nat)
    (region_coords : list (R * R)) (region_data : list region_info)
    (region_radius_km : R) (nodes : list (node * NodeData))
    (node_to_region : Dict.t node region_info)
    (region_networks : Dict.t string (list node))
  : prog (Dict.t node region_info * Dict.t string (list node)) :=
  match nodes with
  | [] => Ret (node_to_region, region_networks)
  | (node_id, node_data) :: rest =>
      let node_coord := (y node_data, x node_data) in
      let '(distance_deg, region_idx) := tree_query region_coords node_coord in
      let distance_km := distance_deg * 111.0 in
      if Rle_dec distance_km region_radius_km then
        region_info <- item region_data region_idx ;;
        assign_nodes tree_query region_coords region_data region_radius_km rest
          (Dict.set Z.eqb node_to_region node_id region_info)
          (append_to region_networks (areas region_info) node_id)
      else
        assign_nodes tree_query region_coords region_data region_radius_km rest
          node_to_region region_networks
  end.

(* lines 135-152: the region an edge from u to v is given, if any *)
Definition edge_region (node_to_region : Dict.t node region_info) (u v : node)
  : option region_info :=
  let u_region := Dict.get Z.eqb node_to_region u in
  let v_region := Dict.get Z.eqb node_to_region v in
  match u_region, v_region with
  | Some u_region, Some v_region =>
      let u_risk_level := Py.get risk_priority (flood_risk_level u_region) 1%Z in
      let v_risk_level := Py.get risk_priority (flood_risk_level v_region) 1%Z in
      if (v_risk_level <=? u_risk_level)%Z then Some u_region else Some v_region
  | Some u_region, None => Some u_region
  | None, Some v_region => Some v_region
  | None, None => None
  end.

(* lines 134-152 *)
Fixpoint assign_edges (node_to_region : Dict.t node region_info) (edges : list edge)
    (edge_to_region : Dict.t edge_key region_info) : Dict.t edge_key region_info :=
  match edges with
  | [] => edge_to_region
  | (u, v, key, _) :: rest =>
      assign_edges node_to_region rest
        match edge_region node_to_region u v with
        | Some region => Dict.set edge_key_eqb edge_to_region (u, v, key) region
        | None => edge_to_region
        end
  end.

(* lines 91-156; the region_name and flood_risk attributes written to the
   nodes of G are left out *)
Definition map_regions_to_road_network
    (tree_query : list (R * R) -> R * R -> R * nat)
    (G : Graph) (flood_df : list region_info) (region_radius_km : R)
  : prog (Dict.t node region_info * Dict.t edge_key region_info
          * Dict.t string (list node)) :=
  let region_coords := map (fun row => (latitude row, longitude row)) flood_df in
  let region_data := flood_df in
  '(node_to_region, region_networks) <-
    assign_nodes tree_query region_coords region_data region_radius_km (nodes G) [] [] ;;
  let edge_to_region := assign_edges node_to_region (edges G) [] in
  Ret (node_to_region, edge_to_region, region_networks).

End Warp.

(** ** warp.py: the routes of a user *)

Module WarpRoutes.
Import Road.
Local Open Scope string_scope.
Local Open Scope R_scope.

(* lines 17-33: the package fuzzy_process comes from.  rapidfuzz's
   extractOne returns a triple (choice, score, index), fuzzywuzzy's a pair
   (choice, score); both return None when nothing is found.  The difflib
   fallback of lines 24-33 is left out *)
Inductive fuzzy_library : Type :=
| rapidfuzz
| fuzzywuzzy.

(* a row of flood_df after normalize_csv_data; ward_code is None when the
   CSV has no such column *)
Record Row : Type := {
  ward_code : option string;
  areas : string;
  latitude : R;
  longitude : R;
  flood_risk_level : string
}.

(* route_ward_code is the key 'ward_code' of a route *)
Record Route : Type := {
  path : list node;
  destination : string;
  destination_coords : R * R;
  distance_km : R;
  eta_minutes : R;
  risk_level : string;
  route_ward_code : string
}.

(* try: p, except: handler *)
Fixpoint try_except {A : Type} (p handler : prog A) : prog A :=
  match p with
  | Ret a => Ret a
  | Raise _ => handler
  | Similarity q c k => Similarity q c (fun s => try_except (k s) handler)
  end.

(* best_match, confidence = <result of extractOne> *)
Definition unpack_match (fuzzy : fuzzy_library) (res : option (string * Z))
  : prog (string * Z) :=
  match res with
  | None => Raise TypeError
  | Some p =>
      match fuzzy with
      | fuzzywuzzy => Ret p
      | rapidfuzz => Raise ValueError
      end
  end.

(* lines 158-171 *)
Definition calculate_route_distance (lib : RoadLib) (G : Graph) (route : list node)
  : R :=
  match get_route_edge_attributes lib G route with
  | Some edge_lengths => fold_left Rplus edge_lengths 0
  | None =>
      fold_left
        (fun total uv =>
           match get_edge_data G (fst uv) (snd uv) with
           | [] => total
           | d :: vals =>
               let min_edge := Tload.min_from d vals in
               total + match length_attr min_edge with Some l => l | None => 0.0 end
           end)
        (steps route) 0.0
  end.

(* the body of the try of lines 223-250; None when the iteration ends in
   continue *)
Definition try_destination (lib : RoadLib) (G : Graph) (start_node : node)
    (safe_region : Row) : option Route :=
  let dest_lat := latitude safe_region in
  let dest_lon := longitude safe_region in
  let dest_node := nearest_nodes lib G dest_lon dest_lat in
  if (dest_node =? start_node)%Z then None
  else
    match shortest_path lib G start_node dest_node with
    | None => None
    | Some path =>
        let distance_m := calculate_route_distance lib G path in
        let eta_minutes := (distance_m / 1000.0) / 25.0 * 60.0 in
        Some {| path := path;
                destination := areas safe_region;
                destination_coords := (dest_lat, dest_lon);
                distance_km := distance_m / 1000.0;
                eta_minutes := eta_minutes;
                risk_level := flood_risk_level safe_region;
                route_ward_code :=
                  match ward_code safe_region with
                  | Some w => w
                  | None => "N/A"
                  end |}
    end.

(* lines 220-250 *)
Fixpoint potential_routes (lib : RoadLib) (G : Graph) (start_node : node)
    (safe_regions : list Row) : list Route :=
  match safe_regions with
  | [] => []
  | safe_region :: rest =>
      match try_destination lib G start_node safe_region with
      | Some r => r :: potential_routes lib G start_node rest
      | None => potential_routes lib G start_node rest
      end
  end.

Definition result : Type := option string * option Z * list Route.

(* lines 173-255; node_to_region is not used by the function *)
Definition find_user_location_and_routes (fuzzy : fuzzy_library) (lib : RoadLib)
    (user_input : string) (G : Graph) (flood_df : list Row)
    (node_to_region : Dict.t node Warp.region_info) : prog result :=
  let all_areas := map areas flood_df in
  let all_areas_lower := map PyStr.lower all_areas in
  matched <-
    try_except
      (res <- Fuzzy.extractOne (PyStr.strip (PyStr.lower user_input)) all_areas_lower ;;
       p <- unpack_match fuzzy res ;;
       Ret (Some p))
      (Ret None) ;;
  match matched with
  | None => Ret (None, None, [])
  | Some (best_match, confidence) =>
      if (confidence <? 60)%Z then Ret (None, None, [])
      else
        match find (fun area => PyStr.lower area =? best_match) all_areas with
        | None => Ret (None, None, [])
        | Some matched_region =>
            if negb (PyStr.truthy matched_region) then Ret (None, None, [])
            else
              user_region_data <-
                Py.iloc0 (filter (fun r => areas r =? matched_region) flood_df) ;;
              let start_lat := latitude user_region_data in
              let start_lon := longitude user_region_data in
              let start_node := nearest_nodes lib G start_lon start_lat in
              (* lines 219-255, once the safe regions are known *)
              let routes_to (safe_regions : list Row) : prog result :=
                let potential_routes :=
                  potential_routes lib G start_node safe_regions in
                let potential_routes :=
                  Py.sorted Py.Rltb distance_km potential_routes in
                Ret (Some matched_region, Some confidence,
                     firstn 2 potential_routes) in
              let safe_regions :=
                filter (fun r => flood_risk_level r =? "low") flood_df in
              if Py.empty safe_regions then
                let safe_regions :=
                  filter (fun r => flood_risk_level r =? "moderate") flood_df in
                if Py.empty safe_regions then
                  Ret (Some matched_region, Some confidence, [])
                else routes_to safe_regions
              else routes_to safe_regions
        end
  end.

End WarpRoutes.

(** ** Test fixtures *)

Module Fixture.
Local Open Scope string_scope.
Local Open Scope R_scope.

(* a metric for the examples: 100 on equal strings, 0 otherwise *)
Definition exact_scorer (query choice : string) : Z :=
  if (query =? choice)%string then 100%Z else 0%Z.

(* a metric that gives the same score to everything *)
Definition const_scorer (score : Z) (query choice : string) : Z := score.

(* the routes of an outcome *)
Definition routes_of {A B C : Type} (o : outcome (A * B * list C)) : list C :=
  match o with
  | Ok (_, _, l) => l
  | Err _ => []
  end.

(* the catalog of the first scenario of the specification *)
Definition app_catalog : list App.Row :=
  [ {| App.Ward_Code := "A"; App.Areas := "colaba"; App.Latitude := 18.9151;
       App.Longitude := 72.8141; App.Flood_Risk_Level := "High" |};
    {| App.Ward_Code := "C"; App.Areas := "churchgate"; App.Latitude := 18.9346;
       App.Longitude := 72.8284; App.Flood_Risk_Level := "Low" |} ].

(* colaba and two areas at one place, the riskier one first *)
Definition app_catalog2 : list App.Row :=
  [ {| App.Ward_Code := "A"; App.Areas := "colaba"; App.Latitude := 18.9151;
       App.Longitude := 72.8141; App.Flood_Risk_Level := "High" |};
    {| App.Ward_Code := "C"; App.Areas := "churchgate station";
       App.Latitude := 18.9346; App.Longitude := 72.8284;
       App.Flood_Risk_Level := "Medium" |};
    {| App.Ward_Code := "C"; App.Areas := "churchgate"; App.Latitude := 18.9346;
       App.Longitude := 72.8284; App.Flood_Risk_Level := "Low" |} ].

(* a catalog with the start's own area only *)
Definition app_single : list App.Row :=
  [ {| App.Ward_Code := "A"; App.Areas := "colaba"; App.Latitude := 18.9151;
       App.Longitude := 72.8141; App.Flood_Risk_Level := "High" |} ].

Definition real_single : list Real.Row :=
  [ {| Real.Ward_Code := "A"; Real.Areas := "colaba"; Real.Latitude := 18.9151;
       Real.Longitude := 72.8141; Real.Flood_Risk_Level := "High" |} ].

Definition real_catalog : list Real.Row :=
  [ {| Real.Ward_Code := "A"; Real.Areas := "colaba"; Real.Latitude := 18.9151;
       Real.Longitude := 72.8141; Real.Flood_Risk_Level := "High" |};
    {| Real.Ward_Code := "C"; Real.Areas := "churchgate"; Real.Latitude := 18.9346;
       Real.Longitude := 72.8284; Real.Flood_Risk_Level := "Low" |} ].

Definition streamlit_catalog : list Streamlit.Row :=
  [ {| Streamlit.Ward := "A"; Streamlit.Area_Name := "colaba";
       Streamlit.Latitude := 18.9151; Streamlit.Longitude := 72.8141;
       Streamlit.Flood_Risk := "High"; Streamlit.Evacuation_Priority := "Immediate";
       Streamlit.Population_Density := 50000 |};
    {| Streamlit.Ward := "C"; Streamlit.Area_Name := "churchgate";
       Streamlit.Latitude := 18.9346; Streamlit.Longitude := 72.8284;
       Streamlit.Flood_Risk := "Low"; Streamlit.Evacuation_Priority := "Safe";
       Streamlit.Population_Density := 30000 |} ].

Definition complete_catalog : list Complete.Row :=
  [ {| Complete.Ward := "A"; Complete.Area_Name := "colaba";
       Complete.Latitude := 18.9151; Complete.Longitude := 72.8141;
       Complete.Flood_Risk := "High"; Complete.Evacuation_Priority := "Immediate";
       Complete.Population_Density := 50000 |};
    {| Complete.Ward := "C"; Complete.Area_Name := "churchgate";
       Complete.Latitude := 18.9346; Complete.Longitude := 72.8284;
       Complete.Flood_Risk := "Low"; Complete.Evacuation_Priority := "Safe";
       Complete.Population_Density := 30000 |} ].

(* a road graph with one node at churchgate, one at colaba and the road
   from the first to the second *)
Definition two_node_graph : Road.Graph :=
  {| Road.nodes := [ (1%Z, {| Road.x := 72.8284; Road.y := 18.9346 |});
                     (2%Z, {| Road.x := 72.8141; Road.y := 18.9151 |}) ];
     Road.edges := [ (1%Z, 2%Z, 0%Z,
                      {| Road.length_attr := Some 2500; Road.risk_attr := None;
                         Road.name_attr := None |}) ] |}.

(* the regions of tload.py's CSV, after normalize_columns *)
Definition tload_catalog : list Tload.Row :=
  [ {| Tload.areas := "churchgate"; Tload.latitude := 18.9346;
       Tload.longitude := 72.8284; Tload.flood_risk_level := "low" |};
    {| Tload.areas := "colaba"; Tload.latitude := 18.9151;
       Tload.longitude := 72.8141; Tload.flood_risk_level := "high" |} ].

(* graph algorithms that find nothing *)
Definition no_paths : Road.RoadLib :=
  {| Road.nearest_nodes := fun _ _ _ => 1%Z;
     Road.shortest_path := fun _ _ _ => None;
     Road.single_source_dijkstra_path_length := fun _ _ => [];
     Road.get_route_edge_attributes := fun _ _ => None |}.

(* dharavi, three safe areas to the north, and a nearer safe area that
   comes fourth in the catalog *)
Definition simple_row (area : string) (lat : R) (risk : string) : Simple.Row :=
  {| Simple.Ward_Code := "W"; Simple.Areas := area; Simple.Latitude := lat;
     Simple.Longitude := 72.85; Simple.Flood_risk_level := risk |}.

Definition simple_catalog : list Simple.Row :=
  [ simple_row "dharavi" 19.04 "High";
    simple_row "mulund" 19.17 "Low";
    simple_row "borivali" 19.23 "Low";
    simple_row "dahisar" 19.25 "Low";
    simple_row "mahim" 19.05 "Low" ].

(* a road graph with one node, where every place is nearest to it *)
Definition one_node_graph : Road.Graph :=
  {| Road.nodes := [ (1%Z, {| Road.x := 72.85; Road.y := 19.04 |}) ];
     Road.edges := [] |}.

Definition one_node_lib : Road.RoadLib :=
  {| Road.nearest_nodes := fun _ _ _ => 1%Z;
     Road.shortest_path := fun _ u v => if (u =? v)%Z then Some [u] else None;
     Road.single_source_dijkstra_path_length := fun _ u => [(u, 0)];
     Road.get_route_edge_attributes := fun _ _ => None |}.

Definition evac_catalog : list EvacApp.Row :=
  [ {| EvacApp.Ward_Code := "W"; EvacApp.Areas := "dharavi";
       EvacApp.Latitude := 19.04; EvacApp.Longitude := 72.85;
       EvacApp.Flood_risk_level := "High" |};
    {| EvacApp.Ward_Code := "W"; EvacApp.Areas := "mulund";
       EvacApp.Latitude := 19.17; EvacApp.Longitude := 72.85;
       EvacApp.Flood_risk_level := "Low" |} ].

(* colaba with a priority that is none of the four of the urgency table *)
Definition complete_unknown_priority : list Complete.Row :=
  [ {| Complete.Ward := "A"; Complete.Area_Name := "colaba";
       Complete.Latitude := 18.9151; Complete.Longitude := 72.8141;
       Complete.Flood_Risk := "High"; Complete.Evacuation_Priority := "Critical";
       Complete.Population_Density := 50000 |};
    {| Complete.Ward := "C"; Complete.Area_Name := "churchgate";
       Complete.Latitude := 18.9346; Complete.Longitude := 72.8284;
       Complete.Flood_Risk := "Low"; Complete.Evacuation_Priority := "Safe";
       Complete.Population_Density := 30000 |} ].

(* the regions of warp.py's CSV, after normalize_csv_data *)
Definition warp_catalog : list Warp.region_info :=
  [ {| Warp.areas := "Churchgate"; Warp.flood_risk_level := "low";
       Warp.latitude := 18.9346; Warp.longitude := 72.8284 |};
    {| Warp.areas := "Colaba"; Warp.flood_risk_level := "high";
       Warp.latitude := 18.9151; Warp.longitude := 72.8141 |} ].

(* a nearest-region query for that catalogue: a place north of latitude
   18.92 is a hundredth of a degree from churchgate, any other place as far
   from colaba *)
Definition warp_tree_query (coords : list (R * R)) (point : R * R) : R * nat :=
  (0.01, if Rlt_dec 18.92 (fst point) then 0%nat else 1%nat).

(* the regions of warp.py's CSV with their ward codes *)
Definition warp_rows : list WarpRoutes.Row :=
  [ {| WarpRoutes.ward_code := Some "C"; WarpRoutes.areas := "Churchgate";
       WarpRoutes.latitude := 18.9346; WarpRoutes.longitude := 72.8284;
       WarpRoutes.flood_risk_level := "high" |};
    {| WarpRoutes.ward_code := Some "A"; WarpRoutes.areas := "Colaba";
       WarpRoutes.latitude := 18.9151; WarpRoutes.longitude := 72.8141;
       WarpRoutes.flood_risk_level := "low" |} ].

(* the graph algorithms on the two-node graph: a place north of latitude
   18.92 is nearest to node 1, any other to node 2; the one road leads from
   node 1 to node 2; the attribute helper of osmnx raises *)
Definition two_node_lib : Road.RoadLib :=
  {| Road.nearest_nodes := fun _ X Y => if Rlt_dec 18.92 Y then 1%Z else 2%Z;
     Road.shortest_path := fun _ u v =>
       if (u =? v)%Z then Some [u]
       else if ((u =? 1) && (v =? 2))%Z then Some [1%Z; 2%Z]
       else None;
     Road.single_source_dijkstra_path_length := fun _ u =>
       if (u =? 1)%Z then [(1%Z, 0); (2%Z, 2500)] else [(u, 0)];
     Road.get_route_edge_attributes := fun _ _ => None |}.

(* destinations on colaba's meridian, for the scores of streamlit_app.py *)
Definition streamlit_at (name : string) (lat : R) (risk : string) : Streamlit.Row :=
  {| Streamlit.Ward := "C"; Streamlit.Area_Name := name;
     Streamlit.Latitude := lat; Streamlit.Longitude := 72.8141;
     Streamlit.Flood_Risk := risk; Streamlit.Evacuation_Priority := "Safe";
     Streamlit.Population_Density := 30000 |}.

(* destinations at one place, for the scores of
   mumbai_evacuation_complete.py *)
Definition complete_at (name : string) (risk : string) (density : Z) : Complete.Row :=
  {| Complete.Ward := "C"; Complete.Area_Name := name;
     Complete.Latitude := 18.9151; Complete.Longitude := 72.8141;
     Complete.Flood_Risk := risk; Complete.Evacuation_Priority := "Safe";
     Complete.Population_Density := density |}.

(* a road graph around dharavi (node 1): LBS Marg to mulund (node 2) and
   back, as two edges, and an unnamed road to mahim (node 3); the edges
   carry a risk from an earlier run *)
Definition three_node_graph : Road.Graph :=
  {| Road.nodes := [ (1%Z, {| Road.x := 72.85; Road.y := 19.04 |});
                     (2%Z, {| Road.x := 72.85; Road.y := 19.17 |});
                     (3%Z, {| Road.x := 72.85; Road.y := 19.05 |}) ];
     Road.edges :=
       [ (1%Z, 2%Z, 0%Z,
          {| Road.length_attr := Some 14500; Road.risk_attr := Some 5%Z;
             Road.name_attr := Some "LBS Marg" |});
         (2%Z, 1%Z, 0%Z,
          {| Road.length_attr := Some 14800; Road.risk_attr := None;
             Road.name_attr := Some "LBS Marg" |});
         (1%Z, 3%Z, 0%Z,
          {| Road.length_attr := Some 1200; Road.risk_attr := Some 2%Z;
             Road.name_attr := None |}) ] |}.

(* the graph algorithms on that graph: a place south of latitude 19.045 is
   nearest to node 1, one south of 19.1 to node 3, any other to node 2;
   from node 1 every node is reached by one road *)
Definition three_node_lib : Road.RoadLib :=
  {| Road.nearest_nodes := fun _ X Y =>
       if Rlt_dec Y 19.045 then 1%Z else if Rlt_dec Y 19.1 then 3%Z else 2%Z;
     Road.shortest_path := fun _ u v =>
       if (u =? v)%Z then Some [u]
       else if (u =? 1)%Z then Some [1%Z; v]
       else None;
     Road.single_source_dijkstra_path_length := fun _ u => [(u, 0)];
     Road.get_route_edge_attributes := fun _ _ => None |}.

Definition evac_catalog3 : list EvacApp.Row :=
  [ {| EvacApp.Ward_Code := "W"; EvacApp.Areas := "dharavi";
       EvacApp.Latitude := 19.04; EvacApp.Longitude := 72.85;
       EvacApp.Flood_risk_level := "High" |};
    {| EvacApp.Ward_Code := "W"; EvacApp.Areas := "mulund";
       EvacApp.Latitude := 19.17; EvacApp.Longitude := 72.85;
       EvacApp.Flood_risk_level := "Low" |};
    {| EvacApp.Ward_Code := "W"; EvacApp.Areas := "mahim";
       EvacApp.Latitude := 19.05; EvacApp.Longitude := 72.85;
       EvacApp.Flood_risk_level := "Low" |} ].

End Fixture.

(** ** Expected values of the test fixtures *)

Module Expected.
Local Open Scope string_scope.
Local Open Scope R_scope.

(* a route from colaba to an area at the place of churchgate, as app.py
   builds it *)
Definition app_route (destination risk_level : string) (risk_score : Z) : App.Route :=
  let distance_km := App.haversine_km 18.9151 72.8141 18.9346 72.8284 in
  {| App.destination := destination;
     App.ward := "C";
     App.destination_lat := 18.9346;
     App.destination_lon := 72.8284;
     App.distance_km := Py.round distance_km 2;
     App.eta_min := Py.round ((distance_km / App.speed_for distance_km) * 60 * 1.3) 1;
     App.risk_level := risk_level;
     App.combined_score := App.score_formula risk_score distance_km |}.

Definition app_churchgate : App.Route := app_route "Churchgate" "Low" 1.

Definition app_station : App.Route := app_route "Churchgate Station" "Medium" 2.

(* colaba to churchgate, as streamlit_app.py builds it *)
Definition streamlit_churchgate : Streamlit.Route :=
  Streamlit.route_to 18.9151 72.8141 "High" "Immediate"
    {| Streamlit.Ward := "C"; Streamlit.Area_Name := "churchgate";
       Streamlit.Latitude := 18.9346; Streamlit.Longitude := 72.8284;
       Streamlit.Flood_Risk := "Low"; Streamlit.Evacuation_Priority := "Safe";
       Streamlit.Population_Density := 30000 |}.

(* fort to fort, as evacuation_app_simple.py builds it from its sample data *)
Definition simple_fort : Simple.Route :=
  Simple.route_to 19.0509 72.7615
    {| Simple.Ward_Code := "Ward B"; Simple.Areas := "fort";
       Simple.Latitude := 19.0509; Simple.Longitude := 72.7615;
       Simple.Flood_risk_level := "Low" |}.

(* what tload.py's load builds from the two-node graph *)
Definition tload_globals : Tload.Globals :=
  {| Tload.G := Fixture.two_node_graph;
     Tload.regions := ["churchgate"; "colaba"];
     Tload.region_lons := [72.8284; 72.8141];
     Tload.region_lats := [18.9346; 18.9151];
     Tload.region_risks := ["low"; "high"];
     Tload.nodeid_to_region_idx := [(1%Z, 0%nat); (2%Z, 1%nat)];
     Tload.edges_gdf :=
       [ {| Tload._u := 1%Z; Tload._v := 2%Z; Tload.region_idx := Some 0%nat;
            Tload.region_name := "churchgate"; Tload.risk_level := "low" |} ] |}.

(* dharavi to a safe area, as evacuation_app_simple.py builds it *)
Definition simple_route (area : string) (lat : R) : Simple.Route :=
  Simple.route_to 19.04 72.85 (Fixture.simple_row area lat "Low").

(* the route from the only node to itself, as evacuation_app.py builds it *)
Definition evac_route : EvacApp.Route :=
  {| EvacApp.path := [1%Z];
     EvacApp.distance_km := 0 / 1000;
     EvacApp.eta_min := (0 / 1000) / 30 * 60;
     EvacApp.risk := 0%Z;
     EvacApp.roads := [] |}.

(* colaba to churchgate, as mumbai_evacuation_complete.py builds it *)
Definition complete_churchgate : Complete.Route :=
  let distance_km := Complete.haversine_km 18.9151 72.8141 18.9346 72.8284 in
  let safety_improvement := Complete.safety_improvement_of 3 1 in
  {| Complete.destination := "Churchgate";
     Complete.ward := "C";
     Complete.destination_lat := 18.9346;
     Complete.destination_lon := 72.8284;
     Complete.distance_km := Py.round distance_km 2;
     Complete.eta_minutes := Py.round (Complete.total_eta_of distance_km) 1;
     Complete.risk_level := "Low";
     Complete.evacuation_priority := "Safe";
     Complete.safety_improvement := safety_improvement;
     Complete.capacity_score :=
       Py.round (Rmin 100 (Rmax 10 (100 - (IZR 30000 / 1000)))) 1;
     Complete.route_score :=
       Py.round (Complete.route_score_of distance_km safety_improvement
                   (Complete.density_factor_of 30000) 3) 2;
     Complete.population_density := 30000;
     Complete.recommended_transport :=
       Complete.get_transport_recommendation distance_km "Immediate" |}.

(* what map_regions_to_road_network returns on the two-node graph *)
Definition warp_churchgate : Warp.region_info :=
  {| Warp.areas := "Churchgate"; Warp.flood_risk_level := "low";
     Warp.latitude := 18.9346; Warp.longitude := 72.8284 |}.

Definition warp_colaba : Warp.region_info :=
  {| Warp.areas := "Colaba"; Warp.flood_risk_level := "high";
     Warp.latitude := 18.9151; Warp.longitude := 72.8141 |}.

Definition warp_node_to_region : Dict.t Road.node Warp.region_info :=
  [(1%Z, warp_churchgate); (2%Z, warp_colaba)].

Definition warp_edge_to_region : Dict.t Warp.edge_key Warp.region_info :=
  [((1%Z, 2%Z, 0%Z), warp_colaba)].

Definition warp_region_networks : Dict.t string (list Road.node) :=
  [("Churchgate", [1%Z]); ("Colaba", [2%Z])].

(* the route tload.py finds from churchgate on the two-node graph: the
   one low-risk node is the start itself *)
Definition tload_route : Tload.Route :=
  {| Tload.dest_region := "churchgate";
     Tload.dest_region_idx := 0%nat;
     Tload.dest_node := 1%Z;
     Tload.path := [1%Z];
     Tload.distance_km := 0.0 / 1000.0;
     Tload.eta_min := (0.0 / 1000.0) / 25.0 * 60.0 |}.

(* the route warp.py finds from churchgate on the two-node graph *)
Definition warp_route : WarpRoutes.Route :=
  {| WarpRoutes.path := [1%Z; 2%Z];
     WarpRoutes.destination := "Colaba";
     WarpRoutes.destination_coords := (18.9151, 72.8141);
     WarpRoutes.distance_km := (0.0 + 2500) / 1000.0;
     WarpRoutes.eta_minutes := ((0.0 + 2500) / 1000.0) / 25.0 * 60.0;
     WarpRoutes.risk_level := "low";
     WarpRoutes.route_ward_code := "A" |}.

(* the routes evacuation_app.py finds from dharavi on the three-node
   graph *)
Definition evac_mulund : EvacApp.Route :=
  {| EvacApp.path := [1%Z; 2%Z];
     EvacApp.distance_km := (14500 + 0) / 1000;
     EvacApp.eta_min := ((14500 + 0) / 1000) / 30 * 60;
     EvacApp.risk := 0%Z;
     EvacApp.roads := ["LBS Marg"] |}.

Definition evac_mahim : EvacApp.Route :=
  {| EvacApp.path := [1%Z; 3%Z];
     EvacApp.distance_km := (1200 + 0) / 1000;
     EvacApp.eta_min := ((1200 + 0) / 1000) / 30 * 60;
     EvacApp.risk := 0%Z;
     EvacApp.roads := ["Unnamed Road"] |}.

End Expected.

(** ** Candidate sets and predicates of the statements *)

(* safe_zones of app.py, lines 117-118 *)
Definition App_safe (best_match : string) (flood_df : list App.Row) : list App.Row :=
  filter (fun r => negb (App.Areas r =? best_match)%string)
    (filter (fun r => PyStr.isin (App.Flood_Risk_Level r) ["Low"; "Medium"]%string)
       flood_df).

(* safe_zones of mumbai_evacuation_real.py, lines 110-113 *)
Definition Real_safe (best_match : string) (flood_df : list Real.Row) : list Real.Row :=
  filter (fun r => negb (Real.Areas r =? best_match)%string)
    (filter (fun r => PyStr.isin (Real.Flood_Risk_Level r) ["Low"; "Medium"]%string)
       flood_df).

(* safe_zones of streamlit_app.py, lines 301-305 *)
Definition Streamlit_safe (best_match : string) (flood_df : list Streamlit.Row)
  : list Streamlit.Row :=
  filter (fun r =>
            PyStr.isin (Streamlit.Flood_Risk r) ["Low"; "Medium"]%string
            && negb (Streamlit.Area_Name r =? best_match)%string
            && PyStr.isin (Streamlit.Evacuation_Priority r) ["Safe"; "Standard"]%string)
         flood_df.

(* safe_zones of mumbai_evacuation_complete.py, lines 319-323 *)
Definition Complete_safe (best_match : string) (flood_df : list Complete.Row)
  : list Complete.Row :=
  filter (fun r =>
            PyStr.isin (Complete.Flood_Risk r) ["Low"; "Medium"]%string
            && negb (Complete.Area_Name r =? best_match)%string
            && PyStr.isin (Complete.Evacuation_Priority r) ["Safe"; "Standard"]%string)
         flood_df.

(* every Evacuation_Priority is one of the four of the data model, the
   keys of the urgency table *)
Definition Complete_priorities_known (flood_df : list Complete.Row) : Prop :=
  Forall (fun r =>
            PyStr.isin (Complete.Evacuation_Priority r)
              ["Immediate"; "Urgent"; "Standard"; "Safe"]%string = true)
         flood_df.

(* safe_areas of evacuation_app_simple.py, line 55 *)
Definition Simple_safe (flood_df : list Simple.Row) : list Simple.Row :=
  filter (fun r =>
            PyStr.isin (PyStr.lower (Simple.Flood_risk_level r))
              ["low"; "minimal"; "safe"]%string)
         flood_df.

(* safe_df of evacuation_app.py, line 76 *)
Definition EvacApp_safe (flood_df : list EvacApp.Row) : list EvacApp.Row :=
  filter (fun r =>
            PyStr.isin (PyStr.lower (EvacApp.Flood_risk_level r))
              ["low"; "minimal"; "safe"]%string)
         flood_df.

(* the node of a row: lines 73 and 78 of evacuation_app.py *)
Definition EvacApp_node (lib : Road.RoadLib) (G : Road.Graph) (row : EvacApp.Row)
  : Road.node :=
  Road.nearest_nodes lib G (EvacApp.Longitude row) (EvacApp.Latitude row).

(* the string is empty or has white space only *)
Fixpoint blank (s : string) : bool :=
  match s with
  | EmptyString => true
  | String c t => PyStr.is_space c && blank t
  end.

(* (u, v, key) is an edge of the list *)
Definition has_key (key : Warp.edge_key) (edges : list Road.edge) : bool :=
  existsb (fun e : Road.edge => Warp.edge_key_eqb (fst e) key) edges.

(* the argument of math.sqrt on line 132 of app.py *)
Definition App_haversine_a (start_lat start_lon lat lon : R) : R :=
  (sin ((Py.radians lat - Py.radians start_lat) / 2) ^ 2
   + cos (Py.radians start_lat) * cos (Py.radians lat)
     * sin ((Py.radians lon - Py.radians start_lon) / 2) ^ 2)%R.

(* a row and a route of mumbai_evacuation_real.py read as those of app.py:
   the same columns, and the route without its safety_score *)
Definition Real_row_as_App (r : Real.Row) : App.Row :=
  {| App.Ward_Code := Real.Ward_Code r;
     App.Areas := Real.Areas r;
     App.Latitude := Real.Latitude r;
     App.Longitude := Real.Longitude r;
     App.Flood_Risk_Level := Real.Flood_Risk_Level r |}.

Definition Real_route_as_App (r : Real.Route) : App.Route :=
  {| App.destination := Real.destination r;
     App.ward := Real.ward r;
     App.destination_lat := Real.destination_lat r;
     App.destination_lon := Real.destination_lon r;
     App.distance_km := Real.distance_km r;
     App.eta_min := Real.eta_min r;
     App.risk_level := Real.risk_level r;
     App.combined_score := Real.combined_score r |}.

Definition Real_result_as_App (res : Real.result) : App.result :=
  let '(m, s, routes) := res in (m, s, map Real_route_as_App routes).

(* the outcome of a program, its value seen through [f] *)
Definition outcome_map {A B : Type} (f : A -> B) (o : outcome A) : outcome B :=
  match o with
  | Ok a => Ok (f a)
  | Err e => Err e
  end.

(* the key of min(vals, key=lambda d: d.get("length", float("inf"))),
   compared: a missing length counts as infinity *)
Definition length_le (a b : option R) : Prop :=
  match a, b with
  | Some x, Some y => (x <= y)%R
  | _, None => True
  | None, Some _ => False
  end.

(* float(best.get("length", 0.0)) *)
Definition length_or_zero (d : Road.EdgeData) : R :=
  match Road.length_attr d with Some l => l | None => 0.0%R end.

(* evaluation of the programs, the real numbers left as they are *)
Ltac eval_py :=
  cbv - [App.haversine_km Real.haversine_km Streamlit.haversine_km
         Complete.haversine_km Simple.euclid_km Tload.haversine_m
         Py.round Py.Rltb Py.Rleb Py.sorted
         App.score_formula App.speed_for
         Streamlit.route_score_of Streamlit.total_eta_of Streamlit.transport_of
         Complete.route_score_of Complete.total_eta_of
         Complete.get_transport_recommendation Complete.density_factor_of
         Rplus Rmult Rminus Rdiv Ropp Rinv Q2R IZR Rlt_dec Rle_dec Rmin Rmax
         sqrt sin cos asin atan PI pow].

(** * Properties *)

(** ** The monad *)

Lemma run_bind (A B : Type) scorer (p : prog A) (f : A -> prog B) :
  run scorer (bind p f) =
  match run scorer p with
  | Ok a => run scorer (f a)
  | Err e => Err e
  end.
Proof.
  induction p as [a | e | q c k IH]; simpl; auto.
Qed.

Lemma calls_bind (A B : Type) scorer (p : prog A) (f : A -> prog B) :
  calls scorer (bind p f) =
  calls scorer p ++
  match run scorer p with
  | Ok a => calls scorer (f a)
  | Err _ => []
  end.
Proof.
  induction p as [a | e | q c k IH]; simpl; auto.
  now rewrite IH.
Qed.

Lemma run_mapM_inv (A B : Type) scorer (f : A -> prog B) l ys :
  run scorer (mapM f l) = Ok ys ->
  Forall2 (fun x y => run scorer (f x) = Ok y) l ys.
Proof.
  revert ys; induction l as [| x t IH]; simpl; intros ys H.
  - injection H as <-. constructor.
  - rewrite run_bind in H. destruct (run scorer (f x)) as [y | e] eqn:Hx; [| discriminate].
    rewrite run_bind in H. destruct (run scorer (mapM f t)) as [ys' | e] eqn:Ht; [| discriminate].
    simpl in H. injection H as <-. constructor; auto.
Qed.

Lemma run_mapM_total (A B : Type) scorer (f : A -> prog B) l :
  Forall (fun x => exists y, run scorer (f x) = Ok y) l ->
  exists ys, run scorer (mapM f l) = Ok ys.
Proof.
  induction 1 as [| x t [y Hy] _ [ys Hys]]; simpl.
  - now exists [].
  - exists (y :: ys). now rewrite run_bind, Hy, run_bind, Hys.
Qed.

Lemma Forall2_pick_r (A B : Type) (P : A -> B -> Prop) l l' y :
  Forall2 P l l' -> In y l' -> exists x, In x l /\ P x y.
Proof.
  induction 1 as [| x y' l l' Hxy _ IH]; simpl; [intros [] |].
  intros [<- | Hy]; [exists x; auto |].
  destruct (IH Hy) as (x' & Hx' & Hp). exists x'; auto.
Qed.

(** ** extractOne *)

Lemma max_from_In best l :
  Fuzzy.max_from best l = best \/ In (Fuzzy.max_from best l) l.
Proof.
  revert best; induction l as [| x t IH]; simpl; intros best; auto.
  destruct (snd best <? snd x)%Z.
  - destruct (IH x) as [-> | H]; auto.
  - destruct (IH best) as [-> | H]; auto.
Qed.

Lemma max_by_score_In l p :
  Fuzzy.max_by_score l = Some p -> In p l.
Proof.
  destruct l as [| x t]; simpl; [discriminate |].
  intros [= <-]. destruct (max_from_In x t) as [-> | H]; auto.
Qed.

Lemma extractWithoutOrder_run scorer query choices :
  exists l, run scorer (Fuzzy.extractWithoutOrder query choices) = Ok l /\
            forall c s, In (c, s) l -> In c choices /\ s = scorer query c.
Proof.
  induction choices as [| c t (l & Hl & Hin)]; simpl.
  - exists []. split; auto. intros ? ? [].
  - rewrite run_bind, Hl. simpl.
    eexists; split; [reflexivity |].
    intros c' s' H. destruct (0 <=? scorer query c)%Z.
    + destruct H as [[= <- <-] | H]; auto.
      destruct (Hin _ _ H); auto.
    + destruct (Hin _ _ H); auto.
Qed.

Lemma extractWithoutOrder_eq scorer query choices :
  run scorer (Fuzzy.extractWithoutOrder query choices)
  = Ok (filter (fun p => (0 <=? snd p)%Z) (map (fun c => (c, scorer query c)) choices)).
Proof.
  induction choices as [| c t IH]; simpl; auto.
  rewrite run_bind, IH. simpl. now destruct (0 <=? scorer query c)%Z.
Qed.

(* a metric without negative scores finds a best match in a catalog that
   has a name *)
Lemma extractOne_some scorer query choices :
  choices <> [] ->
  (forall c, (0 <= scorer query c)%Z) ->
  exists best score,
    run scorer (Fuzzy.extractOne query choices) = Ok (Some (best, score)).
Proof.
  intros Hne Hpos. unfold Fuzzy.extractOne.
  rewrite run_bind, extractWithoutOrder_eq.
  destruct choices as [| c t]; [contradiction |].
  simpl. destruct (Z.leb_spec 0 (scorer query c)) as [_ | Hc];
    [| specialize (Hpos c); lia].
  simpl. destruct (Fuzzy.max_from _ _) as [best score]. eauto.
Qed.

Lemma extractOne_run scorer query choices :
  exists r, run scorer (Fuzzy.extractOne query choices) = Ok r /\
            forall best score, r = Some (best, score) ->
              In best choices /\ score = scorer query best.
Proof.
  destruct (extractWithoutOrder_run scorer query choices) as (l & Hl & Hin).
  unfold Fuzzy.extractOne. rewrite run_bind, Hl. simpl.
  eexists; split; [reflexivity |].
  intros best score H. apply max_by_score_In in H. auto.
Qed.

Lemma extractOne_calls scorer query choices :
  calls scorer (Fuzzy.extractOne query choices) = map (fun c => (query, c)) choices.
Proof.
  unfold Fuzzy.extractOne. rewrite calls_bind.
  destruct (extractWithoutOrder_run scorer query choices) as (l & -> & _).
  simpl. rewrite app_nil_r.
  induction choices as [| c t IH]; simpl; auto.
  rewrite calls_bind.
  destruct (extractWithoutOrder_run scorer query t) as (l' & -> & _).
  simpl. rewrite app_nil_r. now rewrite IH.
Qed.

(** ** pandas and builtins *)

Lemma isin_In x l : PyStr.isin x l = true <-> In x l.
Proof.
  unfold PyStr.isin. rewrite existsb_exists. split.
  - intros (y & Hy & E). apply String.eqb_eq in E. now subst.
  - intros H. exists x. split; auto. apply String.eqb_refl.
Qed.

Lemma unique_from_In seen l x :
  In x (Py.unique_from seen l) -> In x l.
Proof.
  revert seen; induction l as [| y t IH]; simpl; intros seen H; auto.
  destruct (PyStr.isin y seen).
  - right. eapply IH; eauto.
  - destruct H as [-> | H]; auto. right. eapply IH; eauto.
Qed.

Lemma unique_nonempty l : l <> [] -> Py.unique l <> [].
Proof. destruct l; [contradiction | discriminate]. Qed.

Lemma unique_In l x : In x (Py.unique l) -> In x l.
Proof. apply unique_from_In. Qed.

Lemma iloc0_filter_run (A : Type) scorer (f : A -> bool) (df : list A) :
  (exists x, In x df /\ f x = true) ->
  exists x, run scorer (Py.iloc0 (filter f df)) = Ok x /\ In x df /\ f x = true.
Proof.
  intros (x & Hin & Hf).
  assert (H : In x (filter f df)) by (apply filter_In; auto).
  destruct (filter f df) as [| y t] eqn:E; [destruct H |].
  exists y. simpl. split; auto.
  apply filter_In. rewrite E. now left.
Qed.

Lemma firstn_subset (A : Type) n (l : list A) x : In x (firstn n l) -> In x l.
Proof.
  revert n; induction l as [| y t IH]; intros [| n]; simpl; auto.
  - intros [].
  - intros [-> | H]; eauto.
Qed.

Section SortedFacts.
Variables (A K : Type) (lt : K -> K -> bool) (key : A -> K).

Lemma insert_perm x l : Permutation (x :: l) (Py.insert lt key x l).
Proof.
  induction l as [| y t IH]; simpl; auto.
  destruct (lt (key y) (key x)); auto.
  rewrite perm_swap. now constructor.
Qed.

Lemma sorted_perm l : Permutation l (Py.sorted lt key l).
Proof.
  induction l as [| x t IH]; simpl; auto.
  rewrite <- insert_perm. now constructor.
Qed.

Lemma sorted_In l x : In x (Py.sorted lt key l) <-> In x l.
Proof.
  split; apply Permutation_in; [symmetry |]; apply sorted_perm.
Qed.

Lemma sorted_length l : length (Py.sorted lt key l) = length l.
Proof. symmetry. apply Permutation_length, sorted_perm. Qed.

(* the order of the keys: [lt a b = false] reads [b <= a] *)
Variable le : K -> K -> Prop.
Hypothesis lt_false_le : forall a b, lt a b = false -> le b a.
Hypothesis lt_true_le : forall a b, lt a b = true -> le a b.
Hypothesis le_trans : forall a b c, le a b -> le b c -> le a c.

Let le_key (x y : A) : Prop := le (key x) (key y).

Lemma insert_sorted x l :
  StronglySorted le_key l -> StronglySorted le_key (Py.insert lt key x l).
Proof.
  induction 1 as [| y t Hs IH Hy]; simpl.
  - repeat constructor.
  - destruct (lt (key y) (key x)) eqn:E.
    + constructor; auto.
      rewrite Forall_forall in *. intros z Hz.
      apply (Permutation_in _ (Permutation_sym (insert_perm x t))) in Hz.
      destruct Hz as [<- | Hz]; [apply lt_true_le, E | auto].
    + constructor; [constructor; auto |].
      constructor; [apply lt_false_le, E |].
      rewrite Forall_forall in *. intros z Hz.
      eapply le_trans; [apply lt_false_le, E | apply Hy, Hz].
Qed.

Lemma sorted_sorted l : StronglySorted le_key (Py.sorted lt key l).
Proof.
  induction l as [| x t IH]; simpl; [constructor | now apply insert_sorted].
Qed.

Lemma firstn_sorted n l :
  StronglySorted le_key l -> StronglySorted le_key (firstn n l).
Proof.
  intros H; revert n; induction H as [| y t Hs IH Hy]; intros [| n]; simpl;
    try constructor; auto.
  rewrite Forall_forall in *. intros z Hz. apply Hy. eapply firstn_subset; eauto.
Qed.

Lemma sorted_adjacent l i a b :
  StronglySorted le_key l ->
  nth_error l i = Some a -> nth_error l (S i) = Some b -> le (key a) (key b).
Proof.
  intros H; revert i; induction H as [| y t Hs IH Hy]; intros [| i]; simpl.
  - discriminate.
  - discriminate.
  - intros [= <-] Hb. rewrite Forall_forall in Hy.
    apply Hy. apply (nth_error_In t 0). exact Hb.
  - intros Ha Hb. eapply IH; eauto.
Qed.
End SortedFacts.

Lemma Rltb_false_le a b : Py.Rltb a b = false -> (b <= a)%R.
Proof. unfold Py.Rltb. destruct (Rlt_dec a b); [discriminate | lra]. Qed.

Lemma Rltb_true_le a b : Py.Rltb a b = true -> (a <= b)%R.
Proof. unfold Py.Rltb. destruct (Rlt_dec a b); [lra | discriminate]. Qed.

(** ** app.py *)

Lemma App_route_to_inv scorer slat slon a r :
  run scorer (App.route_to slat slon a) = Ok r ->
  App.destination r = PyStr.title (App.Areas a) /\
  App.risk_level r = App.Flood_Risk_Level a /\
  exists risk_score,
    run scorer (Py.getitem App.risk_scores (App.Flood_Risk_Level a)) = Ok risk_score /\
    App.combined_score r =
      App.score_formula risk_score
        (App.haversine_km slat slon (App.Latitude a) (App.Longitude a)).
Proof.
  unfold App.route_to. rewrite run_bind.
  destruct (run scorer (Py.getitem App.risk_scores (App.Flood_Risk_Level a)))
    as [rs | e]; [| discriminate].
  simpl. intros [= <-]. simpl. eauto.
Qed.

Lemma App_route_to_total scorer slat slon a :
  PyStr.isin (App.Flood_Risk_Level a) ["Low"; "Medium"]%string = true ->
  exists r, run scorer (App.route_to slat slon a) = Ok r.
Proof.
  intros H. apply isin_In in H. unfold App.route_to. rewrite run_bind.
  destruct H as [<- | [<- | []]]; simpl; eauto.
Qed.

(* what a returned triple is made of *)
Lemma App_calc_inv scorer user_area flood_df m s routes :
  run scorer (App.calculate_evacuation_routes user_area flood_df) = Ok (m, s, routes) ->
  exists best score,
    run scorer (Fuzzy.extractOne (PyStr.lower user_area)
                  (Py.unique (map App.Areas flood_df))) = Ok (Some (best, score)) /\
    ((score < 50)%Z /\ m = None /\ s = None /\ routes = []
     \/
     (50 <= score)%Z /\ m = Some best /\ s = Some score /\
     exists start all_routes,
       In start flood_df /\ App.Areas start = best /\
       Forall2 (fun a r =>
                  run scorer (App.route_to (App.Latitude start) (App.Longitude start) a)
                  = Ok r)
               (App_safe best flood_df) all_routes /\
       routes = firstn 3 (Py.sorted Py.Rltb App.combined_score all_routes)).
Proof.
  unfold App.calculate_evacuation_routes. rewrite run_bind.
  destruct (extractOne_run scorer (PyStr.lower user_area)
              (Py.unique (map App.Areas flood_df))) as (res & -> & Hres).
  rewrite run_bind.
  destruct res as [[best score] |]; cbn [Py.unpack2 run bind]; [| discriminate].
  intros H. exists best, score. split; auto.
  destruct (score <? 50)%Z eqn:E.
  - left. cbn [run] in H. injection H as <- <- <-. apply Z.ltb_lt in E. auto.
  - right. apply Z.ltb_ge in E. rewrite run_bind in H.
    destruct (filter (fun r => (App.Areas r =? best)%string) flood_df)
      as [| start rest] eqn:Ef; cbn [Py.iloc0 run] in H; [discriminate |].
    assert (Hs : In start flood_df /\ (App.Areas start =? best)%string = true).
    { apply (filter_In (fun r => (App.Areas r =? best)%string)). rewrite Ef. now left. }
    destruct Hs as [Hs1 Hs2]. apply String.eqb_eq in Hs2.
    fold (App_safe best flood_df) in H.
    destruct (App_safe best flood_df) as [| a0 safe] eqn:Esafe.
    + cbn [Py.empty run] in H. injection H as <- <- <-.
      split; [exact E |]. split; [reflexivity |]. split; [reflexivity |].
      exists start, []. split; [exact Hs1 |]. split; [exact Hs2 |].
      split; [constructor | reflexivity].
    + cbv beta iota delta [Py.empty] in H. rewrite run_bind in H.
      destruct (run scorer (mapM (App.route_to (App.Latitude start) (App.Longitude start))
                              (a0 :: safe))) as [all_routes | e] eqn:Em; [| discriminate].
      cbn [run] in H. injection H as <- <- <-.
      split; [exact E |]. split; [reflexivity |]. split; [reflexivity |].
      exists start, all_routes. split; [exact Hs1 |]. split; [exact Hs2 |].
      split; [now apply run_mapM_inv | reflexivity].
Qed.

Lemma App_safe_spec best flood_df a :
  In a (App_safe best flood_df) <->
  In a flood_df /\ App.Areas a <> best /\
  (App.Flood_Risk_Level a = "Low" \/ App.Flood_Risk_Level a = "Medium")%string.
Proof.
  unfold App_safe. rewrite !filter_In, negb_true_iff, isin_In. simpl.
  rewrite String.eqb_neq. intuition auto.
Qed.

Lemma start_row_exists (A : Type) (name : A -> string) scorer query (df : list A) best score :
  run scorer (Fuzzy.extractOne query (Py.unique (map name df))) = Ok (Some (best, score)) ->
  exists start rest,
    filter (fun r => (name r =? best)%string) df = start :: rest /\
    In start df /\ name start = best.
Proof.
  intros H.
  destruct (extractOne_run scorer query (Py.unique (map name df))) as (res & Hr & Hin).
  rewrite Hr in H. injection H as ->.
  destruct (Hin _ _ eq_refl) as [Hb _].
  apply unique_In, in_map_iff in Hb. destruct Hb as (a & Ha & Hadf).
  assert (Hf : In a (filter (fun r => (name r =? best)%string) df)).
  { apply filter_In. split; auto. now apply String.eqb_eq. }
  destruct (filter (fun r => (name r =? best)%string) df) as [| start rest] eqn:E;
    [destruct Hf |].
  exists start, rest. split; auto.
  assert (Hs : In start (filter (fun r => (name r =? best)%string) df))
    by (rewrite E; now left).
  apply filter_In in Hs. destruct Hs as [Hs1 Hs2].
  apply String.eqb_eq in Hs2. auto.
Qed.

(* below the threshold *)
Lemma App_calc_rejects scorer user_area flood_df best score :
  run scorer (Fuzzy.extractOne (PyStr.lower user_area)
                (Py.unique (map App.Areas flood_df))) = Ok (Some (best, score)) ->
  (score < 50)%Z ->
  run scorer (App.calculate_evacuation_routes user_area flood_df) = Ok (None, None, []).
Proof.
  intros H Hlt. unfold App.calculate_evacuation_routes.
  rewrite run_bind, H, run_bind. cbn [Py.unpack2 run].
  apply Z.ltb_lt in Hlt. now rewrite Hlt.
Qed.

(* at or above the threshold *)
Lemma App_calc_accepts scorer user_area flood_df best score :
  run scorer (Fuzzy.extractOne (PyStr.lower user_area)
                (Py.unique (map App.Areas flood_df))) = Ok (Some (best, score)) ->
  (50 <= score)%Z ->
  exists routes,
    run scorer (App.calculate_evacuation_routes user_area flood_df)
    = Ok (Some best, Some score, routes) /\
    (App_safe best flood_df = [] -> routes = []).
Proof.
  intros H Hge. unfold App.calculate_evacuation_routes.
  rewrite run_bind, H, run_bind. cbn [Py.unpack2 run].
  apply Z.ltb_ge in Hge. rewrite Hge.
  destruct (start_row_exists App.Areas _ _ _ H) as (start & rest & -> & _ & _).
  rewrite run_bind. cbn [Py.iloc0 run].
  fold (App_safe best flood_df).
  destruct (App_safe best flood_df) as [| a0 safe] eqn:Esafe.
  - cbn [Py.empty run]. eauto.
  - cbn [Py.empty]. rewrite run_bind.
    destruct (@run_mapM_total _ _ scorer
                (App.route_to (App.Latitude start) (App.Longitude start)) (a0 :: safe))
      as (ys & Hys).
    + apply Forall_forall. intros a Ha. apply App_route_to_total.
      rewrite <- Esafe in Ha. apply App_safe_spec in Ha.
      destruct Ha as (_ & _ & [-> | ->]); reflexivity.
    + rewrite Hys. cbn [run]. eexists. split; [reflexivity | discriminate].
Qed.

(* the function returns on every catalog that has a row, for a metric
   without negative scores *)
Lemma App_calc_returns scorer user_area flood_df :
  flood_df <> [] ->
  (forall c, (0 <= scorer (PyStr.lower user_area) c)%Z) ->
  exists m s routes,
    run scorer (App.calculate_evacuation_routes user_area flood_df) = Ok (m, s, routes).
Proof.
  intros Hne Hpos.
  destruct (@extractOne_some scorer (PyStr.lower user_area)
              (Py.unique (map App.Areas flood_df))) as (best & score & Hb); auto.
  { apply unique_nonempty. destruct flood_df; [contradiction | discriminate]. }
  destruct (Z.lt_ge_cases score 50) as [Hlt | Hge].
  - rewrite (@App_calc_rejects _ _ _ _ _ Hb Hlt). eauto.
  - destruct (@App_calc_accepts _ _ _ _ _ Hb Hge) as (routes & -> & _). eauto.
Qed.

(** ** streamlit_app.py *)

Lemma Streamlit_safe_spec best flood_df a :
  In a (Streamlit_safe best flood_df) <->
  In a flood_df /\ Streamlit.Area_Name a <> best /\
  (Streamlit.Flood_Risk a = "Low" \/ Streamlit.Flood_Risk a = "Medium")%string /\
  (Streamlit.Evacuation_Priority a = "Safe"
   \/ Streamlit.Evacuation_Priority a = "Standard")%string.
Proof.
  unfold Streamlit_safe.
  rewrite filter_In, !andb_true_iff, negb_true_iff, !isin_In. simpl.
  rewrite String.eqb_neq. intuition auto.
Qed.

Lemma Streamlit_calc_inv scorer user_area flood_df m s routes :
  run scorer (Streamlit.calculate_evacuation_routes user_area flood_df)
  = Ok (m, s, routes) ->
  exists best score,
    run scorer (Fuzzy.extractOne (PyStr.lower user_area)
                  (Py.unique (map Streamlit.Area_Name flood_df)))
    = Ok (Some (best, score)) /\
    ((score < 40)%Z /\ m = None /\ s = None /\ routes = []
     \/
     (40 <= score)%Z /\ m = Some best /\ s = Some score /\
     exists start,
       In start flood_df /\ Streamlit.Area_Name start = best /\
       routes =
         firstn 5
           (Py.sorted Py.Rltb Streamlit.route_score
              (map (Streamlit.route_to (Streamlit.Latitude start)
                      (Streamlit.Longitude start) (Streamlit.Flood_Risk start)
                      (Streamlit.Evacuation_Priority start))
                   (Streamlit_safe best flood_df)))).
Proof.
  unfold Streamlit.calculate_evacuation_routes. rewrite run_bind.
  destruct (extractOne_run scorer (PyStr.lower user_area)
              (Py.unique (map Streamlit.Area_Name flood_df))) as (res & Hres & _).
  rewrite Hres, run_bind.
  destruct res as [[best score] |]; cbn [Py.unpack2 run bind]; [| discriminate].
  intros H. exists best, score. split; auto.
  destruct (score <? 40)%Z eqn:E.
  - left. cbn [run] in H. injection H as <- <- <-. apply Z.ltb_lt in E. auto.
  - right. apply Z.ltb_ge in E. rewrite run_bind in H.
    destruct (start_row_exists Streamlit.Area_Name _ _ _ Hres)
      as (start & rest & Ef & Hs1 & Hs2).
    rewrite Ef in H. cbn [Py.iloc0 run] in H.
    fold (Streamlit_safe best flood_df) in H.
    split; [exact E |].
    destruct (Streamlit_safe best flood_df) as [| a0 safe] eqn:Esafe;
      cbn [Py.empty run] in H; injection H as <- <- <-;
      (split; [reflexivity |]); (split; [reflexivity |]);
      exists start; (split; [exact Hs1 |]); (split; [exact Hs2 |]); reflexivity.
Qed.

Lemma Streamlit_calc_returns scorer user_area flood_df :
  flood_df <> [] ->
  (forall c, (0 <= scorer (PyStr.lower user_area) c)%Z) ->
  exists m s routes,
    run scorer (Streamlit.calculate_evacuation_routes user_area flood_df)
    = Ok (m, s, routes).
Proof.
  intros Hne Hpos.
  destruct (@extractOne_some scorer (PyStr.lower user_area)
              (Py.unique (map Streamlit.Area_Name flood_df))) as (best & score & Hb);
    auto.
  { apply unique_nonempty. destruct flood_df; [contradiction | discriminate]. }
  unfold Streamlit.calculate_evacuation_routes.
  rewrite run_bind, Hb, run_bind. cbn [Py.unpack2 run].
  destruct (score <? 40)%Z; [cbn [run]; eauto |].
  destruct (start_row_exists Streamlit.Area_Name _ _ _ Hb) as (start & rest & -> & _).
  rewrite run_bind. cbn [Py.iloc0 run].
  destruct (Py.empty _); cbn [run]; eauto.
Qed.

(** C1.  Safety filter.  Whenever app.py's or streamlit_app.py's route
    function returns a route list, every route in it was made from a
    catalog row whose flood risk is "Low" or "Medium": its risk level is
    one of the two, its severity in the function's own risk table is at
    most that of "Medium", and a row of higher risk is never the source
    of a returned route. *)
Theorem C1_safety_filter scorer user_area :
  (forall flood_df m s routes r,
     run scorer (App.calculate_evacuation_routes user_area flood_df)
     = Ok (m, s, routes) ->
     In r routes ->
     (App.risk_level r = "Low" \/ App.risk_level r = "Medium")%string /\
     (Py.get App.risk_scores (App.risk_level r) 0
      <= Py.get App.risk_scores "Medium" 0)%Z /\
     exists a, In a flood_df /\
               App.Flood_Risk_Level a = App.risk_level r /\
               App.destination r = PyStr.title (App.Areas a))
  /\
  (forall flood_df m s routes r,
     run scorer (Streamlit.calculate_evacuation_routes user_area flood_df)
     = Ok (m, s, routes) ->
     In r routes ->
     (Streamlit.risk_level r = "Low" \/ Streamlit.risk_level r = "Medium")%string /\
     (Py.get Streamlit.risk_scores (Streamlit.risk_level r) 0
      <= Py.get Streamlit.risk_scores "Medium" 0)%Z /\
     exists a, In a flood_df /\
               Streamlit.Flood_Risk a = Streamlit.risk_level r /\
               Streamlit.destination r = PyStr.title (Streamlit.Area_Name a)).
Proof.
  split.
  - intros flood_df m s routes r H Hr.
    apply App_calc_inv in H.
    destruct H as (best & score & _ & [(_ & _ & _ & ->) | (_ & _ & _ & H)]);
      [destruct Hr |].
    destruct H as (start & all_routes & _ & _ & Hall & ->).
    apply firstn_subset, sorted_In in Hr.
    destruct (@Forall2_pick_r _ _ _ _ _ _ Hall Hr) as (a & Ha & Hrun).
    apply App_safe_spec in Ha. destruct Ha as (Ha & _ & Hrisk).
    apply App_route_to_inv in Hrun. destruct Hrun as (Hd & Hl & _).
    rewrite Hl. split; [exact Hrisk |]. split.
    + destruct Hrisk as [-> | ->]; vm_compute; discriminate.
    + exists a. auto.
  - intros flood_df m s routes r H Hr.
    apply Streamlit_calc_inv in H.
    destruct H as (best & score & _ & [(_ & _ & _ & ->) | (_ & _ & _ & H)]);
      [destruct Hr |].
    destruct H as (start & _ & _ & ->).
    apply firstn_subset, sorted_In, in_map_iff in Hr.
    destruct Hr as (a & <- & Ha).
    apply Streamlit_safe_spec in Ha. destruct Ha as (Ha & _ & Hrisk & _).
    cbn [Streamlit.route_to Streamlit.risk_level Streamlit.destination].
    split; [exact Hrisk |]. split.
    + destruct Hrisk as [-> | ->]; vm_compute; discriminate.
    + exists a. auto.
Qed.

Lemma C1_safety_filter_witness :
  run Fixture.exact_scorer
    (App.calculate_evacuation_routes "Colaba" Fixture.app_catalog)
  = Ok (Some "colaba"%string, Some 100%Z, [Expected.app_churchgate]) /\
  In Expected.app_churchgate [Expected.app_churchgate] /\
  ((App.risk_level Expected.app_churchgate = "Low"
    \/ App.risk_level Expected.app_churchgate = "Medium")%string /\
   (Py.get App.risk_scores (App.risk_level Expected.app_churchgate) 0
    <= Py.get App.risk_scores "Medium" 0)%Z /\
   exists a, In a Fixture.app_catalog /\
             App.Flood_Risk_Level a = App.risk_level Expected.app_churchgate /\
             App.destination Expected.app_churchgate = PyStr.title (App.Areas a)) /\
  run Fixture.exact_scorer
    (Streamlit.calculate_evacuation_routes "Colaba" Fixture.streamlit_catalog)
  = Ok (Some "colaba"%string, Some 100%Z, [Expected.streamlit_churchgate]) /\
  In Expected.streamlit_churchgate [Expected.streamlit_churchgate] /\
  ((Streamlit.risk_level Expected.streamlit_churchgate = "Low"
    \/ Streamlit.risk_level Expected.streamlit_churchgate = "Medium")%string /\
   (Py.get Streamlit.risk_scores (Streamlit.risk_level Expected.streamlit_churchgate) 0
    <= Py.get Streamlit.risk_scores "Medium" 0)%Z /\
   exists a, In a Fixture.streamlit_catalog /\
             Streamlit.Flood_Risk a = Streamlit.risk_level Expected.streamlit_churchgate /\
             Streamlit.destination Expected.streamlit_churchgate
             = PyStr.title (Streamlit.Area_Name a)).
Proof.
  assert (Ha : run Fixture.exact_scorer
                 (App.calculate_evacuation_routes "Colaba" Fixture.app_catalog)
               = Ok (Some "colaba"%string, Some 100%Z, [Expected.app_churchgate]))
    by (eval_py; reflexivity).
  assert (Hs : run Fixture.exact_scorer
                 (Streamlit.calculate_evacuation_routes "Colaba" Fixture.streamlit_catalog)
               = Ok (Some "colaba"%string, Some 100%Z, [Expected.streamlit_churchgate]))
    by (eval_py; reflexivity).
  split; [exact Ha |]. split; [now left |].
  split; [exact (proj1 (C1_safety_filter Fixture.exact_scorer "Colaba")
                   _ _ _ _ _ Ha (or_introl eq_refl)) |].
  split; [exact Hs |]. split; [now left |].
  exact (proj2 (C1_safety_filter Fixture.exact_scorer "Colaba")
           _ _ _ _ _ Hs (or_introl eq_refl)).
Defined.

(** ** The start location among the destinations *)

(* app.py removes the rows named like the start before it scores *)
Lemma App_start_excluded scorer user_area flood_df best s routes r :
  run scorer (App.calculate_evacuation_routes user_area flood_df)
  = Ok (Some best, s, routes) ->
  In r routes ->
  exists a, In a flood_df /\ App.Areas a <> best /\
            App.destination r = PyStr.title (App.Areas a).
Proof.
  intros H Hr. apply App_calc_inv in H.
  destruct H as (best' & score & _ & [(_ & [=] & _) | (_ & [= <-] & _ & H)]).
  destruct H as (start & all_routes & _ & _ & Hall & ->).
  apply firstn_subset, sorted_In in Hr.
  destruct (@Forall2_pick_r _ _ _ _ _ _ Hall Hr) as (a & Ha & Hrun).
  apply App_safe_spec in Ha. destruct Ha as (Ha & Hne & _).
  apply App_route_to_inv in Hrun. destruct Hrun as (Hd & _).
  exists a. auto.
Qed.

Lemma euclid_km_same lat lon : Simple.euclid_km lat lon lat lon = 0%R.
Proof.
  unfold Simple.euclid_km.
  replace ((lat - lat) ^ 2 + (lon - lon) ^ 2)%R with 0%R by ring.
  rewrite sqrt_0. ring.
Qed.

(** C2.  Self-exclusion fails in evacuation_app_simple.py.  On the
    script's own sample data the query "fort" resolves to the low-risk
    area "fort", and the returned route list is the single route from
    fort to "Fort" itself, at distance 0: calculate_simple_routes never
    removes the start row from the safe areas, as app.py does
    ([App_start_excluded]). *)
Theorem C2_simple_start_is_destination :
  run Fixture.exact_scorer (Simple.calculate_simple_routes "fort" Simple.sample_data)
  = Ok (Some "fort"%string, Some 100%Z, [Expected.simple_fort]) /\
  Simple.destination Expected.simple_fort = PyStr.title "fort" /\
  Simple.destination Expected.simple_fort = "Fort"%string /\
  Simple.distance_km Expected.simple_fort = 0%R.
Proof.
  split; [eval_py; reflexivity |].
  split; [reflexivity |]. split; [reflexivity |].
  apply euclid_km_same.
Qed.

(** ** evacuation_app_simple.py *)

Lemma Simple_calc_inv scorer user_area flood_df m s routes :
  run scorer (Simple.calculate_simple_routes user_area flood_df) = Ok (m, s, routes) ->
  exists best score,
    run scorer (Fuzzy.extractOne (PyStr.lower user_area)
                  (Py.unique (map Simple.Areas flood_df)))
    = Ok (Some (best, score)) /\
    ((score < 60)%Z /\ m = None /\ s = None /\ routes = []
     \/
     (60 <= score)%Z /\ m = Some best /\ s = Some score /\
     exists start,
       In start flood_df /\ Simple.Areas start = best /\
       routes =
         firstn 2
           (Py.sorted Py.Rltb Simple.distance_km
              (map (Simple.route_to (Simple.Latitude start) (Simple.Longitude start))
                   (firstn 3 (Simple_safe flood_df))))).
Proof.
  unfold Simple.calculate_simple_routes. rewrite run_bind.
  destruct (extractOne_run scorer (PyStr.lower user_area)
              (Py.unique (map Simple.Areas flood_df))) as (res & Hres & _).
  rewrite Hres, run_bind.
  destruct res as [[best score] |]; cbn [Py.unpack2 run bind]; [| discriminate].
  intros H. exists best, score. split; auto.
  destruct (score <? 60)%Z eqn:E.
  - left. cbn [run] in H. injection H as <- <- <-. apply Z.ltb_lt in E. auto.
  - right. apply Z.ltb_ge in E. rewrite run_bind in H.
    destruct (start_row_exists Simple.Areas _ _ _ Hres)
      as (start & rest & Ef & Hs1 & Hs2).
    rewrite Ef in H. cbn [Py.iloc0 run] in H.
    fold (Simple_safe flood_df) in H.
    split; [exact E |].
    destruct (Simple_safe flood_df) as [| a0 safe] eqn:Esafe;
      cbn [Py.empty run] in H; injection H as <- <- <-;
      (split; [reflexivity |]); (split; [reflexivity |]);
      exists start; (split; [exact Hs1 |]); (split; [exact Hs2 |]); reflexivity.
Qed.

Lemma Simple_calc_returns scorer user_area flood_df :
  flood_df <> [] ->
  (forall c, (0 <= scorer (PyStr.lower user_area) c)%Z) ->
  exists m s routes,
    run scorer (Simple.calculate_simple_routes user_area flood_df) = Ok (m, s, routes).
Proof.
  intros Hne Hpos.
  destruct (@extractOne_some scorer (PyStr.lower user_area)
              (Py.unique (map Simple.Areas flood_df))) as (best & score & Hb); auto.
  { apply unique_nonempty. destruct flood_df; [contradiction | discriminate]. }
  unfold Simple.calculate_simple_routes.
  rewrite run_bind, Hb, run_bind. cbn [Py.unpack2 run].
  destruct (score <? 60)%Z; [cbn [run]; eauto |].
  destruct (start_row_exists Simple.Areas _ _ _ Hb) as (start & rest & -> & _).
  rewrite run_bind. cbn [Py.iloc0 run].
  destruct (Py.empty _); cbn [run]; eauto.
Qed.

(** ** Order and length of the returned list *)

Lemma Rle_chain a b c : (a <= b)%R -> (b <= c)%R -> (a <= c)%R.
Proof. apply Rle_trans. Qed.

(* the first n entries of a list sorted by a real key *)
Lemma top_sorted (A : Type) (key : A -> R) n (l : list A) :
  (length (firstn n (Py.sorted Py.Rltb key l)) <= n)%nat /\
  forall i a b,
    nth_error (firstn n (Py.sorted Py.Rltb key l)) i = Some a ->
    nth_error (firstn n (Py.sorted Py.Rltb key l)) (S i) = Some b ->
    (key a <= key b)%R.
Proof.
  split; [apply firstn_le_length |].
  intros i a b Ha Hb.
  apply (@sorted_adjacent A R key Rle
           (firstn n (Py.sorted Py.Rltb key l)) i a b); auto.
  apply firstn_sorted.
  apply (@sorted_sorted A R Py.Rltb key Rle
           Rltb_false_le Rltb_true_le Rle_chain).
Qed.

(** C3.  Ranking order and top-K.  The route list that a route function
    returns has at most K entries and is in ascending order of the key
    the function sorts by: combined_score with K = 3 in app.py, the stored
    route_score with K = 5 in streamlit_app.py, distance_km with K = 2 in
    evacuation_app_simple.py. *)
Theorem C3_sorted_top_k scorer user_area :
  (forall flood_df m s routes,
     run scorer (App.calculate_evacuation_routes user_area flood_df)
     = Ok (m, s, routes) ->
     (length routes <= 3)%nat /\
     forall i a b,
       nth_error routes i = Some a -> nth_error routes (S i) = Some b ->
       (App.combined_score a <= App.combined_score b)%R)
  /\
  (forall flood_df m s routes,
     run scorer (Streamlit.calculate_evacuation_routes user_area flood_df)
     = Ok (m, s, routes) ->
     (length routes <= 5)%nat /\
     forall i a b,
       nth_error routes i = Some a -> nth_error routes (S i) = Some b ->
       (Streamlit.route_score a <= Streamlit.route_score b)%R)
  /\
  (forall flood_df m s routes,
     run scorer (Simple.calculate_simple_routes user_area flood_df)
     = Ok (m, s, routes) ->
     (length routes <= 2)%nat /\
     forall i a b,
       nth_error routes i = Some a -> nth_error routes (S i) = Some b ->
       (Simple.distance_km a <= Simple.distance_km b)%R).
Proof.
  assert (Hnil : forall (A : Type) (key : A -> R) n,
             (length (@nil A) <= n)%nat /\
             forall i a b,
               nth_error (@nil A) i = Some a -> nth_error (@nil A) (S i) = Some b ->
               (key a <= key b)%R).
  { intros A key n. split; [simpl; lia |]. intros [| i] a b; discriminate. }
  split; [| split].
  - intros flood_df m s routes H. apply App_calc_inv in H.
    destruct H as (best & score & _ & [(_ & _ & _ & ->) | (_ & _ & _ & H)]);
      [apply Hnil |].
    destruct H as (start & all_routes & _ & _ & _ & ->). apply top_sorted.
  - intros flood_df m s routes H. apply Streamlit_calc_inv in H.
    destruct H as (best & score & _ & [(_ & _ & _ & ->) | (_ & _ & _ & H)]);
      [apply Hnil |].
    destruct H as (start & _ & _ & ->). apply top_sorted.
  - intros flood_df m s routes H. apply Simple_calc_inv in H.
    destruct H as (best & score & _ & [(_ & _ & _ & ->) | (_ & _ & _ & H)]);
      [apply Hnil |].
    destruct H as (start & _ & _ & ->). apply top_sorted.
Qed.

(* the riskier of two areas at one place comes second, whatever the
   catalog order *)
Lemma App_catalog2_run :
  run Fixture.exact_scorer
    (App.calculate_evacuation_routes "colaba" Fixture.app_catalog2)
  = Ok (Some "colaba"%string, Some 100%Z, [Expected.app_churchgate; Expected.app_station]).
Proof.
  eval_py. cbn [Py.sorted Py.insert App.combined_score].
  unfold Py.Rltb.
  destruct (Rlt_dec _ _) as [Hlt | Hge].
  - reflexivity.
  - exfalso. apply Hge. unfold App.score_formula. lra.
Qed.

Lemma C3_sorted_top_k_witness :
  run Fixture.exact_scorer
    (App.calculate_evacuation_routes "colaba" Fixture.app_catalog2)
  = Ok (Some "colaba"%string, Some 100%Z, [Expected.app_churchgate; Expected.app_station]) /\
  nth_error [Expected.app_churchgate; Expected.app_station] 0
  = Some Expected.app_churchgate /\
  nth_error [Expected.app_churchgate; Expected.app_station] 1
  = Some Expected.app_station /\
  (length [Expected.app_churchgate; Expected.app_station] <= 3)%nat /\
  (App.combined_score Expected.app_churchgate
   <= App.combined_score Expected.app_station)%R.
Proof.
  split; [exact App_catalog2_run |].
  split; [reflexivity |]. split; [reflexivity |].
  destruct (proj1 (C3_sorted_top_k Fixture.exact_scorer "colaba")
              _ _ _ _ App_catalog2_run) as [Hlen Hord].
  split; [exact Hlen |].
  exact (Hord 0%nat _ _ eq_refl eq_refl).
Defined.

(** ** mumbai_evacuation_complete.py *)

Lemma Complete_route_to_total scorer slat slon risk priority a :
  PyStr.isin priority ["Immediate"; "Urgent"; "Standard"; "Safe"]%string = true ->
  exists r, run scorer (Complete.route_to slat slon risk priority a) = Ok r.
Proof.
  intros H. apply isin_In in H. unfold Complete.route_to. rewrite run_bind.
  destruct H as [<- | [<- | [<- | [<- | []]]]]; cbn [Py.getitem find fst snd
    Complete.urgency_multipliers String.eqb Ascii.eqb Bool.eqb run]; eauto.
Qed.

Lemma Complete_calc_rejects scorer user_area flood_df best score :
  run scorer (Fuzzy.extractOne (PyStr.lower user_area)
                (Py.unique (map Complete.Area_Name flood_df)))
  = Ok (Some (best, score)) ->
  (score < 40)%Z ->
  run scorer (Complete.calculate_advanced_evacuation_routes user_area flood_df)
  = Ok (None, None, []).
Proof.
  intros H Hlt. unfold Complete.calculate_advanced_evacuation_routes.
  rewrite run_bind, H, run_bind. cbn [Py.unpack2 run].
  apply Z.ltb_lt in Hlt. now rewrite Hlt.
Qed.

Lemma Complete_calc_accepts scorer user_area flood_df best score :
  Complete_priorities_known flood_df ->
  run scorer (Fuzzy.extractOne (PyStr.lower user_area)
                (Py.unique (map Complete.Area_Name flood_df)))
  = Ok (Some (best, score)) ->
  (40 <= score)%Z ->
  exists routes,
    run scorer (Complete.calculate_advanced_evacuation_routes user_area flood_df)
    = Ok (Some best, Some score, routes).
Proof.
  intros Hknown H Hge. unfold Complete.calculate_advanced_evacuation_routes.
  rewrite run_bind, H, run_bind. cbn [Py.unpack2 run].
  apply Z.ltb_ge in Hge. rewrite Hge.
  destruct (start_row_exists Complete.Area_Name _ _ _ H) as (start & rest & -> & Hs & _).
  rewrite run_bind. cbn [Py.iloc0 run].
  fold (Complete_safe best flood_df).
  destruct (Complete_safe best flood_df) as [| a0 safe] eqn:Esafe.
  - cbn [Py.empty run]. eauto.
  - cbn [Py.empty]. rewrite run_bind.
    destruct (@run_mapM_total _ _ scorer
                (Complete.route_to (Complete.Latitude start) (Complete.Longitude start)
                   (Complete.Flood_Risk start) (Complete.Evacuation_Priority start))
                (a0 :: safe)) as (ys & Hys).
    + apply Forall_forall. intros a _. apply Complete_route_to_total.
      unfold Complete_priorities_known in Hknown. rewrite Forall_forall in Hknown.
      now apply Hknown.
    + rewrite Hys. cbn [run]. eauto.
Qed.

Lemma getitem_urgency_missing priority :
  PyStr.isin priority ["Immediate"; "Urgent"; "Standard"; "Safe"]%string = false ->
  Py.getitem Complete.urgency_multipliers priority = Raise KeyError.
Proof.
  unfold PyStr.isin, Py.getitem, Complete.urgency_multipliers.
  cbn [existsb find fst snd]. intros H.
  rewrite !(String.eqb_sym priority) in H.
  repeat (apply Bool.orb_false_iff in H; destruct H as [?E H]).
  now rewrite E, E0, E1, E2.
Qed.

(* an accepted query in app.py: the start row is looked up and a route is
   made for every safe zone *)
Lemma App_calc_computes scorer user_area flood_df best score :
  run scorer (Fuzzy.extractOne (PyStr.lower user_area)
                (Py.unique (map App.Areas flood_df))) = Ok (Some (best, score)) ->
  (50 <= score)%Z ->
  exists start rest all_routes,
    filter (fun r => App.Areas r =? best)%string flood_df = start :: rest /\
    Forall2 (fun a r =>
               run scorer (App.route_to (App.Latitude start) (App.Longitude start) a)
               = Ok r)
            (App_safe best flood_df) all_routes /\
    run scorer (App.calculate_evacuation_routes user_area flood_df)
    = Ok (Some best, Some score,
          firstn 3 (Py.sorted Py.Rltb App.combined_score all_routes)).
Proof.
  intros H Hge. unfold App.calculate_evacuation_routes.
  rewrite run_bind, H, run_bind. cbn [Py.unpack2 run].
  apply Z.ltb_ge in Hge. rewrite Hge.
  destruct (start_row_exists App.Areas _ _ _ H) as (start & rest & Ef & _ & _).
  rewrite Ef, run_bind. cbn [Py.iloc0 run].
  fold (App_safe best flood_df).
  exists start, rest.
  destruct (App_safe best flood_df) as [| a0 safe] eqn:Esafe.
  - exists []. cbn [Py.empty run]. split; [reflexivity |]. split; [constructor |].
    reflexivity.
  - cbn [Py.empty]. rewrite run_bind.
    destruct (@run_mapM_total _ _ scorer
                (App.route_to (App.Latitude start) (App.Longitude start)) (a0 :: safe))
      as (ys & Hys).
    + apply Forall_forall. intros a Ha. apply App_route_to_total.
      rewrite <- Esafe in Ha. apply App_safe_spec in Ha.
      destruct Ha as (_ & _ & [-> | ->]); reflexivity.
    + rewrite Hys. cbn [run]. exists ys.
      split; [reflexivity |]. split; [exact (run_mapM_inv _ _ _ Hys) | reflexivity].
Qed.

(* an accepted query in mumbai_evacuation_complete.py: the start row is
   looked up; a route is made for every safe zone, unless the start's own
   priority is missing from the urgency table, which raises KeyError in the
   first iteration *)
Lemma Complete_calc_computes scorer user_area flood_df best score :
  run scorer (Fuzzy.extractOne (PyStr.lower user_area)
                (Py.unique (map Complete.Area_Name flood_df)))
  = Ok (Some (best, score)) ->
  (40 <= score)%Z ->
  exists start rest,
    filter (fun r => Complete.Area_Name r =? best)%string flood_df = start :: rest /\
    (Complete_safe best flood_df = []
     \/ PyStr.isin (Complete.Evacuation_Priority start)
          ["Immediate"; "Urgent"; "Standard"; "Safe"]%string = true ->
     exists all_routes,
       Forall2 (fun a r =>
                  run scorer (Complete.route_to (Complete.Latitude start)
                                (Complete.Longitude start) (Complete.Flood_Risk start)
                                (Complete.Evacuation_Priority start) a) = Ok r)
               (Complete_safe best flood_df) all_routes /\
       run scorer (Complete.calculate_advanced_evacuation_routes user_area flood_df)
       = Ok (Some best, Some score,
             firstn 5 (Py.sorted Py.Rltb Complete.route_score all_routes))) /\
    (Complete_safe best flood_df <> [] ->
     PyStr.isin (Complete.Evacuation_Priority start)
       ["Immediate"; "Urgent"; "Standard"; "Safe"]%string = false ->
     run scorer (Complete.calculate_advanced_evacuation_routes user_area flood_df)
     = Err KeyError).
Proof.
  intros H Hge. unfold Complete.calculate_advanced_evacuation_routes.
  rewrite run_bind, H, run_bind. cbn [Py.unpack2 run].
  apply Z.ltb_ge in Hge. rewrite Hge.
  destruct (start_row_exists Complete.Area_Name _ _ _ H)
    as (start & rest & Ef & _ & _).
  rewrite Ef, run_bind. cbn [Py.iloc0 run].
  fold (Complete_safe best flood_df).
  exists start, rest. split; [reflexivity |].
  destruct (Complete_safe best flood_df) as [| a0 safe] eqn:Esafe.
  - split.
    + intros _. exists []. split; [constructor | reflexivity].
    + intros Hne. now elim Hne.
  - cbn [Py.empty]. split.
    + intros [Hnil | Hknown]; [discriminate |].
      rewrite run_bind.
      destruct (@run_mapM_total _ _ scorer
                  (Complete.route_to (Complete.Latitude start)
                     (Complete.Longitude start) (Complete.Flood_Risk start)
                     (Complete.Evacuation_Priority start))
                  (a0 :: safe)) as (ys & Hys).
      * apply Forall_forall. intros a _. now apply Complete_route_to_total.
      * rewrite Hys. cbn [run]. exists ys.
        split; [exact (run_mapM_inv _ _ _ Hys) | reflexivity].
    + intros _ Hunknown. cbn [mapM]. rewrite !run_bind.
      unfold Complete.route_to. rewrite run_bind.
      now rewrite (getitem_urgency_missing _ Hunknown).
Qed.

(** C4.  Threshold boundary.  The rejection test is [score < threshold].
    When the best fuzzy-match score equals the threshold (50 in app.py,
    40 in mumbai_evacuation_complete.py) the match is accepted: the
    start is the first catalogue row of the matched name, a route is
    computed from it to every safe zone, and the function returns the
    matched name, the score and the best of these routes (3 in app.py,
    5 in mumbai_evacuation_complete.py).  The one exception is a start
    row of mumbai_evacuation_complete.py whose Evacuation_Priority is
    none of the four keys of the urgency table: the start is found, and
    the first route computation raises KeyError.  When the score is
    below the threshold the function returns the no-match triple
    (None, None, []). *)
Theorem C4_threshold_boundary scorer user_area :
  (forall flood_df best score,
     run scorer (Fuzzy.extractOne (PyStr.lower user_area)
                   (Py.unique (map App.Areas flood_df)))
     = Ok (Some (best, score)) ->
     (score = 50%Z ->
      exists start rest all_routes,
        filter (fun r => App.Areas r =? best)%string flood_df = start :: rest /\
        Forall2 (fun a r =>
                   run scorer
                     (App.route_to (App.Latitude start) (App.Longitude start) a)
                   = Ok r)
                (App_safe best flood_df) all_routes /\
        run scorer (App.calculate_evacuation_routes user_area flood_df)
        = Ok (Some best, Some score,
              firstn 3 (Py.sorted Py.Rltb App.combined_score all_routes))) /\
     ((score < 50)%Z ->
      run scorer (App.calculate_evacuation_routes user_area flood_df)
      = Ok (None, None, [])))
  /\
  (forall flood_df best score,
     run scorer (Fuzzy.extractOne (PyStr.lower user_area)
                   (Py.unique (map Complete.Area_Name flood_df)))
     = Ok (Some (best, score)) ->
     (score = 40%Z ->
      exists start rest,
        filter (fun r => Complete.Area_Name r =? best)%string flood_df
        = start :: rest /\
        (Complete_safe best flood_df = []
         \/ PyStr.isin (Complete.Evacuation_Priority start)
              ["Immediate"; "Urgent"; "Standard"; "Safe"]%string = true ->
         exists all_routes,
           Forall2 (fun a r =>
                      run scorer
                        (Complete.route_to (Complete.Latitude start)
                           (Complete.Longitude start) (Complete.Flood_Risk start)
                           (Complete.Evacuation_Priority start) a) = Ok r)
                   (Complete_safe best flood_df) all_routes /\
           run scorer
             (Complete.calculate_advanced_evacuation_routes user_area flood_df)
           = Ok (Some best, Some score,
                 firstn 5 (Py.sorted Py.Rltb Complete.route_score all_routes))) /\
        (Complete_safe best flood_df <> [] ->
         PyStr.isin (Complete.Evacuation_Priority start)
           ["Immediate"; "Urgent"; "Standard"; "Safe"]%string = false ->
         run scorer (Complete.calculate_advanced_evacuation_routes user_area flood_df)
         = Err KeyError)) /\
     ((score < 40)%Z ->
      run scorer (Complete.calculate_advanced_evacuation_routes user_area flood_df)
      = Ok (None, None, []))).
Proof.
  split.
  - intros flood_df best score H. split.
    + intros E. apply (@App_calc_computes _ _ _ _ _ H). lia.
    + intros Hlt. eapply App_calc_rejects; eauto.
  - intros flood_df best score H. split.
    + intros E. apply (@Complete_calc_computes _ _ _ _ _ H). lia.
    + intros Hlt. eapply Complete_calc_rejects; eauto.
Qed.

Lemma C4_threshold_boundary_witness :
  (run (Fixture.const_scorer 50)
     (Fuzzy.extractOne (PyStr.lower "Kolaba")
        (Py.unique (map App.Areas Fixture.app_catalog)))
   = Ok (Some ("colaba"%string, 50%Z)) /\
   exists start rest all_routes,
     filter (fun r => App.Areas r =? "colaba")%string Fixture.app_catalog
     = start :: rest /\
     Forall2 (fun a r =>
                run (Fixture.const_scorer 50)
                  (App.route_to (App.Latitude start) (App.Longitude start) a)
                = Ok r)
             (App_safe "colaba" Fixture.app_catalog) all_routes /\
     run (Fixture.const_scorer 50)
       (App.calculate_evacuation_routes "Kolaba" Fixture.app_catalog)
     = Ok (Some "colaba"%string, Some 50%Z,
           firstn 3 (Py.sorted Py.Rltb App.combined_score all_routes))) /\
  (run (Fixture.const_scorer 49)
     (Fuzzy.extractOne (PyStr.lower "Kolaba")
        (Py.unique (map App.Areas Fixture.app_catalog)))
   = Ok (Some ("colaba"%string, 49%Z)) /\
   run (Fixture.const_scorer 49)
     (App.calculate_evacuation_routes "Kolaba" Fixture.app_catalog)
   = Ok (None, None, [])) /\
  (run (Fixture.const_scorer 40)
     (Fuzzy.extractOne (PyStr.lower "Kolaba")
        (Py.unique (map Complete.Area_Name Fixture.complete_catalog)))
   = Ok (Some ("colaba"%string, 40%Z)) /\
   exists start rest,
     filter (fun r => Complete.Area_Name r =? "colaba")%string
       Fixture.complete_catalog = start :: rest /\
     PyStr.isin (Complete.Evacuation_Priority start)
       ["Immediate"; "Urgent"; "Standard"; "Safe"]%string = true /\
     exists all_routes,
       Forall2 (fun a r =>
                  run (Fixture.const_scorer 40)
                    (Complete.route_to (Complete.Latitude start)
                       (Complete.Longitude start) (Complete.Flood_Risk start)
                       (Complete.Evacuation_Priority start) a) = Ok r)
               (Complete_safe "colaba" Fixture.complete_catalog) all_routes /\
       run (Fixture.const_scorer 40)
         (Complete.calculate_advanced_evacuation_routes "Kolaba"
            Fixture.complete_catalog)
       = Ok (Some "colaba"%string, Some 40%Z,
             firstn 5 (Py.sorted Py.Rltb Complete.route_score all_routes))) /\
  (run (Fixture.const_scorer 39)
     (Fuzzy.extractOne (PyStr.lower "Kolaba")
        (Py.unique (map Complete.Area_Name Fixture.complete_catalog)))
   = Ok (Some ("colaba"%string, 39%Z)) /\
   run (Fixture.const_scorer 39)
     (Complete.calculate_advanced_evacuation_routes "Kolaba" Fixture.complete_catalog)
   = Ok (None, None, [])).
Proof.
  split; [| split; [| split]].
  - split; [reflexivity |].
    exact (proj1 (proj1 (C4_threshold_boundary (Fixture.const_scorer 50) "Kolaba")
                    Fixture.app_catalog "colaba"%string 50%Z eq_refl) eq_refl).
  - split; [reflexivity |].
    exact (proj2 (proj1 (C4_threshold_boundary (Fixture.const_scorer 49) "Kolaba")
                    Fixture.app_catalog "colaba"%string 49%Z eq_refl) eq_refl).
  - split; [reflexivity |].
    destruct (proj1 (proj2 (C4_threshold_boundary (Fixture.const_scorer 40) "Kolaba")
                       Fixture.complete_catalog "colaba"%string 40%Z eq_refl) eq_refl)
      as (start & rest & Ef & Hroutes & _).
    exists start, rest. split; [exact Ef |].
    assert (Hknown : PyStr.isin (Complete.Evacuation_Priority start)
                       ["Immediate"; "Urgent"; "Standard"; "Safe"]%string = true).
    { injection Ef as <- _. reflexivity. }
    split; [exact Hknown | exact (Hroutes (or_intror Hknown))].
  - split; [reflexivity |].
    exact (proj2 (proj2 (C4_threshold_boundary (Fixture.const_scorer 39) "Kolaba")
                    Fixture.complete_catalog "colaba"%string 39%Z eq_refl) eq_refl).
Defined.

(** ** mumbai_evacuation_real.py *)

Lemma Real_safe_spec best flood_df a :
  In a (Real_safe best flood_df) <->
  In a flood_df /\ Real.Areas a <> best /\
  (Real.Flood_Risk_Level a = "Low" \/ Real.Flood_Risk_Level a = "Medium")%string.
Proof.
  unfold Real_safe. rewrite !filter_In, negb_true_iff, isin_In. simpl.
  rewrite String.eqb_neq. intuition auto.
Qed.

Lemma Real_route_to_total scorer slat slon a :
  PyStr.isin (Real.Flood_Risk_Level a) ["Low"; "Medium"]%string = true ->
  exists r, run scorer (Real.route_to slat slon a) = Ok r.
Proof.
  intros H. apply isin_In in H. unfold Real.route_to. rewrite run_bind.
  destruct H as [<- | [<- | []]]; simpl; eauto.
Qed.

Lemma Real_calc_rejects scorer user_area flood_df best score :
  run scorer (Fuzzy.extractOne (PyStr.lower user_area)
                (Py.unique (map Real.Areas flood_df))) = Ok (Some (best, score)) ->
  (score < 50)%Z ->
  run scorer (Real.calculate_evacuation_routes user_area flood_df) = Ok (None, None, []).
Proof.
  intros H Hlt. unfold Real.calculate_evacuation_routes.
  rewrite run_bind, H, run_bind. cbn [Py.unpack2 run].
  apply Z.ltb_lt in Hlt. now rewrite Hlt.
Qed.

Lemma Real_calc_accepts scorer user_area flood_df best score :
  run scorer (Fuzzy.extractOne (PyStr.lower user_area)
                (Py.unique (map Real.Areas flood_df))) = Ok (Some (best, score)) ->
  (50 <= score)%Z ->
  exists routes,
    run scorer (Real.calculate_evacuation_routes user_area flood_df)
    = Ok (Some best, Some score, routes) /\
    (Real_safe best flood_df = [] -> routes = []).
Proof.
  intros H Hge. unfold Real.calculate_evacuation_routes.
  rewrite run_bind, H, run_bind. cbn [Py.unpack2 run].
  apply Z.ltb_ge in Hge. rewrite Hge.
  destruct (start_row_exists Real.Areas _ _ _ H) as (start & rest & -> & _ & _).
  rewrite run_bind. cbn [Py.iloc0 run].
  fold (Real_safe best flood_df).
  destruct (Real_safe best flood_df) as [| a0 safe] eqn:Esafe.
  - cbn [Py.empty run]. eauto.
  - cbn [Py.empty]. rewrite run_bind.
    destruct (@run_mapM_total _ _ scorer
                (Real.route_to (Real.Latitude start) (Real.Longitude start)) (a0 :: safe))
      as (ys & Hys).
    + apply Forall_forall. intros a Ha. apply Real_route_to_total.
      rewrite <- Esafe in Ha. apply Real_safe_spec in Ha.
      destruct Ha as (_ & _ & [-> | ->]); reflexivity.
    + rewrite Hys. cbn [run]. eexists. split; [reflexivity | discriminate].
Qed.

(** ** The two failure outcomes *)

(* a resolver answer decides the first two components of the result *)
Lemma App_calc_match scorer user_area flood_df best score m s routes :
  run scorer (Fuzzy.extractOne (PyStr.lower user_area)
                (Py.unique (map App.Areas flood_df))) = Ok (Some (best, score)) ->
  run scorer (App.calculate_evacuation_routes user_area flood_df) = Ok (m, s, routes) ->
  (m = None <-> (score < 50)%Z) /\
  (m = None -> s = None /\ routes = []) /\
  (m <> None -> m = Some best /\ s = Some score).
Proof.
  intros H Hrun.
  destruct (Z.lt_ge_cases score 50) as [Hlt | Hge].
  - rewrite (@App_calc_rejects _ _ _ _ _ H Hlt) in Hrun. injection Hrun as <- <- <-.
    split; [split; auto |]. split; [auto |].
    intros Hm. exfalso. now apply Hm.
  - destruct (@App_calc_accepts _ _ _ _ _ H Hge) as (routes' & Hr & _).
    rewrite Hr in Hrun. injection Hrun as <- <- <-.
    split; [split; [discriminate | lia] |]. split; [discriminate | auto].
Qed.

Lemma Real_calc_match scorer user_area flood_df best score m s routes :
  run scorer (Fuzzy.extractOne (PyStr.lower user_area)
                (Py.unique (map Real.Areas flood_df))) = Ok (Some (best, score)) ->
  run scorer (Real.calculate_evacuation_routes user_area flood_df) = Ok (m, s, routes) ->
  (m = None <-> (score < 50)%Z) /\
  (m = None -> s = None /\ routes = []) /\
  (m <> None -> m = Some best /\ s = Some score).
Proof.
  intros H Hrun.
  destruct (Z.lt_ge_cases score 50) as [Hlt | Hge].
  - rewrite (@Real_calc_rejects _ _ _ _ _ H Hlt) in Hrun. injection Hrun as <- <- <-.
    split; [split; auto |]. split; [auto |].
    intros Hm. exfalso. now apply Hm.
  - destruct (@Real_calc_accepts _ _ _ _ _ H Hge) as (routes' & Hr & _).
    rewrite Hr in Hrun. injection Hrun as <- <- <-.
    split; [split; [discriminate | lia] |]. split; [discriminate | auto].
Qed.

(** C5.  The two failure outcomes are distinguishable, in app.py and in
    mumbai_evacuation_real.py.  A best match below the threshold gives
    the triple (None, None, []); a resolved query with no eligible
    destination gives (matched name, score, []); and in any returned
    triple the match is None exactly when the best score is below the
    threshold, so a resolved match never comes with the null marker. *)
Theorem C5_failure_outcomes_distinct scorer user_area :
  (forall flood_df best score,
     run scorer (Fuzzy.extractOne (PyStr.lower user_area)
                   (Py.unique (map App.Areas flood_df))) = Ok (Some (best, score)) ->
     ((score < 50)%Z ->
      run scorer (App.calculate_evacuation_routes user_area flood_df)
      = Ok (None, None, [])) /\
     ((50 <= score)%Z -> App_safe best flood_df = [] ->
      run scorer (App.calculate_evacuation_routes user_area flood_df)
      = Ok (Some best, Some score, [])) /\
     (forall m s routes,
        run scorer (App.calculate_evacuation_routes user_area flood_df)
        = Ok (m, s, routes) ->
        (m = None <-> (score < 50)%Z) /\
        (m = None -> s = None /\ routes = []) /\
        (m <> None -> m = Some best /\ s = Some score)))
  /\
  (forall flood_df best score,
     run scorer (Fuzzy.extractOne (PyStr.lower user_area)
                   (Py.unique (map Real.Areas flood_df))) = Ok (Some (best, score)) ->
     ((score < 50)%Z ->
      run scorer (Real.calculate_evacuation_routes user_area flood_df)
      = Ok (None, None, [])) /\
     ((50 <= score)%Z -> Real_safe best flood_df = [] ->
      run scorer (Real.calculate_evacuation_routes user_area flood_df)
      = Ok (Some best, Some score, [])) /\
     (forall m s routes,
        run scorer (Real.calculate_evacuation_routes user_area flood_df)
        = Ok (m, s, routes) ->
        (m = None <-> (score < 50)%Z) /\
        (m = None -> s = None /\ routes = []) /\
        (m <> None -> m = Some best /\ s = Some score))).
Proof.
  split.
  - intros flood_df best score H. split; [| split].
    + intros Hlt. eapply App_calc_rejects; eauto.
    + intros Hge Hsafe.
      destruct (@App_calc_accepts _ _ _ _ _ H Hge) as (routes & Hr & Hnil).
      now rewrite Hr, (Hnil Hsafe).
    + intros m s routes. now apply App_calc_match.
  - intros flood_df best score H. split; [| split].
    + intros Hlt. eapply Real_calc_rejects; eauto.
    + intros Hge Hsafe.
      destruct (@Real_calc_accepts _ _ _ _ _ H Hge) as (routes & Hr & Hnil).
      now rewrite Hr, (Hnil Hsafe).
    + intros m s routes. now apply Real_calc_match.
Qed.

Lemma C5_failure_outcomes_distinct_witness :
  (run Fixture.exact_scorer
     (Fuzzy.extractOne (PyStr.lower "xyzzynotaplace")
        (Py.unique (map App.Areas Fixture.app_catalog)))
   = Ok (Some ("colaba"%string, 0%Z)) /\
   run Fixture.exact_scorer
     (App.calculate_evacuation_routes "xyzzynotaplace" Fixture.app_catalog)
   = Ok (None, None, [])) /\
  (run Fixture.exact_scorer
     (Fuzzy.extractOne (PyStr.lower "colaba")
        (Py.unique (map App.Areas Fixture.app_single)))
   = Ok (Some ("colaba"%string, 100%Z)) /\
   App_safe "colaba" Fixture.app_single = [] /\
   run Fixture.exact_scorer
     (App.calculate_evacuation_routes "colaba" Fixture.app_single)
   = Ok (Some "colaba"%string, Some 100%Z, [])) /\
  (run Fixture.exact_scorer
     (Fuzzy.extractOne (PyStr.lower "xyzzynotaplace")
        (Py.unique (map Real.Areas Fixture.real_catalog)))
   = Ok (Some ("colaba"%string, 0%Z)) /\
   run Fixture.exact_scorer
     (Real.calculate_evacuation_routes "xyzzynotaplace" Fixture.real_catalog)
   = Ok (None, None, [])) /\
  (run Fixture.exact_scorer
     (Fuzzy.extractOne (PyStr.lower "colaba")
        (Py.unique (map Real.Areas Fixture.real_single)))
   = Ok (Some ("colaba"%string, 100%Z)) /\
   Real_safe "colaba" Fixture.real_single = [] /\
   run Fixture.exact_scorer
     (Real.calculate_evacuation_routes "colaba" Fixture.real_single)
   = Ok (Some "colaba"%string, Some 100%Z, [])).
Proof.
  split; [| split; [| split]].
  - split; [reflexivity |].
    exact (proj1 (proj1 (C5_failure_outcomes_distinct Fixture.exact_scorer
                           "xyzzynotaplace")
                    Fixture.app_catalog "colaba"%string 0%Z eq_refl) eq_refl).
  - split; [reflexivity |]. split; [reflexivity |].
    refine (proj1 (proj2 (proj1 (C5_failure_outcomes_distinct Fixture.exact_scorer
                                   "colaba")
                            Fixture.app_single "colaba"%string 100%Z eq_refl))
              _ eq_refl).
    discriminate.
  - split; [reflexivity |].
    exact (proj1 (proj2 (C5_failure_outcomes_distinct Fixture.exact_scorer
                           "xyzzynotaplace")
                    Fixture.real_catalog "colaba"%string 0%Z eq_refl) eq_refl).
  - split; [reflexivity |]. split; [reflexivity |].
    refine (proj1 (proj2 (proj2 (C5_failure_outcomes_distinct Fixture.exact_scorer
                                   "colaba")
                            Fixture.real_single "colaba"%string 100%Z eq_refl))
              _ eq_refl).
    discriminate.
Defined.

(** ** Rounding for display *)

Lemma floor_bounds x : (IZR (Py.floor x) <= x < IZR (Py.floor x) + 1)%R.
Proof.
  unfold Py.floor. rewrite minus_IZR. destruct (archimed x) as [H1 H2]. lra.
Qed.

Lemma floor_monotone x y : (x <= y)%R -> (Py.floor x <= Py.floor y)%Z.
Proof.
  intros H. destruct (floor_bounds x) as [Hx _]. destruct (floor_bounds y) as [_ Hy].
  assert (Hlt : (IZR (Py.floor x) < IZR (Py.floor y + 1))%R)
    by (rewrite plus_IZR; lra).
  apply lt_IZR in Hlt. lia.
Qed.

Lemma round_half_even_bounds x :
  (Py.floor x <= Py.round_half_even x <= Py.floor x + 1)%Z.
Proof.
  unfold Py.round_half_even. cbv zeta.
  destruct (Rlt_dec _ _); [lia |].
  destruct (Rlt_dec _ _); [lia |].
  destruct (Z.even _); lia.
Qed.

Lemma round_half_even_monotone x y :
  (x <= y)%R -> (Py.round_half_even x <= Py.round_half_even y)%Z.
Proof.
  intros H. assert (Hf := @floor_monotone x y H).
  destruct (Z.eq_dec (Py.floor x) (Py.floor y)) as [E | E].
  - unfold Py.round_half_even. cbv zeta. rewrite <- E.
    destruct (Rlt_dec (x - IZR (Py.floor x)) (1 / 2)) as [Hx | Hx].
    + destruct (Rlt_dec (y - IZR (Py.floor x)) (1 / 2)); [lia |].
      destruct (Rlt_dec (1 / 2) (y - IZR (Py.floor x))); [lia |].
      destruct (Z.even (Py.floor x)); lia.
    + destruct (Rlt_dec (y - IZR (Py.floor x)) (1 / 2)) as [Hy | Hy]; [lra |].
      destruct (Rlt_dec (1 / 2) (x - IZR (Py.floor x))) as [Hx' | Hx'].
      * destruct (Rlt_dec (1 / 2) (y - IZR (Py.floor x))); [lia | lra].
      * destruct (Rlt_dec (1 / 2) (y - IZR (Py.floor x))).
        -- destruct (Z.even (Py.floor x)); lia.
        -- lia.
  - destruct (round_half_even_bounds x) as [_ Hx].
    destruct (round_half_even_bounds y) as [Hy _]. lia.
Qed.

(* round(x, ndigits) keeps the order of its arguments *)
Lemma round_monotone x y ndigits :
  (x <= y)%R -> (Py.round x ndigits <= Py.round y ndigits)%R.
Proof.
  intros H. unfold Py.round.
  assert (Hp : (0 < 10 ^ ndigits)%R) by (apply pow_lt; lra).
  apply Rmult_le_compat_r; [left; now apply Rinv_0_lt_compat |].
  apply IZR_le, round_half_even_monotone.
  apply Rmult_le_compat_r; lra.
Qed.

(* the route_score stored by streamlit_app.py, rounded to two decimals,
   never reverses the order of the formula *)
Lemma Streamlit_stored_score_monotone d1 d2 improvement :
  (d1 <= d2)%R ->
  (Py.round (Streamlit.route_score_of d1 improvement) 2
   <= Py.round (Streamlit.route_score_of d2 improvement) 2)%R.
Proof.
  intros H. apply round_monotone. unfold Streamlit.route_score_of. lra.
Qed.

(** ** The score formulas *)

Lemma urgency_multiplier_pos priority u :
  In (priority, u) Complete.urgency_multipliers -> (0 < u)%R.
Proof.
  unfold Complete.urgency_multipliers. simpl.
  intros [[= _ <-] | [[= _ <-] | [[= _ <-] | [[= _ <-] | []]]]]; lra.
Qed.

(** ** Haversine distance *)

Lemma sin_half_diff_sq a b : (sin ((a - b) / 2) ^ 2 = sin ((b - a) / 2) ^ 2)%R.
Proof.
  replace ((a - b) / 2)%R with (- ((b - a) / 2))%R by field.
  rewrite sin_neg. ring.
Qed.

Lemma App_haversine_sym lat1 lon1 lat2 lon2 :
  App.haversine_km lat1 lon1 lat2 lon2 = App.haversine_km lat2 lon2 lat1 lon1.
Proof.
  unfold App.haversine_km. cbv zeta.
  rewrite (sin_half_diff_sq (Py.radians lat2) (Py.radians lat1)).
  rewrite (sin_half_diff_sq (Py.radians lon2) (Py.radians lon1)).
  rewrite (Rmult_comm (cos (Py.radians lat1)) (cos (Py.radians lat2))).
  reflexivity.
Qed.

Lemma App_haversine_same lat lon : App.haversine_km lat lon lat lon = 0%R.
Proof.
  unfold App.haversine_km. cbv zeta.
  replace ((Py.radians lat - Py.radians lat) / 2)%R with 0%R by field.
  replace ((Py.radians lon - Py.radians lon) / 2)%R with 0%R by field.
  rewrite sin_0.
  replace (0 ^ 2 + cos (Py.radians lat) * cos (Py.radians lat) * 0 ^ 2)%R
    with 0%R by ring.
  rewrite sqrt_0, asin_0. ring.
Qed.

Lemma arctan2_0_1 : Tload.arctan2 0 1 = 0%R.
Proof.
  unfold Tload.arctan2. destruct (Rlt_dec 0 1) as [_ | H]; [| exfalso; lra].
  replace (0 / 1)%R with 0%R by field. apply atan_0.
Qed.

Lemma sin_half_diff_sq_float a b :
  (sin ((a - b) / 2.0) ^ 2 = sin ((b - a) / 2.0) ^ 2)%R.
Proof.
  replace ((a - b) / 2.0)%R with (- ((b - a) / 2.0))%R by lra.
  rewrite sin_neg. ring.
Qed.

Lemma Tload_haversine_sym lon1 lat1 lon2 lat2 :
  Tload.haversine_m lon1 lat1 lon2 lat2 = Tload.haversine_m lon2 lat2 lon1 lat1.
Proof.
  unfold Tload.haversine_m. cbv zeta.
  rewrite (sin_half_diff_sq_float (Py.radians lat2) (Py.radians lat1)).
  rewrite (sin_half_diff_sq_float (Py.radians lon2) (Py.radians lon1)).
  rewrite (Rmult_comm (cos (Py.radians lat1)) (cos (Py.radians lat2))).
  reflexivity.
Qed.

Lemma Tload_haversine_same lon lat : Tload.haversine_m lon lat lon lat = 0%R.
Proof.
  unfold Tload.haversine_m. cbv zeta.
  replace ((Py.radians lat - Py.radians lat) / 2.0)%R with 0%R by lra.
  replace ((Py.radians lon - Py.radians lon) / 2.0)%R with 0%R by lra.
  rewrite sin_0.
  replace (0 ^ 2 + cos (Py.radians lat) * cos (Py.radians lat) * 0 ^ 2)%R
    with 0%R by ring.
  replace (1 - 0)%R with 1%R by ring.
  rewrite sqrt_0, sqrt_1, arctan2_0_1. ring.
Qed.

(** C7.  The Haversine distance is symmetric and vanishes on equal
    points, for the distance of app.py's loop (lines 126-134) and for
    tload.py's haversine_m. *)
Theorem C7_haversine_symmetric_zero :
  (forall lat1 lon1 lat2 lon2,
     App.haversine_km lat1 lon1 lat2 lon2 = App.haversine_km lat2 lon2 lat1 lon1)
  /\ (forall lat lon, App.haversine_km lat lon lat lon = 0%R)
  /\ (forall lon1 lat1 lon2 lat2,
        Tload.haversine_m lon1 lat1 lon2 lat2 = Tload.haversine_m lon2 lat2 lon1 lat1)
  /\ (forall lon lat, Tload.haversine_m lon lat lon lat = 0%R).
Proof.
  split; [exact App_haversine_sym |].
  split; [exact App_haversine_same |].
  split; [exact Tload_haversine_sym | exact Tload_haversine_same].
Qed.

(** ** Empty and white-space queries *)

(* round half to even gives a nearest integer *)
Lemma round_half_even_near x :
  (IZR (Py.round_half_even x) - 1 / 2 <= x <= IZR (Py.round_half_even x) + 1 / 2)%R.
Proof.
  destruct (floor_bounds x) as [H1 H2].
  unfold Py.round_half_even. cbv zeta.
  destruct (Rlt_dec (x - IZR (Py.floor x)) (1 / 2)) as [Hlt | Hge]; [lra |].
  destruct (Rlt_dec (1 / 2) (x - IZR (Py.floor x))) as [Hgt | Hle].
  - rewrite plus_IZR. lra.
  - destruct (Z.even (Py.floor x)); [| rewrite plus_IZR]; lra.
Qed.

Lemma round_half_even_unique x n :
  (IZR n - 1 / 2 < x < IZR n + 1 / 2)%R -> Py.round_half_even x = n.
Proof.
  intros H. destruct (round_half_even_near x) as [H1 H2].
  assert (Ha : (IZR (Py.round_half_even x) < IZR (n + 1))%R)
    by (rewrite plus_IZR; lra).
  assert (Hb : (IZR (n - 1) < IZR (Py.round_half_even x))%R)
    by (rewrite minus_IZR; lra).
  apply lt_IZR in Ha. apply lt_IZR in Hb. lia.
Qed.

(* round(x, 2) when x is less than half a hundredth from n / 100 *)
Lemma round_2_unique x n :
  (IZR n - 1 / 2 < x * 100 < IZR n + 1 / 2)%R -> Py.round x 2 = (IZR n / 100)%R.
Proof.
  intros H. unfold Py.round.
  replace (10 ^ 2)%R with 100%R by (simpl; ring).
  now rewrite (@round_half_even_unique (x * 100) n H).
Qed.

(* two numbers a hundredth and a half apart are rounded to different
   hundredths *)
Lemma round_2_strict x y : (x + 0.015 <= y)%R -> (Py.round x 2 < Py.round y 2)%R.
Proof.
  intros H. unfold Py.round.
  replace (10 ^ 2)%R with 100%R by (simpl; ring).
  destruct (round_half_even_near (x * 100)) as [Hx _].
  destruct (round_half_even_near (y * 100)) as [_ Hy].
  assert (Hlt : (IZR (Py.round_half_even (x * 100))
                 < IZR (Py.round_half_even (y * 100)))%R) by lra.
  lra.
Qed.

Lemma getitem_get (V : Type) scorer (d : list (string * V)) key v default :
  run scorer (Py.getitem d key) = Ok v -> Py.get d key default = v.
Proof.
  unfold Py.getitem, Py.get.
  destruct (find (fun kv => (fst kv =? key)%string) d); [| discriminate].
  now intros [= <-].
Qed.

Lemma urgency_multiplier_ge_1 scorer priority u :
  run scorer (Py.getitem Complete.urgency_multipliers priority) = Ok u -> (1 <= u)%R.
Proof.
  unfold Py.getitem, Complete.urgency_multipliers. cbn [find fst snd].
  destruct ("Immediate" =? priority)%string; [intros [= <-]; lra |].
  destruct ("Urgent" =? priority)%string; [intros [= <-]; lra |].
  destruct ("Standard" =? priority)%string; [intros [= <-]; lra |].
  destruct ("Safe" =? priority)%string; [intros [= <-]; lra | discriminate].
Qed.

(* the score and the safety improvement a route of
   mumbai_evacuation_complete.py carries *)
Lemma Complete_route_to_score scorer slat slon risk priority a r :
  run scorer (Complete.route_to slat slon risk priority a) = Ok r ->
  exists u,
    run scorer (Py.getitem Complete.urgency_multipliers priority) = Ok u /\
    Complete.safety_improvement r
    = Complete.safety_improvement_of (Py.get Complete.risk_scores risk 2%Z)
        (Py.get Complete.risk_scores (Complete.Flood_Risk a) 2%Z) /\
    Complete.route_score r
    = Py.round
        (Complete.route_score_of
           (Complete.haversine_km slat slon (Complete.Latitude a)
              (Complete.Longitude a))
           (Complete.safety_improvement r)
           (Complete.density_factor_of (Complete.Population_Density a)) u) 2.
Proof.
  unfold Complete.route_to. rewrite run_bind.
  destruct (run scorer (Py.getitem Complete.urgency_multipliers priority))
    as [u | e]; [| discriminate].
  cbn [run]. intros [= <-]. exists u.
  cbn [Complete.safety_improvement Complete.route_score]. auto.
Qed.

Lemma Complete_route_to_density scorer slat slon risk priority a r :
  run scorer (Complete.route_to slat slon risk priority a) = Ok r ->
  Complete.population_density r = Complete.Population_Density a.
Proof.
  unfold Complete.route_to. rewrite run_bind.
  destruct (run scorer (Py.getitem Complete.urgency_multipliers priority))
    as [u | e]; [| discriminate].
  cbn [run]. now intros [= <-].
Qed.

(* the Haversine distance between two places on one meridian *)
Lemma App_haversine_north lat lon lat' :
  (lat <= lat' <= lat + 180)%R ->
  App.haversine_km lat lon lat' lon = (6371 * ((lat' - lat) * PI / 180))%R.
Proof.
  intros H. assert (HPI := PI_RGT_0).
  unfold App.haversine_km, Py.radians. cbv zeta.
  set (y := ((lat' * PI / 180 - lat * PI / 180) / 2)%R).
  assert (Hy : (0 <= y <= PI / 2)%R).
  { unfold y. split.
    - assert (0 <= (lat' - lat) * PI)%R by nra. lra.
    - assert ((lat' - lat) * PI <= 180 * PI)%R by nra. lra. }
  replace ((lon * PI / 180 - lon * PI / 180) / 2)%R with 0%R by field.
  rewrite sin_0.
  replace (sin y ^ 2 + cos (lat * PI / 180) * cos (lat' * PI / 180) * 0 ^ 2)%R
    with (sin y ^ 2)%R by ring.
  rewrite sqrt_pow2 by (apply sin_ge_0; lra).
  rewrite asin_sin by lra.
  unfold y. field.
Qed.

(** C6.  Sign convention of the composite score, on the score a route
    carries and is ranked by.  For two destinations seen from one start:
    when the second is at least as far, has at most the safety
    improvement of the first (in app.py: at least its risk score) and,
    in mumbai_evacuation_complete.py, at least its population density,
    its score is not smaller; and its score is greater when besides it
    is 0.05 km farther, or a risk level worse, or, in
    mumbai_evacuation_complete.py, denser by 3000 people per square
    kilometre.  The scores are combined_score of app.py and the
    route_score, rounded to two decimals, of streamlit_app.py and
    mumbai_evacuation_complete.py. *)
Theorem C6_sign_convention :
  (forall scorer slat slon a b ra rb,
     run scorer (App.route_to slat slon a) = Ok ra ->
     run scorer (App.route_to slat slon b) = Ok rb ->
     (App.haversine_km slat slon (App.Latitude a) (App.Longitude a)
      <= App.haversine_km slat slon (App.Latitude b) (App.Longitude b))%R ->
     (Py.get App.risk_scores (App.Flood_Risk_Level a) 0
      <= Py.get App.risk_scores (App.Flood_Risk_Level b) 0)%Z ->
     (App.combined_score ra <= App.combined_score rb)%R /\
     ((App.haversine_km slat slon (App.Latitude a) (App.Longitude a) + 0.05
       <= App.haversine_km slat slon (App.Latitude b) (App.Longitude b))%R
      \/ (Py.get App.risk_scores (App.Flood_Risk_Level a) 0
          < Py.get App.risk_scores (App.Flood_Risk_Level b) 0)%Z ->
      (App.combined_score ra < App.combined_score rb)%R))
  /\
  (forall slat slon risk priority a b,
     (Streamlit.haversine_km slat slon (Streamlit.Latitude a) (Streamlit.Longitude a)
      <= Streamlit.haversine_km slat slon (Streamlit.Latitude b)
           (Streamlit.Longitude b))%R ->
     (Streamlit.safety_improvement (Streamlit.route_to slat slon risk priority b)
      <= Streamlit.safety_improvement (Streamlit.route_to slat slon risk priority a))%Z ->
     (Streamlit.route_score (Streamlit.route_to slat slon risk priority a)
      <= Streamlit.route_score (Streamlit.route_to slat slon risk priority b))%R /\
     ((Streamlit.haversine_km slat slon (Streamlit.Latitude a) (Streamlit.Longitude a)
       + 0.05
       <= Streamlit.haversine_km slat slon (Streamlit.Latitude b)
            (Streamlit.Longitude b))%R
      \/ (Streamlit.safety_improvement (Streamlit.route_to slat slon risk priority b)
          < Streamlit.safety_improvement
              (Streamlit.route_to slat slon risk priority a))%Z ->
      (Streamlit.route_score (Streamlit.route_to slat slon risk priority a)
       < Streamlit.route_score (Streamlit.route_to slat slon risk priority b))%R))
  /\
  (forall scorer slat slon risk priority a b ra rb,
     run scorer (Complete.route_to slat slon risk priority a) = Ok ra ->
     run scorer (Complete.route_to slat slon risk priority b) = Ok rb ->
     (Complete.haversine_km slat slon (Complete.Latitude a) (Complete.Longitude a)
      <= Complete.haversine_km slat slon (Complete.Latitude b)
           (Complete.Longitude b))%R ->
     (Complete.safety_improvement rb <= Complete.safety_improvement ra)%Z ->
     (Complete.Population_Density a <= Complete.Population_Density b)%Z ->
     (Complete.route_score ra <= Complete.route_score rb)%R /\
     ((Complete.haversine_km slat slon (Complete.Latitude a) (Complete.Longitude a)
       + 0.05
       <= Complete.haversine_km slat slon (Complete.Latitude b)
            (Complete.Longitude b))%R
      \/ (Complete.safety_improvement rb < Complete.safety_improvement ra)%Z
      \/ (Complete.Population_Density a + 3000 <= Complete.Population_Density b)%Z ->
      (Complete.route_score ra < Complete.route_score rb)%R)).
Proof.
  split; [| split].
  - intros scorer slat slon a b ra rb Ha Hb Hd Hs.
    apply App_route_to_inv in Ha. destruct Ha as (_ & _ & sa & Hsa & ->).
    apply App_route_to_inv in Hb. destruct Hb as (_ & _ & sb & Hsb & ->).
    rewrite (@getitem_get _ _ _ _ _ 0%Z Hsa) in Hs |- *.
    rewrite (@getitem_get _ _ _ _ _ 0%Z Hsb) in Hs |- *.
    unfold App.score_formula.
    assert (Hle : (IZR sa <= IZR sb)%R) by now apply IZR_le.
    split; [lra |].
    intros [Hfar | Hworse]; [lra |].
    assert (Hlt : (IZR sa + 1 <= IZR sb)%R)
      by (rewrite <- plus_IZR; apply IZR_le; lia).
    lra.
  - intros slat slon risk priority a b Hd Hs.
    cbn [Streamlit.route_to Streamlit.route_score Streamlit.safety_improvement] in *.
    unfold Streamlit.route_score_of.
    set (ia := Streamlit.safety_improvement_of _ (Py.get _ (Streamlit.Flood_Risk a) _))
      in *.
    set (ib := Streamlit.safety_improvement_of _ (Py.get _ (Streamlit.Flood_Risk b) _))
      in *.
    assert (Hle : (IZR ib <= IZR ia)%R) by now apply IZR_le.
    split; [apply round_monotone; lra |].
    intros [Hfar | Hworse]; apply round_2_strict; [lra |].
    assert (Hlt : (IZR ib + 1 <= IZR ia)%R)
      by (rewrite <- plus_IZR; apply IZR_le; lia).
    lra.
  - intros scorer slat slon risk priority a b ra rb Ha Hb Hd Hs Hn.
    apply Complete_route_to_score in Ha. destruct Ha as (u & Hu & _ & ->).
    apply Complete_route_to_score in Hb. destruct Hb as (u' & Hu' & _ & ->).
    rewrite Hu in Hu'. injection Hu' as <-.
    apply urgency_multiplier_ge_1 in Hu.
    unfold Complete.route_score_of, Complete.density_factor_of.
    assert (Hle : (IZR (Complete.safety_improvement rb)
                   <= IZR (Complete.safety_improvement ra))%R) by now apply IZR_le.
    assert (Hden : (IZR (Complete.Population_Density a)
                    <= IZR (Complete.Population_Density b))%R) by now apply IZR_le.
    set (da := Complete.haversine_km slat slon (Complete.Latitude a)
                 (Complete.Longitude a)) in *.
    set (db := Complete.haversine_km slat slon (Complete.Latitude b)
                 (Complete.Longitude b)) in *.
    set (ia := IZR (Complete.safety_improvement ra)) in *.
    set (ib := IZR (Complete.safety_improvement rb)) in *.
    set (na := IZR (Complete.Population_Density a)) in *.
    set (nb := IZR (Complete.Population_Density b)) in *.
    assert (Hbase : (da * 0.3 - ia + na / 100000 * 0.5
                     <= db * 0.3 - ib + nb / 100000 * 0.5)%R) by lra.
    split; [apply round_monotone; nra |].
    intros Hone. apply round_2_strict.
    assert (Hgap : (da * 0.3 - ia + na / 100000 * 0.5 + 0.015
                    <= db * 0.3 - ib + nb / 100000 * 0.5)%R).
    { destruct Hone as [Hfar | [Hworse | Hdense]].
      - lra.
      - assert (Hlt : (ib + 1 <= ia)%R).
        { unfold ia, ib. rewrite <- plus_IZR. apply IZR_le. lia. }
        lra.
      - assert (Hlt : (na + 3000 <= nb)%R).
        { unfold na, nb. rewrite <- plus_IZR. apply IZR_le. lia. }
        lra. }
    nra.
Qed.

Lemma C6_sign_convention_witness :
  (run Fixture.exact_scorer
     (App.route_to 18.9151 72.8141
        {| App.Ward_Code := "C"; App.Areas := "churchgate";
           App.Latitude := 18.9346; App.Longitude := 72.8284;
           App.Flood_Risk_Level := "Low" |})
   = Ok Expected.app_churchgate /\
   run Fixture.exact_scorer
     (App.route_to 18.9151 72.8141
        {| App.Ward_Code := "C"; App.Areas := "churchgate station";
           App.Latitude := 18.9346; App.Longitude := 72.8284;
           App.Flood_Risk_Level := "Medium" |})
   = Ok Expected.app_station /\
   (App.combined_score Expected.app_churchgate
    < App.combined_score Expected.app_station)%R) /\
  (Streamlit.route_score
     (Streamlit.route_to 18.9151 72.8141 "High" "Immediate"
        (Fixture.streamlit_at "churchgate" 18.9346 "Low"))
   < Streamlit.route_score
       (Streamlit.route_to 18.9151 72.8141 "High" "Immediate"
          (Fixture.streamlit_at "churchgate station" 18.9346 "Medium")))%R /\
  (exists ra rb,
     run Fixture.exact_scorer
       (Complete.route_to 18.9151 72.8141 "High" "Immediate"
          (Fixture.complete_at "churchgate" "Low" 30000)) = Ok ra /\
     run Fixture.exact_scorer
       (Complete.route_to 18.9151 72.8141 "High" "Immediate"
          (Fixture.complete_at "churchgate station" "Low" 33000)) = Ok rb /\
     (Complete.route_score ra < Complete.route_score rb)%R).
Proof.
  destruct C6_sign_convention as (Happ & Hstreamlit & Hcomplete).
  split; [| split].
  - assert (Ha : run Fixture.exact_scorer
                   (App.route_to 18.9151 72.8141
                      {| App.Ward_Code := "C"; App.Areas := "churchgate";
                         App.Latitude := 18.9346; App.Longitude := 72.8284;
                         App.Flood_Risk_Level := "Low" |})
                 = Ok Expected.app_churchgate) by reflexivity.
    assert (Hb : run Fixture.exact_scorer
                   (App.route_to 18.9151 72.8141
                      {| App.Ward_Code := "C"; App.Areas := "churchgate station";
                         App.Latitude := 18.9346; App.Longitude := 72.8284;
                         App.Flood_Risk_Level := "Medium" |})
                 = Ok Expected.app_station) by reflexivity.
    split; [exact Ha |]. split; [exact Hb |].
    refine (proj2 (Happ _ _ _ _ _ _ _ Ha Hb _ _) _).
    + apply Rle_refl.
    + cbn. lia.
    + right. cbn. lia.
  - refine (proj2 (Hstreamlit 18.9151%R 72.8141%R "High"%string "Immediate"%string
                     (Fixture.streamlit_at "churchgate" 18.9346 "Low")
                     (Fixture.streamlit_at "churchgate station" 18.9346 "Medium")
                     _ _) _).
    + apply Rle_refl.
    + cbn. lia.
    + right. cbn. lia.
  - destruct (@Complete_route_to_total Fixture.exact_scorer 18.9151%R 72.8141%R
                "High"%string "Immediate"%string
                (Fixture.complete_at "churchgate" "Low" 30000) eq_refl) as (ra & Ha).
    destruct (@Complete_route_to_total Fixture.exact_scorer 18.9151%R 72.8141%R
                "High"%string "Immediate"%string
                (Fixture.complete_at "churchgate station" "Low" 33000) eq_refl)
      as (rb & Hb).
    exists ra, rb. split; [exact Ha |]. split; [exact Hb |].
    destruct (@Complete_route_to_score _ _ _ _ _ _ _ Ha) as (_ & _ & Hia & _).
    destruct (@Complete_route_to_score _ _ _ _ _ _ _ Hb) as (_ & _ & Hib & _).
    refine (proj2 (Hcomplete _ _ _ _ _ _ _ _ _ Ha Hb _ _ _) _).
    + apply Rle_refl.
    + rewrite Hia, Hib. cbn. lia.
    + cbn. lia.
    + right. right. cbn. lia.
Defined.

(** C6, the strict order.  The score a route carries does not separate
    destinations that differ little.  From colaba, streamlit_app.py
    gives a destination at colaba's own coordinates and one a
    hundred-thousandth of a degree to the north, otherwise alike, the
    same route_score -4.0 although the second is farther; and
    mumbai_evacuation_complete.py gives two destinations at one place
    with 30000 and 30001 people per square kilometre, otherwise alike,
    the same route_score -11.55 although the second is denser. *)
Lemma C6_stored_score_not_strict :
  ((Streamlit.haversine_km 18.9151 72.8141
      (Streamlit.Latitude (Fixture.streamlit_at "a" 18.9151 "Low"))
      (Streamlit.Longitude (Fixture.streamlit_at "a" 18.9151 "Low"))
    < Streamlit.haversine_km 18.9151 72.8141
        (Streamlit.Latitude (Fixture.streamlit_at "b" 18.91511 "Low"))
        (Streamlit.Longitude (Fixture.streamlit_at "b" 18.91511 "Low")))%R /\
   Streamlit.safety_improvement
     (Streamlit.route_to 18.9151 72.8141 "High" "Immediate"
        (Fixture.streamlit_at "a" 18.9151 "Low"))
   = Streamlit.safety_improvement
       (Streamlit.route_to 18.9151 72.8141 "High" "Immediate"
          (Fixture.streamlit_at "b" 18.91511 "Low")) /\
   Streamlit.route_score
     (Streamlit.route_to 18.9151 72.8141 "High" "Immediate"
        (Fixture.streamlit_at "a" 18.9151 "Low")) = (IZR (-400) / 100)%R /\
   Streamlit.route_score
     (Streamlit.route_to 18.9151 72.8141 "High" "Immediate"
        (Fixture.streamlit_at "b" 18.91511 "Low")) = (IZR (-400) / 100)%R)
  /\
  (exists ra rb,
     run Fixture.exact_scorer
       (Complete.route_to 18.9151 72.8141 "High" "Immediate"
          (Fixture.complete_at "a" "Low" 30000)) = Ok ra /\
     run Fixture.exact_scorer
       (Complete.route_to 18.9151 72.8141 "High" "Immediate"
          (Fixture.complete_at "b" "Low" 30001)) = Ok rb /\
     (Complete.population_density ra < Complete.population_density rb)%Z /\
     Complete.safety_improvement ra = Complete.safety_improvement rb /\
     Complete.route_score ra = (IZR (-1155) / 100)%R /\
     Complete.route_score rb = (IZR (-1155) / 100)%R).
Proof.
  assert (HPI := PI_RGT_0). assert (HPI4 := PI_4).
  assert (Hsame : Streamlit.haversine_km 18.9151 72.8141 18.9151 72.8141 = 0%R)
    by apply App_haversine_same.
  assert (Hnorth : Streamlit.haversine_km 18.9151 72.8141 18.91511 72.8141
                   = (6371 * ((18.91511 - 18.9151) * PI / 180))%R)
    by (apply App_haversine_north; lra).
  split.
  - cbn [Fixture.streamlit_at Streamlit.Latitude Streamlit.Longitude
         Streamlit.route_to Streamlit.safety_improvement Streamlit.route_score
         Streamlit.Flood_Risk].
    rewrite Hsame, Hnorth.
    change (Streamlit.safety_improvement_of (Py.get Streamlit.risk_scores "High" 2%Z)
              (Py.get Streamlit.risk_scores "Low" 2%Z)) with 4%Z.
    unfold Streamlit.route_score_of.
    split; [nra |]. split; [reflexivity |].
    split; apply round_2_unique; nra.
  - destruct (@Complete_route_to_total Fixture.exact_scorer 18.9151%R 72.8141%R
                "High"%string "Immediate"%string
                (Fixture.complete_at "a" "Low" 30000) eq_refl) as (ra & Ha).
    destruct (@Complete_route_to_total Fixture.exact_scorer 18.9151%R 72.8141%R
                "High"%string "Immediate"%string
                (Fixture.complete_at "b" "Low" 30001) eq_refl) as (rb & Hb).
    exists ra, rb. split; [exact Ha |]. split; [exact Hb |].
    pose proof (@Complete_route_to_density _ _ _ _ _ _ _ Ha) as Hna.
    pose proof (@Complete_route_to_density _ _ _ _ _ _ _ Hb) as Hnb.
    destruct (@Complete_route_to_score _ _ _ _ _ _ _ Ha) as (u & Hu & Hia & Hsa).
    destruct (@Complete_route_to_score _ _ _ _ _ _ _ Hb) as (u' & Hu' & Hib & Hsb).
    assert (Eu : u = 3%R) by (cbn in Hu; now injection Hu as <-).
    assert (Eu' : u' = 3%R) by (cbn in Hu'; now injection Hu' as <-).
    subst u u'.
    assert (Eia : Complete.safety_improvement ra = 4%Z) by (rewrite Hia; reflexivity).
    assert (Eib : Complete.safety_improvement rb = 4%Z) by (rewrite Hib; reflexivity).
    split; [rewrite Hna, Hnb; cbn; lia |].
    split; [congruence |].
    rewrite Hsa, Hsb, Eia, Eib.
    cbn [Fixture.complete_at Complete.Latitude Complete.Longitude
         Complete.Population_Density].
    change (Complete.haversine_km 18.9151 72.8141 18.9151 72.8141)
      with (App.haversine_km 18.9151 72.8141 18.9151 72.8141).
    rewrite App_haversine_same.
    unfold Complete.route_score_of, Complete.density_factor_of.
    split; apply round_2_unique; lra.
Qed.

Lemma lstrip_blank s : blank s = true -> PyStr.lstrip s = EmptyString.
Proof.
  induction s as [| c t IH]; simpl; auto.
  intros H. apply andb_true_iff in H. destruct H as [-> H]. auto.
Qed.

Lemma lstrip_not_blank s :
  blank s = false ->
  exists c t, PyStr.lstrip s = String c t /\ PyStr.is_space c = false.
Proof.
  induction s as [| c t IH]; simpl; [discriminate |].
  destruct (PyStr.is_space c) eqn:E; simpl; eauto.
Qed.

Lemma rstrip_head_not_space c t :
  PyStr.is_space c = false -> PyStr.rstrip (String c t) <> EmptyString.
Proof.
  intros E. simpl. destruct (PyStr.rstrip t); [rewrite E |]; discriminate.
Qed.

Lemma strip_blank s : PyStr.strip s = EmptyString <-> blank s = true.
Proof.
  unfold PyStr.strip. split.
  - intros H. destruct (blank s) eqn:E; auto.
    destruct (lstrip_not_blank s E) as (c & t & Hl & Hc).
    rewrite Hl in H. now apply rstrip_head_not_space in H.
  - intros H. now rewrite (lstrip_blank s H).
Qed.

Lemma App_calc_calls scorer user_area flood_df :
  exists rest,
    calls scorer (App.calculate_evacuation_routes user_area flood_df)
    = map (fun c => (PyStr.lower user_area, c)) (Py.unique (map App.Areas flood_df))
      ++ rest.
Proof.
  unfold App.calculate_evacuation_routes.
  rewrite calls_bind, extractOne_calls. eauto.
Qed.

Lemma Tload_find_calls scorer lib g user_input_str :
  exists rest,
    calls scorer (Tload.find_two_safest_routes_for_user lib g user_input_str)
    = map (fun c => (PyStr.strip (PyStr.lower user_input_str), c)) (Tload.regions g)
      ++ rest.
Proof.
  unfold Tload.find_two_safest_routes_for_user, Tload.extract_best_match.
  rewrite !calls_bind, extractOne_calls, <- app_assoc. eauto.
Qed.

(** C8, as the code has it.  The check for an empty or white-space query
    is made by the callers, not by the resolver.  For such a query the
    FIND button of app.py reports the error, leaves routes_computed False
    and stores no match, and main of tload.py exits: neither asks the
    metric for any comparison.  The route functions themselves,
    calculate_evacuation_routes and find_two_safest_routes_for_user,
    compare whatever query they are given with every catalog name; when
    the metric scores the query below the threshold against every name,
    as fuzzywuzzy does for an empty query, app.py's function then returns
    the no-match triple. *)
Theorem C8_blank_query_stops_in_caller scorer user_region :
  blank user_region = true ->
  (forall flood_df st,
     calls scorer (App.on_find_button user_region flood_df st) = [] /\
     run scorer (App.on_find_button user_region flood_df st)
     = Ok ({| App.routes_computed := false;
              App.best_match := App.best_match st;
              App.match_score := App.match_score st;
              App.routes := App.routes st;
              App.user_region_input := App.user_region_input st |}, true))
  /\
  (forall lib g,
     calls scorer (Tload.main lib g user_region) = [] /\
     run scorer (Tload.main lib g user_region) = Err SystemExit)
  /\
  (forall flood_df,
     exists rest,
       calls scorer (App.calculate_evacuation_routes user_region flood_df)
       = map (fun c => (PyStr.lower user_region, c))
             (Py.unique (map App.Areas flood_df)) ++ rest)
  /\
  (forall lib g,
     exists rest,
       calls scorer (Tload.find_two_safest_routes_for_user lib g user_region)
       = map (fun c => (PyStr.strip (PyStr.lower user_region), c)) (Tload.regions g)
         ++ rest)
  /\
  (forall flood_df,
     flood_df <> [] ->
     (forall c, (0 <= scorer (PyStr.lower user_region) c < 50)%Z) ->
     run scorer (App.calculate_evacuation_routes user_region flood_df)
     = Ok (None, None, [])).
Proof.
  intros H. apply strip_blank in H.
  split; [| split; [| split; [| split]]].
  - intros flood_df st. unfold App.on_find_button. rewrite H. simpl. auto.
  - intros lib g. unfold Tload.main. rewrite H. simpl. auto.
  - intros flood_df. apply App_calc_calls.
  - intros lib g. apply Tload_find_calls.
  - intros flood_df Hne Hlow.
    destruct (@extractOne_some scorer (PyStr.lower user_region)
                (Py.unique (map App.Areas flood_df))) as (best & score & Hb).
    + apply unique_nonempty. destruct flood_df; [contradiction | discriminate].
    + intros c. apply Hlow.
    + apply (@App_calc_rejects _ _ _ _ _ Hb).
      destruct (extractOne_run scorer (PyStr.lower user_region)
                  (Py.unique (map App.Areas flood_df))) as (r & Hr & Hs).
      rewrite Hb in Hr. injection Hr as <-.
      destruct (Hs _ _ eq_refl) as [_ ->]. apply Hlow.
Qed.

Lemma C8_blank_query_stops_in_caller_witness :
  blank "   " = true /\
  (calls Fixture.exact_scorer
     (App.on_find_button "   " Fixture.app_catalog App.initial_state) = [] /\
   run Fixture.exact_scorer
     (App.on_find_button "   " Fixture.app_catalog App.initial_state)
   = Ok ({| App.routes_computed := false;
            App.best_match := App.best_match App.initial_state;
            App.match_score := App.match_score App.initial_state;
            App.routes := App.routes App.initial_state;
            App.user_region_input := App.user_region_input App.initial_state |},
         true)) /\
  (calls Fixture.exact_scorer
     (Tload.main Fixture.no_paths Expected.tload_globals "   ") = [] /\
   run Fixture.exact_scorer
     (Tload.main Fixture.no_paths Expected.tload_globals "   ") = Err SystemExit).
Proof.
  assert (Hb : blank "   " = true) by reflexivity.
  destruct (C8_blank_query_stops_in_caller Fixture.exact_scorer "   " Hb)
    as (Happ & Htload & _ & _ & _).
  split; [exact Hb |].
  split; [exact (Happ Fixture.app_catalog App.initial_state) |].
  exact (Htload Fixture.no_paths Expected.tload_globals).
Defined.

(** C8, as the claim has it, fails on the route functions.  Called with
    the empty query or with three spaces, calculate_evacuation_routes
    asks the metric about every catalog name; with a metric that scores
    the empty query 100 it returns "colaba" as the matched start; and
    find_two_safest_routes_for_user strips three spaces to the empty
    query and compares it with every region. *)
Lemma C8_resolver_compares_blank_query :
  calls Fixture.exact_scorer
    (App.calculate_evacuation_routes "" Fixture.app_catalog)
  = [(""%string, "colaba"%string); (""%string, "churchgate"%string)] /\
  calls Fixture.exact_scorer
    (App.calculate_evacuation_routes "   " Fixture.app_catalog)
  = [("   "%string, "colaba"%string); ("   "%string, "churchgate"%string)] /\
  run (Fixture.const_scorer 100)
    (App.calculate_evacuation_routes "" Fixture.app_catalog)
  = Ok (Some "colaba"%string, Some 100%Z, [Expected.app_churchgate]) /\
  calls Fixture.exact_scorer
    (Tload.find_two_safest_routes_for_user Fixture.no_paths Expected.tload_globals "   ")
  = [(""%string, "churchgate"%string); (""%string, "colaba"%string)].
Proof.
  split; [eval_py; reflexivity |].
  split; [eval_py; reflexivity |].
  split; [eval_py; reflexivity |].
  eval_py; reflexivity.
Qed.

(** ** tload.py: nodes, regions and edges *)

Lemma arctan2_pos y x : (0 < y)%R -> (0 <= x)%R -> (0 < Tload.arctan2 y x)%R.
Proof.
  intros Hy Hx. unfold Tload.arctan2.
  destruct (Rlt_dec 0 x) as [Hpos | Hnpos].
  - rewrite <- atan_0. apply atan_increasing.
    unfold Rdiv. apply Rmult_lt_0_compat; [exact Hy | now apply Rinv_0_lt_compat].
  - destruct (Rlt_dec x 0) as [Hneg | _]; [lra |].
    destruct (Rlt_dec 0 y) as [_ | Hny]; [| lra].
    assert (HPI := PI_RGT_0). lra.
Qed.

Lemma sq_pos_of_neq x : x <> 0%R -> (0 < x ^ 2)%R.
Proof.
  intros H. assert (H2 := pow2_ge_0 x).
  destruct (Req_dec (x ^ 2) 0) as [E | E]; [| lra].
  exfalso. apply H. replace (x ^ 2)%R with (x * x)%R in E by ring.
  apply Rmult_integral in E. tauto.
Qed.

(* two points of different latitude, both between the poles, are apart *)
Lemma Tload_haversine_pos lon1 lat1 lon2 lat2 :
  (-90 < lat1 < 90)%R -> (-90 < lat2 < 90)%R -> lat1 <> lat2 ->
  (0 < Tload.haversine_m lon1 lat1 lon2 lat2)%R.
Proof.
  intros H1 H2 Hne. unfold Tload.haversine_m. cbv zeta.
  assert (HPI := PI_RGT_0).
  assert (Hr1 : (- (PI / 2) < Py.radians lat1 < PI / 2)%R).
  { unfold Py.radians. split; nra. }
  assert (Hr2 : (- (PI / 2) < Py.radians lat2 < PI / 2)%R).
  { unfold Py.radians. split; nra. }
  assert (Hd : (Py.radians lat2 - Py.radians lat1 <> 0)%R).
  { unfold Py.radians. intros E. apply Hne. nra. }
  set (h := ((Py.radians lat2 - Py.radians lat1) / 2.0)%R).
  assert (Hh : (- (PI / 2) < h < PI / 2)%R) by (unfold h; lra).
  assert (Hh0 : h <> 0%R) by (unfold h; lra).
  assert (Hs : sin h <> 0%R).
  { destruct (Rlt_dec 0 h) as [Hp | Hn].
    - assert (0 < sin h)%R by (apply sin_gt_0; lra). lra.
    - assert (sin h < 0)%R by (apply sin_lt_0_var; lra). lra. }
  assert (Hc1 : (0 < cos (Py.radians lat1))%R) by (apply cos_gt_0; lra).
  assert (Hc2 : (0 < cos (Py.radians lat2))%R) by (apply cos_gt_0; lra).
  set (k := (sin ((Py.radians lon2 - Py.radians lon1) / 2.0) ^ 2)%R).
  assert (Hk : (0 <= k)%R) by (unfold k; apply pow2_ge_0).
  assert (Ha : (0 < sin h ^ 2
                    + cos (Py.radians lat1) * cos (Py.radians lat2) * k)%R).
  { assert (0 < sin h ^ 2)%R by now apply sq_pos_of_neq.
    assert (0 <= cos (Py.radians lat1) * cos (Py.radians lat2) * k)%R.
    { apply Rmult_le_pos; [| exact Hk]. apply Rmult_le_pos; lra. }
    lra. }
  assert (Hat : (0 < Tload.arctan2
                       (sqrt (sin h ^ 2
                              + cos (Py.radians lat1) * cos (Py.radians lat2) * k))
                       (sqrt (1 - (sin h ^ 2
                                   + cos (Py.radians lat1)
                                     * cos (Py.radians lat2) * k))))%R).
  { apply arctan2_pos; [now apply sqrt_lt_R0 | apply sqrt_pos]. }
  lra.
Qed.

Lemma argmin_first d1 d2 : ~ (d2 < d1)%R -> Tload.argmin [d1; d2] = Ret 0%nat.
Proof.
  intros H. simpl. now destruct (Rlt_dec d2 d1).
Qed.

Lemma argmin_second d1 d2 : (d2 < d1)%R -> Tload.argmin [d1; d2] = Ret 1%nat.
Proof.
  intros H. simpl. now destruct (Rlt_dec d2 d1).
Qed.

(* tload.py gives an edge the region of its first endpoint, whatever the
   region of the second *)
Lemma Tload_tag_edge_source scorer regions region_risks idx u v key data i name risk :
  Dict.get Z.eqb idx u = Some i ->
  nth_error regions i = Some name ->
  nth_error region_risks i = Some risk ->
  run scorer (Tload.tag_edge regions region_risks idx (u, v, key, data))
  = Ok {| Tload._u := u; Tload._v := v; Tload.region_idx := Some i;
          Tload.region_name := name; Tload.risk_level := risk |}.
Proof.
  intros Hi Hn Hr. unfold Tload.tag_edge, Tload.item.
  rewrite Hi, Hn, Hr. reflexivity.
Qed.

Lemma Tload_load_two_nodes scorer :
  run scorer (Tload.load Fixture.two_node_graph Fixture.tload_catalog)
  = Ok Expected.tload_globals.
Proof.
  assert (Hlat : (18.9346 <> 18.9151)%R) by lra.
  assert (Hlat' : (18.9151 <> 18.9346)%R) by lra.
  assert (Hr1 : (-90 < 18.9346 < 90)%R) by lra.
  assert (Hr2 : (-90 < 18.9151 < 90)%R) by lra.
  unfold Tload.load, Fixture.two_node_graph, Fixture.tload_catalog.
  cbn [Road.nodes Road.edges mapM map fst snd Road.x Road.y
       Tload.longitude Tload.latitude Tload.areas Tload.flood_risk_level].
  rewrite argmin_first, argmin_second.
  - reflexivity.
  - rewrite Tload_haversine_same. now apply Tload_haversine_pos.
  - rewrite Tload_haversine_same.
    assert (H := Tload_haversine_pos 72.8141 72.8284 Hr2 Hr1 Hlat'). lra.
Qed.

(** ** warp.py: edges and regions *)

Section DictFacts.
Variables (K V : Type) (eqb : K -> K -> bool).
Hypothesis eqb_spec : forall a b, eqb a b = true <-> a = b.

Lemma Dict_get_set_same (d : Dict.t K V) k v :
  Dict.get eqb (Dict.set eqb d k v) k = Some v.
Proof.
  unfold Dict.get. induction d as [| [k' v'] rest IH]; simpl.
  - now rewrite (proj2 (eqb_spec k k) eq_refl).
  - destruct (eqb k' k) eqn:E; simpl; rewrite E; auto.
Qed.

Lemma Dict_get_set_other (d : Dict.t K V) k v k' :
  k <> k' -> Dict.get eqb (Dict.set eqb d k v) k' = Dict.get eqb d k'.
Proof.
  intros Hne. unfold Dict.get. induction d as [| [k0 v0] rest IH]; simpl.
  - destruct (eqb k k') eqn:E; auto. apply eqb_spec in E. contradiction.
  - destruct (eqb k0 k) eqn:E; simpl.
    + apply eqb_spec in E. subst k0.
      destruct (eqb k k') eqn:E'; auto. apply eqb_spec in E'. contradiction.
    + destruct (eqb k0 k'); auto.
Qed.
End DictFacts.

Lemma edge_key_eqb_spec a b : Warp.edge_key_eqb a b = true <-> a = b.
Proof.
  destruct a as [[u v] k], b as [[u' v'] k']. unfold Warp.edge_key_eqb.
  rewrite !andb_true_iff, !Z.eqb_eq. split.
  - intros [[-> ->] ->]. reflexivity.
  - intros [= -> -> ->]. auto.
Qed.

Lemma has_key_cons key e rest :
  has_key key (e :: rest) = Warp.edge_key_eqb (fst e) key || has_key key rest.
Proof. reflexivity. Qed.

Lemma Warp_assign_edges_get node_to_region edges d0 u v k :
  Dict.get Warp.edge_key_eqb (Warp.assign_edges node_to_region edges d0) (u, v, k)
  = if has_key (u, v, k) edges then
      match Warp.edge_region node_to_region u v with
      | Some region => Some region
      | None => Dict.get Warp.edge_key_eqb d0 (u, v, k)
      end
    else Dict.get Warp.edge_key_eqb d0 (u, v, k).
Proof.
  revert d0. induction edges as [| [[[u' v'] k'] data] rest IH]; intros d0;
    [reflexivity |].
  cbn [Warp.assign_edges]. rewrite IH, has_key_cons. clear IH. cbn [fst].
  destruct (Warp.edge_key_eqb (u', v', k') (u, v, k)) eqn:E; cbn [orb].
  - apply edge_key_eqb_spec in E. injection E as -> -> ->.
    destruct (Warp.edge_region node_to_region u v) as [region |] eqn:Er.
    + rewrite (@Dict_get_set_same _ _ _ edge_key_eqb_spec).
      now destruct (has_key _ rest).
    + now destruct (has_key _ rest).
  - assert (Hne : (u', v', k') <> (u, v, k)).
    { intros Heq. apply edge_key_eqb_spec in Heq. congruence. }
    destruct (Warp.edge_region node_to_region u' v') as [region' |]; auto.
    now rewrite (@Dict_get_set_other _ _ _ edge_key_eqb_spec _ _ _ _ Hne).
Qed.

Lemma has_key_In u v k data edges :
  In (u, v, k, data) edges -> has_key (u, v, k) edges = true.
Proof.
  intros H. unfold has_key. apply existsb_exists.
  exists (u, v, k, data). split; auto. now apply edge_key_eqb_spec.
Qed.

(* the severity order of warp.py *)
Lemma Warp_risk_priority_order :
  (Py.get Warp.risk_priority "low" 1 < Py.get Warp.risk_priority "moderate" 1)%Z /\
  (Py.get Warp.risk_priority "moderate" 1 < Py.get Warp.risk_priority "high" 1)%Z /\
  (Py.get Warp.risk_priority "high" 1 < Py.get Warp.risk_priority "severe" 1)%Z /\
  (Py.get Warp.risk_priority "severe" 1 < Py.get Warp.risk_priority "extreme" 1)%Z.
Proof. repeat split. Qed.

(* in warp.py an edge with both endpoints assigned takes the region of
   higher priority, the first endpoint's on a tie; an edge with one
   endpoint assigned takes that endpoint's region *)
Lemma Warp_edges_take_higher_risk scorer tree_query G flood_df radius
    node_to_region edge_to_region region_networks :
  run scorer (Warp.map_regions_to_road_network tree_query G flood_df radius)
  = Ok (node_to_region, edge_to_region, region_networks) ->
  forall u v k data,
    In (u, v, k, data) (Road.edges G) ->
    match Dict.get Z.eqb node_to_region u, Dict.get Z.eqb node_to_region v with
    | Some u_region, Some v_region =>
        let pu := Py.get Warp.risk_priority (Warp.flood_risk_level u_region) 1%Z in
        let pv := Py.get Warp.risk_priority (Warp.flood_risk_level v_region) 1%Z in
        ((pv < pu)%Z ->
         Dict.get Warp.edge_key_eqb edge_to_region (u, v, k) = Some u_region) /\
        ((pu < pv)%Z ->
         Dict.get Warp.edge_key_eqb edge_to_region (u, v, k) = Some v_region) /\
        (pu = pv ->
         Dict.get Warp.edge_key_eqb edge_to_region (u, v, k) = Some u_region)
    | Some u_region, None =>
        Dict.get Warp.edge_key_eqb edge_to_region (u, v, k) = Some u_region
    | None, Some v_region =>
        Dict.get Warp.edge_key_eqb edge_to_region (u, v, k) = Some v_region
    | None, None =>
        Dict.get Warp.edge_key_eqb edge_to_region (u, v, k) = None
    end.
Proof.
  unfold Warp.map_regions_to_road_network. rewrite run_bind.
  destruct (run scorer (Warp.assign_nodes _ _ _ _ _ _ _)) as [[n2r nets] | e];
    [| discriminate].
  cbn [run]. intros [= <- <- <-] u v k data Hin.
  rewrite Warp_assign_edges_get, (has_key_In _ _ _ _ _ Hin).
  unfold Warp.edge_region.
  destruct (Dict.get Z.eqb n2r u) as [ur |], (Dict.get Z.eqb n2r v) as [vr |];
    try reflexivity.
  cbv zeta.
  destruct (Py.get Warp.risk_priority (Warp.flood_risk_level vr) 1
            <=? Py.get Warp.risk_priority (Warp.flood_risk_level ur) 1)%Z eqn:E.
  - apply Z.leb_le in E. repeat split; auto. intros; lia.
  - apply Z.leb_gt in E. repeat split; auto; intros; lia.
Qed.

(** C9.  tload.py tags an edge with the region of its first endpoint
    only.  For the road from a node at churchgate (low risk) to a node
    at colaba (high risk), the nodes are assigned to churchgate and to
    colaba, "high" is above "low" in the severity order, and the edge is
    tagged churchgate, "low".  warp.py tags such an edge with the region
    of higher risk ([Warp_edges_take_higher_risk]). *)
Theorem C9_tload_edge_takes_source_region :
  run Fixture.exact_scorer (Tload.load Fixture.two_node_graph Fixture.tload_catalog)
  = Ok Expected.tload_globals /\
  Road.edges Fixture.two_node_graph
  = [(1%Z, 2%Z, 0%Z, {| Road.length_attr := Some 2500%R; Road.risk_attr := None;
                        Road.name_attr := None |})] /\
  Dict.get Z.eqb (Tload.nodeid_to_region_idx Expected.tload_globals) 1%Z = Some 0%nat /\
  Dict.get Z.eqb (Tload.nodeid_to_region_idx Expected.tload_globals) 2%Z = Some 1%nat /\
  nth_error (Tload.region_risks Expected.tload_globals) 0 = Some "low"%string /\
  nth_error (Tload.region_risks Expected.tload_globals) 1 = Some "high"%string /\
  (Py.get Warp.risk_priority "low" 1 < Py.get Warp.risk_priority "high" 1)%Z /\
  Tload.edges_gdf Expected.tload_globals
  = [ {| Tload._u := 1%Z; Tload._v := 2%Z; Tload.region_idx := Some 0%nat;
         Tload.region_name := "churchgate"%string;
         Tload.risk_level := "low"%string |} ].
Proof.
  split; [apply Tload_load_two_nodes |].
  repeat split.
Qed.

(** ** evacuation_app.py *)

Lemma EvacApp_routes_to_In lib G orig dests r :
  In r (EvacApp.routes_to lib G orig dests) ->
  exists dest, In dest dests /\ EvacApp.try_route lib G orig dest = Some r.
Proof.
  induction dests as [| d rest IH]; simpl; [intros [] |].
  destruct (EvacApp.try_route lib G orig d) as [r' |] eqn:E.
  - intros [<- | H]; [eauto |]. destruct (IH H) as (dest & Hd & Ht). eauto.
  - intros H. destruct (IH H) as (dest & Hd & Ht). eauto.
Qed.

Lemma EvacApp_calc_inv scorer lib user_area G flood_df m s routes :
  run scorer (EvacApp.get_two_safest_routes lib user_area G flood_df)
  = Ok (m, s, Some routes) ->
  exists best score start,
    m = Some best /\ s = Some score /\ (60 <= score)%Z /\
    In start flood_df /\ EvacApp.Areas start = best /\
    routes =
      firstn 2
        (Py.sorted EvacApp.key_lt
           (fun x => (EvacApp.risk x, EvacApp.distance_km x))
           (EvacApp.routes_to lib G (EvacApp_node lib G start)
              (firstn 5 (map (EvacApp_node lib G) (EvacApp_safe flood_df))))).
Proof.
  unfold EvacApp.get_two_safest_routes. rewrite run_bind.
  destruct (extractOne_run scorer (PyStr.lower user_area)
              (Py.unique (map EvacApp.Areas flood_df))) as (res & Hres & _).
  rewrite Hres, run_bind.
  destruct res as [[best score] |]; cbn [Py.unpack2 run bind]; [| discriminate].
  intros H. exists best, score.
  destruct (score <? 60)%Z eqn:E; [discriminate |].
  apply Z.ltb_ge in E. rewrite run_bind in H.
  destruct (start_row_exists EvacApp.Areas _ _ _ Hres)
    as (start & rest & Ef & Hs1 & Hs2).
  rewrite Ef in H. cbn [Py.iloc0 run] in H.
  fold (EvacApp_safe flood_df) in H.
  exists start.
  destruct (EvacApp_safe flood_df) as [| a0 safe] eqn:Esafe;
    cbn [map Py.empty run] in H; injection H as <- <- <-;
    repeat (split; [first [reflexivity | assumption] |]); reflexivity.
Qed.

(** C10.  Only a catalog-order prefix of the safe destinations is
    considered.  Every route that calculate_simple_routes returns was
    made from one of the first 3 safe areas of the catalog, and every
    route that get_two_safest_routes returns is the shortest path to one
    of the first 5 safe nodes; a safe destination beyond the prefix is
    the source of no returned route, whatever its distance. *)
Theorem C10_prefix_of_safe_candidates scorer user_area :
  (forall flood_df m s routes r,
     run scorer (Simple.calculate_simple_routes user_area flood_df)
     = Ok (m, s, routes) ->
     In r routes ->
     exists start safe_area,
       In start flood_df /\
       In safe_area (firstn 3 (Simple_safe flood_df)) /\
       r = Simple.route_to (Simple.Latitude start) (Simple.Longitude start) safe_area)
  /\
  (forall lib G flood_df m s routes r,
     run scorer (EvacApp.get_two_safest_routes lib user_area G flood_df)
     = Ok (m, s, Some routes) ->
     In r routes ->
     exists start dest_node,
       In start flood_df /\
       In dest_node (firstn 5 (map (EvacApp_node lib G) (EvacApp_safe flood_df))) /\
       EvacApp.try_route lib G (EvacApp_node lib G start) dest_node = Some r).
Proof.
  split.
  - intros flood_df m s routes r H Hr. apply Simple_calc_inv in H.
    destruct H as (best & score & _ & [(_ & _ & _ & ->) | (_ & _ & _ & H)]);
      [destruct Hr |].
    destruct H as (start & Hs & _ & ->).
    apply firstn_subset, sorted_In, in_map_iff in Hr.
    destruct Hr as (a & <- & Ha). exists start, a. auto.
  - intros lib G flood_df m s routes r H Hr. apply EvacApp_calc_inv in H.
    destruct H as (best & score & start & _ & _ & _ & Hs & _ & ->).
    apply firstn_subset, sorted_In, EvacApp_routes_to_In in Hr.
    destruct Hr as (dest & Hd & Ht). exists start, dest. auto.
Qed.

Lemma euclid_km_north lat lon lat' :
  (lat <= lat')%R -> Simple.euclid_km lat lon lat' lon = ((lat' - lat) * 111)%R.
Proof.
  intros H. unfold Simple.euclid_km. cbv zeta.
  replace ((lat' - lat) ^ 2 + (lon - lon) ^ 2)%R with ((lat' - lat) ^ 2)%R by ring.
  rewrite sqrt_pow2; [reflexivity | lra].
Qed.

Lemma Simple_catalog_run :
  run Fixture.exact_scorer
    (Simple.calculate_simple_routes "dharavi" Fixture.simple_catalog)
  = Ok (Some "dharavi"%string, Some 100%Z,
        [Expected.simple_route "mulund" 19.17; Expected.simple_route "borivali" 19.23]).
Proof.
  assert (H1 : Simple.distance_km (Expected.simple_route "mulund" 19.17)
               = ((19.17 - 19.04) * 111)%R) by (apply euclid_km_north; lra).
  assert (H2 : Simple.distance_km (Expected.simple_route "borivali" 19.23)
               = ((19.23 - 19.04) * 111)%R) by (apply euclid_km_north; lra).
  assert (H3 : Simple.distance_km (Expected.simple_route "dahisar" 19.25)
               = ((19.25 - 19.04) * 111)%R) by (apply euclid_km_north; lra).
  assert (Hsort :
            Py.sorted Py.Rltb Simple.distance_km
              [Expected.simple_route "mulund" 19.17;
               Expected.simple_route "borivali" 19.23;
               Expected.simple_route "dahisar" 19.25]
            = [Expected.simple_route "mulund" 19.17;
               Expected.simple_route "borivali" 19.23;
               Expected.simple_route "dahisar" 19.25]).
  { cbn [Py.sorted Py.insert]. unfold Py.Rltb. rewrite H2, H3.
    destruct (Rlt_dec _ _) as [Hc | _]; [exfalso; lra |].
    cbn [Py.insert]. rewrite H1, H2.
    destruct (Rlt_dec _ _) as [Hc | _]; [exfalso; lra |].
    reflexivity. }
  transitivity
    (Ok (Some "dharavi"%string, Some 100%Z,
         firstn 2
           (Py.sorted Py.Rltb Simple.distance_km
              [Expected.simple_route "mulund" 19.17;
               Expected.simple_route "borivali" 19.23;
               Expected.simple_route "dahisar" 19.25]))).
  - reflexivity.
  - rewrite Hsort. reflexivity.
Qed.

Lemma EvacApp_catalog_run :
  run Fixture.exact_scorer
    (EvacApp.get_two_safest_routes Fixture.one_node_lib "dharavi"
       Fixture.one_node_graph Fixture.evac_catalog)
  = Ok (Some "dharavi"%string, Some 100%Z, Some [Expected.evac_route]).
Proof. reflexivity. Qed.

Lemma C10_prefix_of_safe_candidates_witness :
  (run Fixture.exact_scorer
     (Simple.calculate_simple_routes "dharavi" Fixture.simple_catalog)
   = Ok (Some "dharavi"%string, Some 100%Z,
         [Expected.simple_route "mulund" 19.17;
          Expected.simple_route "borivali" 19.23]) /\
   In (Expected.simple_route "mulund" 19.17)
      [Expected.simple_route "mulund" 19.17; Expected.simple_route "borivali" 19.23] /\
   (exists start safe_area,
      In start Fixture.simple_catalog /\
      In safe_area (firstn 3 (Simple_safe Fixture.simple_catalog)) /\
      Expected.simple_route "mulund" 19.17
      = Simple.route_to (Simple.Latitude start) (Simple.Longitude start) safe_area) /\
   In (Fixture.simple_row "mahim" 19.05 "Low") (Simple_safe Fixture.simple_catalog) /\
   (Simple.distance_km (Expected.simple_route "mahim" 19.05)
    < Simple.distance_km (Expected.simple_route "mulund" 19.17))%R /\
   (Simple.distance_km (Expected.simple_route "mahim" 19.05)
    < Simple.distance_km (Expected.simple_route "borivali" 19.23))%R) /\
  (run Fixture.exact_scorer
     (EvacApp.get_two_safest_routes Fixture.one_node_lib "dharavi"
        Fixture.one_node_graph Fixture.evac_catalog)
   = Ok (Some "dharavi"%string, Some 100%Z, Some [Expected.evac_route]) /\
   In Expected.evac_route [Expected.evac_route] /\
   exists start dest_node,
     In start Fixture.evac_catalog /\
     In dest_node
        (firstn 5 (map (EvacApp_node Fixture.one_node_lib Fixture.one_node_graph)
                       (EvacApp_safe Fixture.evac_catalog))) /\
     EvacApp.try_route Fixture.one_node_lib Fixture.one_node_graph
       (EvacApp_node Fixture.one_node_lib Fixture.one_node_graph start) dest_node
     = Some Expected.evac_route).
Proof.
  destruct (C10_prefix_of_safe_candidates Fixture.exact_scorer "dharavi")
    as [Hsimple Hevac].
  split.
  - split; [exact Simple_catalog_run |].
    split; [now left |].
    split; [exact (Hsimple _ _ _ _ _ Simple_catalog_run (or_introl eq_refl)) |].
    split; [unfold Simple_safe, Fixture.simple_catalog; simpl; tauto |].
    assert (H1 : Simple.distance_km (Expected.simple_route "mulund" 19.17)
                 = ((19.17 - 19.04) * 111)%R) by (apply euclid_km_north; lra).
    assert (H2 : Simple.distance_km (Expected.simple_route "borivali" 19.23)
                 = ((19.23 - 19.04) * 111)%R) by (apply euclid_km_north; lra).
    assert (H4 : Simple.distance_km (Expected.simple_route "mahim" 19.05)
                 = ((19.05 - 19.04) * 111)%R) by (apply euclid_km_north; lra).
    rewrite H1, H2, H4. split; lra.
  - split; [exact EvacApp_catalog_run |].
    split; [now left |].
    exact (Hevac _ _ _ _ _ _ _ EvacApp_catalog_run (or_introl eq_refl)).
Defined.

(** * Further properties of the code *)

(** ** The Haversine distance stays in range *)

Lemma sin_half_sq x : (sin (x / 2) ^ 2 = (1 - cos x) / 2)%R.
Proof.
  replace (cos x) with (cos (2 * (x / 2))) by (f_equal; field).
  rewrite cos_2a_sin. field.
Qed.

Lemma sin_cos_sq x : (sin x ^ 2 + cos x ^ 2 = 1)%R.
Proof.
  assert (H := sin2_cos2 x). unfold Rsqr in H. lra.
Qed.

Lemma App_haversine_a_range lat1 lon1 lat2 lon2 :
  (0 <= App_haversine_a lat1 lon1 lat2 lon2 <= 1)%R.
Proof.
  unfold App_haversine_a.
  set (x := Py.radians lat1). set (y := Py.radians lat2).
  rewrite (sin_half_sq (y - x)), cos_minus.
  set (k := (sin ((Py.radians lon2 - Py.radians lon1) / 2) ^ 2)%R).
  assert (Hk : (0 <= k <= 1)%R).
  { unfold k. split; [apply pow2_ge_0 |].
    assert (H := sin_cos_sq ((Py.radians lon2 - Py.radians lon1) / 2)).
    assert (H' := pow2_ge_0 (cos ((Py.radians lon2 - Py.radians lon1) / 2))). lra. }
  assert (Hx := sin_cos_sq x). assert (Hy := sin_cos_sq y).
  generalize dependent (sin x). generalize dependent (cos x).
  generalize dependent (sin y). generalize dependent (cos y).
  intros cy sy Hy cx sx Hx.
  assert (H1 : (0 <= (sx - sy) ^ 2)%R) by apply pow2_ge_0.
  assert (H2 : (0 <= (sx + sy) ^ 2)%R) by apply pow2_ge_0.
  assert (H3 : (0 <= (cx - cy) ^ 2)%R) by apply pow2_ge_0.
  assert (H4 : (0 <= (cx + cy) ^ 2)%R) by apply pow2_ge_0.
  destruct (Rle_dec 0 (cx * cy)) as [Hp | Hn]; split; nra.
Qed.

Lemma asin_nonneg x : (0 <= x <= 1)%R -> (0 <= asin x)%R.
Proof.
  intros H. destruct (Rle_dec 0 (asin x)) as [Hp | Hn]; [exact Hp |].
  exfalso. assert (Hb := asin_bound x). assert (HPI := PI_RGT_0).
  assert (Hs : (sin (asin x) < 0)%R) by (apply sin_lt_0_var; lra).
  rewrite sin_asin in Hs; lra.
Qed.

(** X1.  The Haversine distance of the route functions is never
    negative, and app.py, mumbai_evacuation_real.py, streamlit_app.py and
    mumbai_evacuation_complete.py compute the same distance. *)
Theorem X1_haversine_nonneg lat1 lon1 lat2 lon2 :
  (0 <= App.haversine_km lat1 lon1 lat2 lon2)%R /\
  Real.haversine_km lat1 lon1 lat2 lon2 = App.haversine_km lat1 lon1 lat2 lon2 /\
  Streamlit.haversine_km lat1 lon1 lat2 lon2 = App.haversine_km lat1 lon1 lat2 lon2 /\
  Complete.haversine_km lat1 lon1 lat2 lon2 = App.haversine_km lat1 lon1 lat2 lon2.
Proof.
  assert (Ha := App_haversine_a_range lat1 lon1 lat2 lon2).
  assert (Hs : (0 <= sqrt (App_haversine_a lat1 lon1 lat2 lon2) <= 1)%R).
  { split; [apply sqrt_pos |]. rewrite <- sqrt_1. apply sqrt_le_1; lra. }
  split; [| repeat split].
  change (App.haversine_km lat1 lon1 lat2 lon2)
    with (6371 * (2 * asin (sqrt (App_haversine_a lat1 lon1 lat2 lon2))))%R.
  assert (H0 := asin_nonneg Hs). nra.
Qed.

(** ** Travel time *)

Lemma Streamlit_eta_tiers d :
  (d < 3 /\ Streamlit.total_eta_of d = d * 10
   \/ 3 <= d < 8 /\ Streamlit.total_eta_of d = d * (20 / 3)
   \/ 8 <= d < 15 /\ Streamlit.total_eta_of d = d * (24 / 5)
   \/ 15 <= d /\ Streamlit.total_eta_of d = d * (24 / 7))%R.
Proof.
  unfold Streamlit.total_eta_of. cbv zeta.
  destruct (Rlt_dec d 3); [left; split; [lra | lra] |].
  destruct (Rlt_dec d 8); [right; left; split; [lra | lra] |].
  destruct (Rlt_dec d 15); [right; right; left; split; [lra | lra] |].
  right; right; right; split; [lra | lra].
Qed.

(** ** Destinations of streamlit_app.py and mumbai_evacuation_complete.py *)

Lemma Complete_safe_spec best flood_df a :
  In a (Complete_safe best flood_df) <->
  In a flood_df /\ Complete.Area_Name a <> best /\
  (Complete.Flood_Risk a = "Low" \/ Complete.Flood_Risk a = "Medium")%string /\
  (Complete.Evacuation_Priority a = "Safe"
   \/ Complete.Evacuation_Priority a = "Standard")%string.
Proof.
  unfold Complete_safe.
  rewrite filter_In, !andb_true_iff, negb_true_iff, !isin_In. simpl.
  rewrite String.eqb_neq. intuition auto.
Qed.

Lemma Complete_route_to_inv scorer slat slon risk priority a r :
  run scorer (Complete.route_to slat slon risk priority a) = Ok r ->
  Complete.destination r = PyStr.title (Complete.Area_Name a) /\
  Complete.risk_level r = Complete.Flood_Risk a /\
  Complete.evacuation_priority r = Complete.Evacuation_Priority a /\
  Complete.population_density r = Complete.Population_Density a /\
  Complete.capacity_score r
  = Py.round (Rmin 100 (Rmax 10 (100 - IZR (Complete.Population_Density a) / 1000))) 1.
Proof.
  unfold Complete.route_to. rewrite run_bind.
  destruct (run scorer (Py.getitem Complete.urgency_multipliers priority))
    as [u | e]; [| discriminate].
  cbn [run]. intros [= <-]. cbn. auto.
Qed.

Lemma Complete_calc_inv scorer user_area flood_df m s routes :
  run scorer (Complete.calculate_advanced_evacuation_routes user_area flood_df)
  = Ok (m, s, routes) ->
  exists best score,
    run scorer (Fuzzy.extractOne (PyStr.lower user_area)
                  (Py.unique (map Complete.Area_Name flood_df)))
    = Ok (Some (best, score)) /\
    ((score < 40)%Z /\ m = None /\ s = None /\ routes = []
     \/
     (40 <= score)%Z /\ m = Some best /\ s = Some score /\
     exists start all_routes,
       In start flood_df /\ Complete.Area_Name start = best /\
       Forall2 (fun a r =>
                  run scorer (Complete.route_to (Complete.Latitude start)
                                (Complete.Longitude start) (Complete.Flood_Risk start)
                                (Complete.Evacuation_Priority start) a) = Ok r)
               (Complete_safe best flood_df) all_routes /\
       routes = firstn 5 (Py.sorted Py.Rltb Complete.route_score all_routes)).
Proof.
  unfold Complete.calculate_advanced_evacuation_routes. rewrite run_bind.
  destruct (extractOne_run scorer (PyStr.lower user_area)
              (Py.unique (map Complete.Area_Name flood_df))) as (res & Hres & _).
  rewrite Hres, run_bind.
  destruct res as [[best score] |]; cbn [Py.unpack2 run bind]; [| discriminate].
  intros H. exists best, score. split; auto.
  destruct (score <? 40)%Z eqn:E.
  - left. cbn [run] in H. injection H as <- <- <-. apply Z.ltb_lt in E. auto.
  - right. apply Z.ltb_ge in E. rewrite run_bind in H.
    destruct (start_row_exists Complete.Area_Name _ _ _ Hres)
      as (start & rest & Ef & Hs1 & Hs2).
    rewrite Ef in H. cbn [Py.iloc0 run] in H.
    fold (Complete_safe best flood_df) in H.
    split; [exact E |].
    destruct (Complete_safe best flood_df) as [| a0 safe] eqn:Esafe.
    + cbn [Py.empty run] in H. injection H as <- <- <-.
      split; [reflexivity |]. split; [reflexivity |].
      exists start, []. split; [exact Hs1 |]. split; [exact Hs2 |].
      split; [constructor | reflexivity].
    + cbn [Py.empty] in H. rewrite run_bind in H.
      destruct (run scorer (mapM _ (a0 :: safe))) as [all_routes | e] eqn:Em;
        [| discriminate].
      cbn [run] in H. injection H as <- <- <-.
      split; [reflexivity |]. split; [reflexivity |].
      exists start, all_routes. split; [exact Hs1 |]. split; [exact Hs2 |].
      split; [now apply run_mapM_inv | reflexivity].
Qed.

Lemma floor_of_int n : Py.floor (IZR n) = n.
Proof.
  unfold Py.floor.
  assert (H : (n + 1)%Z = up (IZR n)).
  { apply up_tech; [lra | rewrite plus_IZR; lra]. }
  rewrite <- H. lia.
Qed.

Lemma round_half_even_of_int n : Py.round_half_even (IZR n) = n.
Proof.
  unfold Py.round_half_even. cbv zeta. rewrite floor_of_int.
  destruct (Rlt_dec (IZR n - IZR n) (1 / 2)) as [_ | H]; [reflexivity | lra].
Qed.

(* round(n, 1) of a whole number is the number *)
Lemma round_1_of_int n : Py.round (IZR n) 1 = IZR n.
Proof.
  unfold Py.round.
  replace (IZR n * 10 ^ 1)%R with (IZR (n * 10)) by (rewrite mult_IZR; simpl; ring).
  rewrite round_half_even_of_int, mult_IZR. simpl. field.
Qed.

Lemma capacity_in_range density :
  (10 <= Py.round (Rmin 100 (Rmax 10 (100 - IZR density / 1000))) 1 <= 100)%R.
Proof.
  assert (H : (10 <= Rmin 100 (Rmax 10 (100 - IZR density / 1000)) <= 100)%R).
  { split.
    - apply Rmin_glb; [lra | apply Rmax_l].
    - apply Rmin_l. }
  split.
  - apply Rle_trans with (Py.round 10 1);
      [rewrite (round_1_of_int 10); lra | apply round_monotone, H].
  - apply Rle_trans with (Py.round 100 1);
      [apply round_monotone, H | rewrite (round_1_of_int 100); lra].
Qed.

(** X2.  The travel time streamlit_app.py and
    mumbai_evacuation_complete.py show is not monotone in the distance:
    the speed tier changes at 3 km, so a trip of 2.2 km up to 3 km is
    shown with 22 minutes or more, and a longer trip of 3 km up to
    3.15 km with 21 minutes or less.  The time shown is the estimate
    rounded to one decimal. *)
Theorem X2_eta_not_monotone d d' :
  (2.2 <= d < 3)%R -> (3 <= d' <= 3.15)%R ->
  (Py.round (Streamlit.total_eta_of d') 1 <= 21)%R /\
  (22 <= Py.round (Streamlit.total_eta_of d) 1)%R /\
  (Py.round (Complete.total_eta_of d') 1 <= 21)%R /\
  (22 <= Py.round (Complete.total_eta_of d) 1)%R.
Proof.
  intros Hd Hd'.
  assert (Hsame : forall x, Complete.total_eta_of x = Streamlit.total_eta_of x).
  { intros x. unfold Complete.total_eta_of, Streamlit.total_eta_of. cbv zeta.
    destruct (Rlt_dec x 3); [lra |].
    destruct (Rlt_dec x 8); [lra |].
    destruct (Rlt_dec x 15); lra. }
  assert (Hnear : (22 <= Streamlit.total_eta_of d)%R).
  { destruct (Streamlit_eta_tiers d) as [[_ ->] | [[H _] | [[H _] | [H _]]]]; lra. }
  assert (Hfar : (Streamlit.total_eta_of d' <= 21)%R).
  { destruct (Streamlit_eta_tiers d') as [[H _] | [[_ ->] | [[H _] | [H _]]]]; lra. }
  assert (H21 : (Py.round (Streamlit.total_eta_of d') 1 <= 21)%R).
  { apply Rle_trans with (Py.round 21 1);
      [now apply round_monotone | rewrite (round_1_of_int 21); lra]. }
  assert (H22 : (22 <= Py.round (Streamlit.total_eta_of d) 1)%R).
  { apply Rle_trans with (Py.round 22 1);
      [rewrite (round_1_of_int 22); lra | now apply round_monotone]. }
  rewrite !Hsame. auto.
Qed.

Lemma X2_eta_not_monotone_witness :
  (Py.round (Streamlit.total_eta_of 3) 1 <= 21)%R /\
  (22 <= Py.round (Streamlit.total_eta_of 2.5) 1)%R /\
  (Py.round (Complete.total_eta_of 3) 1 <= 21)%R /\
  (22 <= Py.round (Complete.total_eta_of 2.5) 1)%R.
Proof.
  apply (@X2_eta_not_monotone 2.5%R 3%R); lra.
Defined.

(** X3.  The capacity score of every route that streamlit_app.py or
    mumbai_evacuation_complete.py returns lies between 10 and 100,
    whatever the population density of the destination (also a negative
    or a huge one): min(100, max(10, ..)) clamps it and the rounding to
    one decimal keeps the bounds. *)
Theorem X3_capacity_score_bounds scorer user_area :
  (forall flood_df m s routes r,
     run scorer (Streamlit.calculate_evacuation_routes user_area flood_df)
     = Ok (m, s, routes) ->
     In r routes ->
     (10 <= Streamlit.capacity_score r <= 100)%R)
  /\
  (forall flood_df m s routes r,
     run scorer (Complete.calculate_advanced_evacuation_routes user_area flood_df)
     = Ok (m, s, routes) ->
     In r routes ->
     (10 <= Complete.capacity_score r <= 100)%R).
Proof.
  split.
  - intros flood_df m s routes r H Hr. apply Streamlit_calc_inv in H.
    destruct H as (best & score & _ & [(_ & _ & _ & ->) | (_ & _ & _ & H)]);
      [destruct Hr |].
    destruct H as (start & _ & _ & ->).
    apply firstn_subset, sorted_In, in_map_iff in Hr.
    destruct Hr as (a & <- & _).
    cbn [Streamlit.route_to Streamlit.capacity_score]. apply capacity_in_range.
  - intros flood_df m s routes r H Hr. apply Complete_calc_inv in H.
    destruct H as (best & score & _ & [(_ & _ & _ & ->) | (_ & _ & _ & H)]);
      [destruct Hr |].
    destruct H as (start & all_routes & _ & _ & Hall & ->).
    apply firstn_subset, sorted_In in Hr.
    destruct (@Forall2_pick_r _ _ _ _ _ _ Hall Hr) as (a & _ & Hrun).
    apply Complete_route_to_inv in Hrun. destruct Hrun as (_ & _ & _ & _ & ->).
    apply capacity_in_range.
Qed.

Lemma Streamlit_fixture_run :
  run Fixture.exact_scorer
    (Streamlit.calculate_evacuation_routes "Colaba" Fixture.streamlit_catalog)
  = Ok (Some "colaba"%string, Some 100%Z, [Expected.streamlit_churchgate]).
Proof. eval_py. reflexivity. Qed.

Lemma Complete_fixture_run :
  run Fixture.exact_scorer
    (Complete.calculate_advanced_evacuation_routes "Colaba" Fixture.complete_catalog)
  = Ok (Some "colaba"%string, Some 100%Z, [Expected.complete_churchgate]).
Proof.
  cbv - [Complete.haversine_km Py.round Py.Rltb Py.sorted
         Complete.route_score_of Complete.total_eta_of
         Complete.get_transport_recommendation Complete.density_factor_of
         Complete.safety_improvement_of
         Rplus Rmult Rminus Rdiv Ropp Rinv Q2R IZR Rlt_dec Rle_dec Rmin Rmax].
  reflexivity.
Qed.

Lemma X3_capacity_score_bounds_witness :
  (run Fixture.exact_scorer
     (Streamlit.calculate_evacuation_routes "Colaba" Fixture.streamlit_catalog)
   = Ok (Some "colaba"%string, Some 100%Z, [Expected.streamlit_churchgate]) /\
   In Expected.streamlit_churchgate [Expected.streamlit_churchgate] /\
   (10 <= Streamlit.capacity_score Expected.streamlit_churchgate <= 100)%R) /\
  (run Fixture.exact_scorer
     (Complete.calculate_advanced_evacuation_routes "Colaba" Fixture.complete_catalog)
   = Ok (Some "colaba"%string, Some 100%Z, [Expected.complete_churchgate]) /\
   In Expected.complete_churchgate [Expected.complete_churchgate] /\
   (10 <= Complete.capacity_score Expected.complete_churchgate <= 100)%R).
Proof.
  destruct (X3_capacity_score_bounds Fixture.exact_scorer "Colaba") as [Hs Hc].
  split.
  - split; [exact Streamlit_fixture_run |]. split; [now left |].
    exact (Hs _ _ _ _ _ Streamlit_fixture_run (or_introl eq_refl)).
  - split; [exact Complete_fixture_run |]. split; [now left |].
    exact (Hc _ _ _ _ _ Complete_fixture_run (or_introl eq_refl)).
Defined.

(** X4.  streamlit_app.py and mumbai_evacuation_complete.py send nobody
    to an area that itself has to evacuate, nor to the start: every
    returned route was made from a catalog row whose Evacuation_Priority
    is "Safe" or "Standard" and whose name differs from the matched
    start, and the route carries that row's priority. *)
Theorem X4_priority_filter_and_self_exclusion scorer user_area :
  (forall flood_df best s routes r,
     run scorer (Streamlit.calculate_evacuation_routes user_area flood_df)
     = Ok (Some best, s, routes) ->
     In r routes ->
     exists a,
       In a flood_df /\ Streamlit.Area_Name a <> best /\
       (Streamlit.Evacuation_Priority a = "Safe"
        \/ Streamlit.Evacuation_Priority a = "Standard")%string /\
       Streamlit.evacuation_priority r = Streamlit.Evacuation_Priority a /\
       Streamlit.destination r = PyStr.title (Streamlit.Area_Name a))
  /\
  (forall flood_df best s routes r,
     run scorer (Complete.calculate_advanced_evacuation_routes user_area flood_df)
     = Ok (Some best, s, routes) ->
     In r routes ->
     exists a,
       In a flood_df /\ Complete.Area_Name a <> best /\
       (Complete.Evacuation_Priority a = "Safe"
        \/ Complete.Evacuation_Priority a = "Standard")%string /\
       Complete.evacuation_priority r = Complete.Evacuation_Priority a /\
       Complete.destination r = PyStr.title (Complete.Area_Name a)).
Proof.
  split.
  - intros flood_df best s routes r H Hr. apply Streamlit_calc_inv in H.
    destruct H as (best' & score & _ & [(_ & [=] & _) | (_ & [= <-] & _ & H)]).
    destruct H as (start & _ & _ & ->).
    apply firstn_subset, sorted_In, in_map_iff in Hr.
    destruct Hr as (a & <- & Ha).
    apply Streamlit_safe_spec in Ha. destruct Ha as (Ha & Hne & _ & Hp).
    exists a. cbn [Streamlit.route_to Streamlit.evacuation_priority
                   Streamlit.destination]. auto.
  - intros flood_df best s routes r H Hr. apply Complete_calc_inv in H.
    destruct H as (best' & score & _ & [(_ & [=] & _) | (_ & [= <-] & _ & H)]).
    destruct H as (start & all_routes & _ & _ & Hall & ->).
    apply firstn_subset, sorted_In in Hr.
    destruct (@Forall2_pick_r _ _ _ _ _ _ Hall Hr) as (a & Ha & Hrun).
    apply Complete_safe_spec in Ha. destruct Ha as (Ha & Hne & _ & Hp).
    apply Complete_route_to_inv in Hrun. destruct Hrun as (Hd & _ & He & _).
    exists a. auto.
Qed.

Lemma X4_priority_filter_and_self_exclusion_witness :
  (run Fixture.exact_scorer
     (Streamlit.calculate_evacuation_routes "Colaba" Fixture.streamlit_catalog)
   = Ok (Some "colaba"%string, Some 100%Z, [Expected.streamlit_churchgate]) /\
   In Expected.streamlit_churchgate [Expected.streamlit_churchgate] /\
   exists a,
     In a Fixture.streamlit_catalog /\ Streamlit.Area_Name a <> "colaba"%string /\
     (Streamlit.Evacuation_Priority a = "Safe"
      \/ Streamlit.Evacuation_Priority a = "Standard")%string /\
     Streamlit.evacuation_priority Expected.streamlit_churchgate
     = Streamlit.Evacuation_Priority a /\
     Streamlit.destination Expected.streamlit_churchgate
     = PyStr.title (Streamlit.Area_Name a)) /\
  (run Fixture.exact_scorer
     (Complete.calculate_advanced_evacuation_routes "Colaba" Fixture.complete_catalog)
   = Ok (Some "colaba"%string, Some 100%Z, [Expected.complete_churchgate]) /\
   In Expected.complete_churchgate [Expected.complete_churchgate] /\
   exists a,
     In a Fixture.complete_catalog /\ Complete.Area_Name a <> "colaba"%string /\
     (Complete.Evacuation_Priority a = "Safe"
      \/ Complete.Evacuation_Priority a = "Standard")%string /\
     Complete.evacuation_priority Expected.complete_churchgate
     = Complete.Evacuation_Priority a /\
     Complete.destination Expected.complete_churchgate
     = PyStr.title (Complete.Area_Name a)).
Proof.
  destruct (X4_priority_filter_and_self_exclusion Fixture.exact_scorer "Colaba")
    as [Hs Hc].
  split.
  - split; [exact Streamlit_fixture_run |]. split; [now left |].
    exact (Hs _ _ _ _ _ Streamlit_fixture_run (or_introl eq_refl)).
  - split; [exact Complete_fixture_run |]. split; [now left |].
    exact (Hc _ _ _ _ _ Complete_fixture_run (or_introl eq_refl)).
Defined.

Lemma extractOne_outcome scorer query choices :
  (exists best score,
     run scorer (Fuzzy.extractOne query choices) = Ok (Some (best, score)))
  \/ run scorer (Fuzzy.extractOne query choices) = Ok None.
Proof.
  destruct (extractOne_run scorer query choices) as ([[best score] |] & H & _); eauto.
Qed.

Lemma App_calc_outcome scorer user_area flood_df :
  (exists res, run scorer (App.calculate_evacuation_routes user_area flood_df) = Ok res)
  \/ run scorer (App.calculate_evacuation_routes user_area flood_df) = Err TypeError.
Proof.
  destruct (extractOne_outcome scorer (PyStr.lower user_area)
              (Py.unique (map App.Areas flood_df))) as [(best & score & H) | H].
  - left. destruct (Z.lt_ge_cases score 50) as [Hlt | Hge].
    + rewrite (@App_calc_rejects _ _ _ _ _ H Hlt). eauto.
    + destruct (@App_calc_accepts _ _ _ _ _ H Hge) as (routes & -> & _). eauto.
  - right. unfold App.calculate_evacuation_routes.
    now rewrite run_bind, H, run_bind.
Qed.

Lemma Real_calc_outcome scorer user_area flood_df :
  (exists res, run scorer (Real.calculate_evacuation_routes user_area flood_df) = Ok res)
  \/ run scorer (Real.calculate_evacuation_routes user_area flood_df) = Err TypeError.
Proof.
  destruct (extractOne_outcome scorer (PyStr.lower user_area)
              (Py.unique (map Real.Areas flood_df))) as [(best & score & H) | H].
  - left. destruct (Z.lt_ge_cases score 50) as [Hlt | Hge].
    + rewrite (@Real_calc_rejects _ _ _ _ _ H Hlt). eauto.
    + destruct (@Real_calc_accepts _ _ _ _ _ H Hge) as (routes & -> & _). eauto.
  - right. unfold Real.calculate_evacuation_routes.
    now rewrite run_bind, H, run_bind.
Qed.

Lemma Streamlit_calc_outcome scorer user_area flood_df :
  (exists res,
     run scorer (Streamlit.calculate_evacuation_routes user_area flood_df) = Ok res)
  \/ run scorer (Streamlit.calculate_evacuation_routes user_area flood_df)
     = Err TypeError.
Proof.
  destruct (extractOne_outcome scorer (PyStr.lower user_area)
              (Py.unique (map Streamlit.Area_Name flood_df)))
    as [(best & score & H) | H];
    unfold Streamlit.calculate_evacuation_routes; rewrite run_bind, H, run_bind.
  - left. cbn [Py.unpack2 run].
    destruct (score <? 40)%Z; [cbn [run]; eauto |].
    destruct (start_row_exists Streamlit.Area_Name _ _ _ H) as (start & rest & -> & _).
    rewrite run_bind. cbn [Py.iloc0 run].
    destruct (Py.empty _); cbn [run]; eauto.
  - now right.
Qed.

Lemma Simple_calc_outcome scorer user_area flood_df :
  (exists res, run scorer (Simple.calculate_simple_routes user_area flood_df) = Ok res)
  \/ run scorer (Simple.calculate_simple_routes user_area flood_df) = Err TypeError.
Proof.
  destruct (extractOne_outcome scorer (PyStr.lower user_area)
              (Py.unique (map Simple.Areas flood_df)))
    as [(best & score & H) | H];
    unfold Simple.calculate_simple_routes; rewrite run_bind, H, run_bind.
  - left. cbn [Py.unpack2 run].
    destruct (score <? 60)%Z; [cbn [run]; eauto |].
    destruct (start_row_exists Simple.Areas _ _ _ H) as (start & rest & -> & _).
    rewrite run_bind. cbn [Py.iloc0 run].
    destruct (Py.empty _); cbn [run]; eauto.
  - now right.
Qed.

(** X5.  The route functions of app.py, mumbai_evacuation_real.py,
    streamlit_app.py and evacuation_app_simple.py have one way to fail:
    the unpacking of the matcher's result.  On every catalogue and for
    every metric they return a triple or raise TypeError; the row lookup
    [.iloc[0]] and the lookup in the risk table never raise, because the
    matched name comes from the catalogue and the risk levels were
    filtered before.  On the empty catalogue the matcher returns None and
    all four raise TypeError. *)
Theorem X5_only_the_unpacking_fails scorer user_area :
  (forall flood_df,
     (exists res,
        run scorer (App.calculate_evacuation_routes user_area flood_df) = Ok res)
     \/ run scorer (App.calculate_evacuation_routes user_area flood_df)
        = Err TypeError)
  /\
  (forall flood_df,
     (exists res,
        run scorer (Real.calculate_evacuation_routes user_area flood_df) = Ok res)
     \/ run scorer (Real.calculate_evacuation_routes user_area flood_df)
        = Err TypeError)
  /\
  (forall flood_df,
     (exists res,
        run scorer (Streamlit.calculate_evacuation_routes user_area flood_df) = Ok res)
     \/ run scorer (Streamlit.calculate_evacuation_routes user_area flood_df)
        = Err TypeError)
  /\
  (forall flood_df,
     (exists res,
        run scorer (Simple.calculate_simple_routes user_area flood_df) = Ok res)
     \/ run scorer (Simple.calculate_simple_routes user_area flood_df)
        = Err TypeError)
  /\
  run scorer (App.calculate_evacuation_routes user_area []) = Err TypeError /\
  run scorer (Real.calculate_evacuation_routes user_area []) = Err TypeError /\
  run scorer (Streamlit.calculate_evacuation_routes user_area []) = Err TypeError /\
  run scorer (Simple.calculate_simple_routes user_area []) = Err TypeError.
Proof.
  split; [| split; [| split; [| split]]].
  - intros flood_df. apply App_calc_outcome.
  - intros flood_df. apply Real_calc_outcome.
  - intros flood_df. apply Streamlit_calc_outcome.
  - intros flood_df. apply Simple_calc_outcome.
  - repeat split; reflexivity.
Qed.

(** X6.  mumbai_evacuation_complete.py looks the start's Evacuation_Priority
    up in the urgency table inside the loop over the destinations.  When
    the matched start row has a priority that is none of Immediate,
    Urgent, Standard, Safe, the function raises KeyError as soon as there
    is one eligible destination, and returns the empty route list when
    there is none. *)
Theorem X6_unknown_priority_raises_key_error
    scorer user_area flood_df best score start rest :
  run scorer (Fuzzy.extractOne (PyStr.lower user_area)
                (Py.unique (map Complete.Area_Name flood_df)))
  = Ok (Some (best, score)) ->
  (40 <= score)%Z ->
  filter (fun r => Complete.Area_Name r =? best)%string flood_df = start :: rest ->
  PyStr.isin (Complete.Evacuation_Priority start)
    ["Immediate"; "Urgent"; "Standard"; "Safe"]%string = false ->
  (Complete_safe best flood_df <> [] ->
   run scorer (Complete.calculate_advanced_evacuation_routes user_area flood_df)
   = Err KeyError)
  /\
  (Complete_safe best flood_df = [] ->
   run scorer (Complete.calculate_advanced_evacuation_routes user_area flood_df)
   = Ok (Some best, Some score, [])).
Proof.
  intros H Hge Hstart Hunknown.
  unfold Complete.calculate_advanced_evacuation_routes.
  rewrite run_bind, H, run_bind. cbn [Py.unpack2 run].
  apply Z.ltb_ge in Hge. rewrite Hge, Hstart, run_bind. cbn [Py.iloc0 run].
  fold (Complete_safe best flood_df).
  destruct (Complete_safe best flood_df) as [| a0 safe].
  - split; [intros Hne; now elim Hne | reflexivity].
  - split; [intros _ | discriminate].
    cbn [Py.empty mapM]. rewrite !run_bind.
    unfold Complete.route_to. rewrite run_bind.
    now rewrite (getitem_urgency_missing _ Hunknown).
Qed.

Lemma X6_unknown_priority_raises_key_error_witness :
  run Fixture.exact_scorer
    (Complete.calculate_advanced_evacuation_routes "Colaba"
       Fixture.complete_unknown_priority)
  = Err KeyError.
Proof.
  refine (proj1 (@X6_unknown_priority_raises_key_error Fixture.exact_scorer
                   "Colaba" Fixture.complete_unknown_priority "colaba" 100%Z
                   _ _ _ _ _ _) _).
  - reflexivity.
  - lia.
  - reflexivity.
  - reflexivity.
  - discriminate.
Defined.

Lemma filter_map_commute (A B : Type) (g : A -> B) (f : B -> bool) l :
  filter f (map g l) = map g (filter (fun x => f (g x)) l).
Proof.
  induction l as [| x t IH]; simpl; auto.
  destruct (f (g x)); simpl; now rewrite IH.
Qed.

Lemma insert_map_commute (A B K : Type) (lt : K -> K -> bool) (key : B -> K)
    (g : A -> B) x l :
  Py.insert lt key (g x) (map g l) = map g (Py.insert lt (fun a => key (g a)) x l).
Proof.
  induction l as [| y t IH]; simpl; auto.
  destruct (lt (key (g y)) (key (g x))); simpl; now rewrite ?IH.
Qed.

Lemma sorted_map_commute (A B K : Type) (lt : K -> K -> bool) (key : B -> K)
    (g : A -> B) l :
  Py.sorted lt key (map g l) = map g (Py.sorted lt (fun a => key (g a)) l).
Proof.
  induction l as [| x t IH]; simpl; auto.
  now rewrite IH, insert_map_commute.
Qed.

Lemma run_mapM_map (A A' B B' : Type) scorer (f : A -> prog B) (f' : A' -> prog B')
    (ga : A -> A') (gb : B -> B') l :
  (forall a, run scorer (f' (ga a)) = outcome_map gb (run scorer (f a))) ->
  run scorer (mapM f' (map ga l)) = outcome_map (map gb) (run scorer (mapM f l)).
Proof.
  intros H. induction l as [| x t IH]; simpl; auto.
  rewrite !run_bind, H. destruct (run scorer (f x)) as [y | e]; simpl; auto.
  rewrite !run_bind, IH. now destruct (run scorer (mapM f t)).
Qed.

Lemma Real_route_to_as_App scorer slat slon a :
  run scorer (App.route_to slat slon (Real_row_as_App a))
  = outcome_map Real_route_as_App (run scorer (Real.route_to slat slon a)).
Proof.
  unfold App.route_to, Real.route_to. rewrite !run_bind.
  change (App.Flood_Risk_Level (Real_row_as_App a)) with (Real.Flood_Risk_Level a).
  change App.risk_scores with Real.risk_scores.
  destruct (run scorer (Py.getitem Real.risk_scores (Real.Flood_Risk_Level a)))
    as [risk_score | e]; [| reflexivity].
  cbn [run outcome_map]. reflexivity.
Qed.

(** X7.  mumbai_evacuation_real.py's calculate_evacuation_routes is
    app.py's with one more field: on the same catalogue, query and
    metric both fail alike or return the same match, the same score and
    the same routes in the same order, the routes of
    mumbai_evacuation_real.py carrying a safety_score besides. *)
Theorem X7_real_agrees_with_app scorer user_area flood_df :
  run scorer (App.calculate_evacuation_routes user_area (map Real_row_as_App flood_df))
  = outcome_map Real_result_as_App
      (run scorer (Real.calculate_evacuation_routes user_area flood_df)).
Proof.
  unfold App.calculate_evacuation_routes, Real.calculate_evacuation_routes.
  rewrite !run_bind, map_map.
  change (fun x => App.Areas (Real_row_as_App x)) with Real.Areas.
  destruct (run scorer (Fuzzy.extractOne (PyStr.lower user_area)
                          (Py.unique (map Real.Areas flood_df))))
    as [[[best score] |] | e]; try reflexivity.
  rewrite !run_bind. cbn [Py.unpack2 run].
  destruct (score <? 50)%Z; [reflexivity |].
  rewrite !run_bind, !filter_map_commute.
  change (fun x => (App.Areas (Real_row_as_App x) =? best)%string)
    with (fun r => (Real.Areas r =? best)%string).
  destruct (filter (fun r => (Real.Areas r =? best)%string) flood_df)
    as [| start rest]; [reflexivity |].
  cbn [map Py.iloc0 run].
  change (fun x => PyStr.isin (App.Flood_Risk_Level (Real_row_as_App x))
                     ["Low"; "Medium"]%string)
    with (fun r => PyStr.isin (Real.Flood_Risk_Level r) ["Low"; "Medium"]%string).
  change (fun x => negb (App.Areas (Real_row_as_App x) =? best)%string)
    with (fun r => negb (Real.Areas r =? best)%string).
  fold (Real_safe best flood_df).
  destruct (Real_safe best flood_df) as [| a0 safe]; [reflexivity |].
  change (Py.empty (map Real_row_as_App (a0 :: safe))) with false.
  cbn [Py.empty]. rewrite !run_bind.
  rewrite (@run_mapM_map _ _ _ _ scorer
             (Real.route_to (Real.Latitude start) (Real.Longitude start))
             (App.route_to (App.Latitude (Real_row_as_App start))
                (App.Longitude (Real_row_as_App start)))
             Real_row_as_App Real_route_as_App (a0 :: safe)).
  - destruct (run scorer (mapM (Real.route_to (Real.Latitude start)
                                  (Real.Longitude start)) (a0 :: safe)))
      as [routes | e]; [| reflexivity].
    cbn [outcome_map run Real_result_as_App].
    now rewrite sorted_map_commute, firstn_map.
  - intros a. apply Real_route_to_as_App.
Qed.

Lemma Streamlit_risk_score_range s :
  (1 <= Py.get Streamlit.risk_scores s 2 <= 4)%Z /\
  (s <> "Low"%string -> (2 <= Py.get Streamlit.risk_scores s 2)%Z) /\
  (s = "High"%string \/ s = "Critical"%string ->
   (3 <= Py.get Streamlit.risk_scores s 2)%Z).
Proof.
  unfold Py.get, Streamlit.risk_scores. cbn [find fst snd].
  destruct (String.eqb_spec "Critical" s) as [<- | H1]; cbn [snd].
  { repeat split; try lia. }
  destruct (String.eqb_spec "High" s) as [<- | H2]; cbn [snd].
  { repeat split; try lia. }
  destruct (String.eqb_spec "Medium" s) as [<- | H3]; cbn [snd].
  { repeat split; try lia. intros [H | H]; discriminate. }
  destruct (String.eqb_spec "Low" s) as [<- | H4]; cbn [snd].
  { repeat split; try lia.
    - intros H; now elim H.
    - intros [H | H]; discriminate. }
  repeat split; try lia. intros [-> | ->]; [now elim H2 | now elim H1].
Qed.

Lemma Complete_route_to_improvement scorer slat slon risk priority a r :
  run scorer (Complete.route_to slat slon risk priority a) = Ok r ->
  Complete.safety_improvement r
  = (2 * (Py.get Complete.risk_scores risk 2
          - Py.get Complete.risk_scores (Complete.risk_level r) 2))%Z.
Proof.
  unfold Complete.route_to. rewrite run_bind.
  destruct (run scorer (Py.getitem Complete.urgency_multipliers priority))
    as [m | e]; [| discriminate].
  cbn [run]. intros [= <-].
  cbn [Complete.safety_improvement Complete.risk_level].
  unfold Complete.safety_improvement_of. lia.
Qed.

(** X8.  The safety improvement a route of streamlit_app.py and of
    mumbai_evacuation_complete.py reports is twice the difference of the
    risk score of the start (Critical 4, High 3, Medium 2, Low 1, any
    other level 2) and that of the destination, a Low or Medium area.
    It lies between -2 and 6, is negative only when the start itself is
    a Low area, and is at least 2 from a High or Critical start. *)
Theorem X8_safety_improvement_range scorer user_area :
  (forall flood_df best s routes r,
     run scorer (Streamlit.calculate_evacuation_routes user_area flood_df)
     = Ok (Some best, s, routes) ->
     In r routes ->
     exists start,
       In start flood_df /\ Streamlit.Area_Name start = best /\
       (Streamlit.risk_level r = "Low" \/ Streamlit.risk_level r = "Medium")%string /\
       Streamlit.safety_improvement r
       = (2 * (Py.get Streamlit.risk_scores (Streamlit.Flood_Risk start) 2
               - Py.get Streamlit.risk_scores (Streamlit.risk_level r) 2))%Z /\
       (-2 <= Streamlit.safety_improvement r <= 6)%Z /\
       (Streamlit.Flood_Risk start <> "Low"%string ->
        (0 <= Streamlit.safety_improvement r)%Z) /\
       (Streamlit.Flood_Risk start = "High"%string
        \/ Streamlit.Flood_Risk start = "Critical"%string ->
        (2 <= Streamlit.safety_improvement r)%Z))
  /\
  (forall flood_df best s routes r,
     run scorer (Complete.calculate_advanced_evacuation_routes user_area flood_df)
     = Ok (Some best, s, routes) ->
     In r routes ->
     exists start,
       In start flood_df /\ Complete.Area_Name start = best /\
       (Complete.risk_level r = "Low" \/ Complete.risk_level r = "Medium")%string /\
       Complete.safety_improvement r
       = (2 * (Py.get Complete.risk_scores (Complete.Flood_Risk start) 2
               - Py.get Complete.risk_scores (Complete.risk_level r) 2))%Z /\
       (-2 <= Complete.safety_improvement r <= 6)%Z /\
       (Complete.Flood_Risk start <> "Low"%string ->
        (0 <= Complete.safety_improvement r)%Z) /\
       (Complete.Flood_Risk start = "High"%string
        \/ Complete.Flood_Risk start = "Critical"%string ->
        (2 <= Complete.safety_improvement r)%Z)).
Proof.
  assert (Hdest : forall level,
             (level = "Low" \/ level = "Medium")%string ->
             (1 <= Py.get Streamlit.risk_scores level 2 <= 2)%Z).
  { intros level [-> | ->]; cbn; lia. }
  split.
  - intros flood_df best s routes r H Hr. apply Streamlit_calc_inv in H.
    destruct H as (best' & score & _ & [(_ & [=] & _) | (_ & [= <-] & _ & H)]).
    destruct H as (start & Hin & Hname & ->).
    apply firstn_subset, sorted_In, in_map_iff in Hr.
    destruct Hr as (a & <- & Ha).
    apply Streamlit_safe_spec in Ha. destruct Ha as (_ & _ & Hrisk & _).
    exists start. split; [exact Hin |]. split; [exact Hname |].
    cbn [Streamlit.route_to Streamlit.risk_level Streamlit.safety_improvement].
    split; [exact Hrisk |].
    unfold Streamlit.safety_improvement_of.
    pose proof (Hdest _ Hrisk) as Hd.
    destruct (Streamlit_risk_score_range (Streamlit.Flood_Risk start))
      as (Hs & Hs2 & Hs3).
    split; [lia |]. split; [lia |].
    split; [intros Hne; specialize (Hs2 Hne); lia |].
    intros Hhigh; specialize (Hs3 Hhigh); lia.
  - intros flood_df best s routes r H Hr. apply Complete_calc_inv in H.
    destruct H as (best' & score & _ & [(_ & [=] & _) | (_ & [= <-] & _ & H)]).
    destruct H as (start & all_routes & Hin & Hname & Hall & ->).
    apply firstn_subset, sorted_In in Hr.
    destruct (@Forall2_pick_r _ _ _ _ _ _ Hall Hr) as (a & Ha & Hrun).
    apply Complete_safe_spec in Ha. destruct Ha as (_ & _ & Hrisk & _).
    pose proof (Complete_route_to_improvement _ _ _ _ _ _ Hrun) as Himp.
    apply Complete_route_to_inv in Hrun. destruct Hrun as (_ & Hlevel & _).
    rewrite <- Hlevel in Hrisk.
    exists start. split; [exact Hin |]. split; [exact Hname |].
    split; [exact Hrisk |]. split; [exact Himp |].
    pose proof (Hdest _ Hrisk) as Hd.
    destruct (Streamlit_risk_score_range (Complete.Flood_Risk start))
      as (Hs & Hs2 & Hs3).
    change Complete.risk_scores with Streamlit.risk_scores in Himp.
    rewrite Himp.
    split; [lia |].
    split; [intros Hne; specialize (Hs2 Hne); lia |].
    intros Hhigh; specialize (Hs3 Hhigh); lia.
Qed.

Lemma X8_safety_improvement_range_witness :
  (run Fixture.exact_scorer
     (Streamlit.calculate_evacuation_routes "Colaba" Fixture.streamlit_catalog)
   = Ok (Some "colaba"%string, Some 100%Z, [Expected.streamlit_churchgate]) /\
   In Expected.streamlit_churchgate [Expected.streamlit_churchgate] /\
   (-2 <= Streamlit.safety_improvement Expected.streamlit_churchgate <= 6)%Z) /\
  (run Fixture.exact_scorer
     (Complete.calculate_advanced_evacuation_routes "Colaba" Fixture.complete_catalog)
   = Ok (Some "colaba"%string, Some 100%Z, [Expected.complete_churchgate]) /\
   In Expected.complete_churchgate [Expected.complete_churchgate] /\
   (-2 <= Complete.safety_improvement Expected.complete_churchgate <= 6)%Z).
Proof.
  destruct (X8_safety_improvement_range Fixture.exact_scorer "Colaba") as [Hs Hc].
  split.
  - split; [exact Streamlit_fixture_run |]. split; [now left |].
    destruct (Hs _ _ _ _ _ Streamlit_fixture_run (or_introl eq_refl))
      as (start & _ & _ & _ & _ & H & _).
    exact H.
  - split; [exact Complete_fixture_run |]. split; [now left |].
    destruct (Hc _ _ _ _ _ Complete_fixture_run (or_introl eq_refl))
      as (start & _ & _ & _ & _ & H & _).
    exact H.
Defined.

(* the order of the keys (risk, distance_km) *)
Lemma key_lt_false_le a b :
  EvacApp.key_lt a b = false ->
  (fst b < fst a)%Z \/ (fst b = fst a /\ (snd b <= snd a)%R).
Proof.
  unfold EvacApp.key_lt.
  destruct (Z.eqb_spec (fst a) (fst b)) as [E | E].
  - intros H. right. split; [congruence | now apply Rltb_false_le].
  - intros H. apply Z.ltb_ge in H. left. lia.
Qed.

Lemma key_lt_true_le a b :
  EvacApp.key_lt a b = true ->
  (fst a < fst b)%Z \/ (fst a = fst b /\ (snd a <= snd b)%R).
Proof.
  unfold EvacApp.key_lt.
  destruct (Z.eqb_spec (fst a) (fst b)) as [E | E].
  - intros H. right. split; [exact E | now apply Rltb_true_le].
  - intros H. apply Z.ltb_lt in H. now left.
Qed.

Lemma key_le_chain (a b c : Z * R) :
  (fst a < fst b)%Z \/ (fst a = fst b /\ (snd a <= snd b)%R) ->
  (fst b < fst c)%Z \/ (fst b = fst c /\ (snd b <= snd c)%R) ->
  (fst a < fst c)%Z \/ (fst a = fst c /\ (snd a <= snd c)%R).
Proof.
  intros [H1 | [H1 H1']] [H2 | [H2 H2']]; try (left; lia).
  right. split; [lia | lra].
Qed.

Lemma edge0_assigned_risk G u v d :
  Road.edge0 (EvacApp.assign_risk_to_edges G) u v = Some d ->
  Road.risk_attr d = Some 0%Z.
Proof.
  unfold Road.edge0, EvacApp.assign_risk_to_edges. cbn [Road.edges].
  induction (Road.edges G) as [| [[[u' v'] k] data] rest IH]; cbn [map find].
  - discriminate.
  - destruct ((u' =? u)%Z && (v' =? v)%Z && (k =? 0)%Z); [| exact IH].
    now intros [= <-].
Qed.

Lemma sum_risks_assigned G pairs total :
  EvacApp.sum_risks (EvacApp.assign_risk_to_edges G) pairs = Some total ->
  total = 0%Z.
Proof.
  revert total. induction pairs as [| [u v] rest IH]; cbn [EvacApp.sum_risks].
  - now intros total [= <-].
  - intros total.
    destruct (Road.edge0 (EvacApp.assign_risk_to_edges G) u v) as [d |] eqn:E;
      [| discriminate].
    destruct (EvacApp.sum_risks (EvacApp.assign_risk_to_edges G) rest) as [t |];
      [| discriminate].
    rewrite (edge0_assigned_risk _ _ _ E), (IH t eq_refl). now intros [= <-].
Qed.

Lemma try_route_eta lib G orig dest r :
  EvacApp.try_route lib G orig dest = Some r ->
  EvacApp.eta_min r = (EvacApp.distance_km r / 30 * 60)%R.
Proof.
  unfold EvacApp.try_route.
  destruct (Road.shortest_path lib G orig dest) as [path |]; [| discriminate].
  destruct (EvacApp.sum_lengths G (Road.steps path)) as [len |]; [| discriminate].
  destruct (EvacApp.sum_risks G (Road.steps path)) as [risk |]; [| discriminate].
  intros [= <-]. reflexivity.
Qed.

(* the run of evacuation_app.py from dharavi on the three-node graph: the
   risks 5 and 2 of the edges are reset, and the route to mahim, found
   second, is listed first *)
Lemma EvacApp_three_node_run :
  run Fixture.exact_scorer
    (EvacApp.get_two_safest_routes Fixture.three_node_lib "dharavi"
       (EvacApp.assign_risk_to_edges Fixture.three_node_graph)
       Fixture.evac_catalog3)
  = Ok (Some "dharavi"%string, Some 100%Z,
        Some [Expected.evac_mahim; Expected.evac_mulund]).
Proof.
  cbv - [Rplus Rmult Rminus Rdiv Ropp Rinv IZR Rlt_dec Rle_dec].
  repeat match goal with
         | |- context [Rlt_dec ?a ?b] =>
             destruct (Rlt_dec a b) as [? | ?]; try (exfalso; lra)
         end.
  reflexivity.
Qed.

Lemma try_route_assigned_risk lib G orig dest r :
  EvacApp.try_route lib (EvacApp.assign_risk_to_edges G) orig dest = Some r ->
  EvacApp.risk r = 0%Z.
Proof.
  unfold EvacApp.try_route.
  destruct (Road.shortest_path lib _ orig dest) as [path |]; [| discriminate].
  destruct (EvacApp.sum_lengths _ (Road.steps path)) as [len |]; [| discriminate].
  destruct (EvacApp.sum_risks _ (Road.steps path)) as [risk |] eqn:E;
    [| discriminate].
  intros [= <-]. cbn [EvacApp.risk]. exact (sum_risks_assigned _ _ E).
Qed.

(** X9.  evacuation_app.py gives every edge the risk 0 before it routes
    (assign_risk_to_edges), so the order "risk first, then distance" of
    get_two_safest_routes is the order of the distances: on the graph the
    script prepares, at most two routes are returned, each of risk 0 and
    with the ETA of its distance at 30 km/h (distance_km / 30 * 60
    minutes), the nearer one first. *)
Theorem X9_evac_routes_by_distance scorer lib user_area G flood_df m s routes :
  run scorer
    (EvacApp.get_two_safest_routes lib user_area (EvacApp.assign_risk_to_edges G)
       flood_df)
  = Ok (m, s, Some routes) ->
  (length routes <= 2)%nat /\
  (forall r, In r routes ->
     EvacApp.risk r = 0%Z /\
     EvacApp.eta_min r = (EvacApp.distance_km r / 30 * 60)%R) /\
  (forall i a b,
     nth_error routes i = Some a -> nth_error routes (S i) = Some b ->
     (EvacApp.distance_km a <= EvacApp.distance_km b)%R).
Proof.
  intros H. apply EvacApp_calc_inv in H.
  destruct H as (best & score & start & _ & _ & _ & _ & _ & ->).
  assert (Hin : forall r,
             In r (firstn 2
                     (Py.sorted EvacApp.key_lt
                        (fun x => (EvacApp.risk x, EvacApp.distance_km x))
                        (EvacApp.routes_to lib (EvacApp.assign_risk_to_edges G)
                           (EvacApp_node lib (EvacApp.assign_risk_to_edges G) start)
                           (firstn 5
                              (map (EvacApp_node lib (EvacApp.assign_risk_to_edges G))
                                 (EvacApp_safe flood_df)))))) ->
             EvacApp.risk r = 0%Z /\
             EvacApp.eta_min r = (EvacApp.distance_km r / 30 * 60)%R).
  { intros r Hr. apply firstn_subset, sorted_In, EvacApp_routes_to_In in Hr.
    destruct Hr as (dest & _ & Ht).
    split; [exact (try_route_assigned_risk _ _ _ _ Ht)
           | exact (try_route_eta _ _ _ _ Ht)]. }
  split; [apply firstn_le_length |]. split; [exact Hin |].
  intros i a b Ha Hb.
  pose proof (proj1 (Hin a (nth_error_In _ _ Ha))) as Ra.
  pose proof (proj1 (Hin b (nth_error_In _ _ Hb))) as Rb.
  assert (Hle : (fst (EvacApp.risk a, EvacApp.distance_km a)
                 < fst (EvacApp.risk b, EvacApp.distance_km b))%Z
                \/ (fst (EvacApp.risk a, EvacApp.distance_km a)
                    = fst (EvacApp.risk b, EvacApp.distance_km b)
                    /\ (snd (EvacApp.risk a, EvacApp.distance_km a)
                        <= snd (EvacApp.risk b, EvacApp.distance_km b))%R)).
  { refine (@sorted_adjacent EvacApp.Route (Z * R)
             (fun x => (EvacApp.risk x, EvacApp.distance_km x))
             (fun k k' => (fst k < fst k')%Z
                          \/ (fst k = fst k' /\ (snd k <= snd k')%R))
             _ i a b _ Ha Hb).
    apply (@firstn_sorted EvacApp.Route (Z * R)
             (fun x => (EvacApp.risk x, EvacApp.distance_km x))
             (fun k k' => (fst k < fst k')%Z
                          \/ (fst k = fst k' /\ (snd k <= snd k')%R))).
    apply (@sorted_sorted EvacApp.Route (Z * R) EvacApp.key_lt
             (fun x => (EvacApp.risk x, EvacApp.distance_km x))
             (fun k k' => (fst k < fst k')%Z
                          \/ (fst k = fst k' /\ (snd k <= snd k')%R))
             key_lt_false_le key_lt_true_le key_le_chain). }
  cbn [fst snd] in Hle. destruct Hle as [Hlt | [_ Hd]]; [lia | exact Hd].
Qed.

Lemma X9_evac_routes_by_distance_witness :
  (length [Expected.evac_mahim; Expected.evac_mulund] <= 2)%nat /\
  (EvacApp.risk Expected.evac_mulund = 0%Z /\
   EvacApp.eta_min Expected.evac_mulund
   = (EvacApp.distance_km Expected.evac_mulund / 30 * 60)%R) /\
  (EvacApp.distance_km Expected.evac_mahim
   <= EvacApp.distance_km Expected.evac_mulund)%R.
Proof.
  destruct (@X9_evac_routes_by_distance Fixture.exact_scorer
              Fixture.three_node_lib "dharavi" Fixture.three_node_graph
              Fixture.evac_catalog3 (Some "dharavi"%string) (Some 100%Z)
              [Expected.evac_mahim; Expected.evac_mulund]
              EvacApp_three_node_run) as (Hlen & Hall & Hord).
  split; [exact Hlen |].
  split; [exact (Hall _ (or_intror (or_introl eq_refl))) |].
  exact (Hord 0%nat _ _ eq_refl eq_refl).
Defined.

Lemma Warp_map_inv scorer tree_query G flood_df radius
    node_to_region edge_to_region region_networks :
  run scorer (Warp.map_regions_to_road_network tree_query G flood_df radius)
  = Ok (node_to_region, edge_to_region, region_networks) ->
  run scorer
    (Warp.assign_nodes tree_query
       (map (fun row => (Warp.latitude row, Warp.longitude row)) flood_df)
       flood_df radius (Road.nodes G) [] [])
  = Ok (node_to_region, region_networks) /\
  edge_to_region = Warp.assign_edges node_to_region (Road.edges G) [].
Proof.
  unfold Warp.map_regions_to_road_network. rewrite run_bind.
  destruct (run scorer (Warp.assign_nodes _ _ _ _ _ _ _)) as [[n2r nets] | e];
    [| discriminate].
  cbn [run]. now intros [= <- <- <-].
Qed.

Lemma Warp_assign_nodes_in tree_query coords data radius node_id node_data rest
    n2r nets distance_deg region_idx region :
  tree_query coords (Road.y node_data, Road.x node_data) = (distance_deg, region_idx) ->
  (distance_deg * 111.0 <= radius)%R ->
  nth_error data region_idx = Some region ->
  Warp.assign_nodes tree_query coords data radius ((node_id, node_data) :: rest)
    n2r nets
  = Warp.assign_nodes tree_query coords data radius rest
      (Dict.set Z.eqb n2r node_id region)
      (Warp.append_to nets (Warp.areas region) node_id).
Proof.
  intros Hq Hle Hnth. cbn [Warp.assign_nodes]. rewrite Hq.
  destruct (Rle_dec _ _) as [_ | Hc]; [| contradiction].
  unfold Warp.item. now rewrite Hnth.
Qed.

Lemma Warp_assign_nodes_out tree_query coords data radius node_id node_data rest
    n2r nets distance_deg region_idx :
  tree_query coords (Road.y node_data, Road.x node_data) = (distance_deg, region_idx) ->
  ~ (distance_deg * 111.0 <= radius)%R ->
  Warp.assign_nodes tree_query coords data radius ((node_id, node_data) :: rest)
    n2r nets
  = Warp.assign_nodes tree_query coords data radius rest n2r nets.
Proof.
  intros Hq Hgt. cbn [Warp.assign_nodes]. rewrite Hq.
  destruct (Rle_dec _ _) as [Hc | _]; [contradiction | reflexivity].
Qed.

Lemma Warp_fixture_run scorer :
  run scorer
    (Warp.map_regions_to_road_network Fixture.warp_tree_query Fixture.two_node_graph
       Fixture.warp_catalog 2.0)
  = Ok (Expected.warp_node_to_region, Expected.warp_edge_to_region,
        Expected.warp_region_networks).
Proof.
  unfold Warp.map_regions_to_road_network, Fixture.two_node_graph.
  cbn [Road.nodes Road.edges].
  rewrite (@Warp_assign_nodes_in _ _ _ _ _ _ _ _ _ 0.01%R 0%nat
             Expected.warp_churchgate).
  - rewrite (@Warp_assign_nodes_in _ _ _ _ _ _ _ _ _ 0.01%R 1%nat
               Expected.warp_colaba).
    + reflexivity.
    + unfold Fixture.warp_tree_query. cbn [Road.x Road.y fst].
      destruct (Rlt_dec _ _) as [Hc | _]; [exfalso; lra | reflexivity].
    + lra.
    + reflexivity.
  - unfold Fixture.warp_tree_query. cbn [Road.x Road.y fst].
    destruct (Rlt_dec _ _) as [_ | Hc]; [reflexivity | exfalso; lra].
  - lra.
  - reflexivity.
Qed.

(** X10.  warp.py's map_regions_to_road_network gives an edge a region
    exactly when one of its endpoints has one (an edge between two nodes
    outside every region stays out of edge_to_region), and the region it
    gives is the region of an endpoint whose risk priority (low 0,
    moderate 1, high 2, severe 3, extreme 4, any other level 1) is not
    below that of the other endpoint's region. *)
Theorem X10_warp_edge_region scorer tree_query G flood_df radius
    node_to_region edge_to_region region_networks u v k data :
  run scorer (Warp.map_regions_to_road_network tree_query G flood_df radius)
  = Ok (node_to_region, edge_to_region, region_networks) ->
  In (u, v, k, data) (Road.edges G) ->
  (Dict.get Warp.edge_key_eqb edge_to_region (u, v, k) = None <->
   Dict.get Z.eqb node_to_region u = None /\ Dict.get Z.eqb node_to_region v = None)
  /\
  (forall region,
     Dict.get Warp.edge_key_eqb edge_to_region (u, v, k) = Some region ->
     (Dict.get Z.eqb node_to_region u = Some region
      \/ Dict.get Z.eqb node_to_region v = Some region) /\
     forall r',
       Dict.get Z.eqb node_to_region u = Some r'
       \/ Dict.get Z.eqb node_to_region v = Some r' ->
       (Py.get Warp.risk_priority (Warp.flood_risk_level r') 1
        <= Py.get Warp.risk_priority (Warp.flood_risk_level region) 1)%Z).
Proof.
  intros H Hin. apply Warp_map_inv in H. destruct H as [_ ->].
  rewrite Warp_assign_edges_get, (has_key_In _ _ _ _ _ Hin).
  unfold Warp.edge_region.
  destruct (Dict.get Z.eqb node_to_region u) as [ur |],
           (Dict.get Z.eqb node_to_region v) as [vr |]; cbv zeta.
  - destruct (Py.get Warp.risk_priority (Warp.flood_risk_level vr) 1
              <=? Py.get Warp.risk_priority (Warp.flood_risk_level ur) 1)%Z eqn:E.
    + apply Z.leb_le in E. split.
      * split; [discriminate | intros [? _]; discriminate].
      * intros region [= <-]. split; [now left |].
        intros r' [[= <-] | [= <-]]; lia.
    + apply Z.leb_gt in E. split.
      * split; [discriminate | intros [? _]; discriminate].
      * intros region [= <-]. split; [now right |].
        intros r' [[= <-] | [= <-]]; lia.
  - split.
    + split; [discriminate | intros [? _]; discriminate].
    + intros region [= <-]. split; [now left |].
      intros r' [[= <-] | ?]; [lia | discriminate].
  - split.
    + split; [discriminate | intros [_ ?]; discriminate].
    + intros region [= <-]. split; [now right |].
      intros r' [? | [= <-]]; [discriminate | lia].
  - split.
    + split; auto.
    + intros region. discriminate.
Qed.

Lemma X10_warp_edge_region_witness :
  Dict.get Warp.edge_key_eqb Expected.warp_edge_to_region (1%Z, 2%Z, 0%Z)
  = Some Expected.warp_colaba /\
  (Dict.get Z.eqb Expected.warp_node_to_region 1%Z = Some Expected.warp_colaba
   \/ Dict.get Z.eqb Expected.warp_node_to_region 2%Z = Some Expected.warp_colaba).
Proof.
  split; [reflexivity |].
  refine (proj1 (proj2 (@X10_warp_edge_region Fixture.exact_scorer
                          Fixture.warp_tree_query Fixture.two_node_graph
                          Fixture.warp_catalog 2.0%R
                          Expected.warp_node_to_region Expected.warp_edge_to_region
                          Expected.warp_region_networks 1%Z 2%Z 0%Z _
                          (Warp_fixture_run _) (or_introl eq_refl))
                   Expected.warp_colaba eq_refl)).
Defined.

Lemma append_to_same nets name id :
  exists members,
    Dict.get String.eqb (Warp.append_to nets name id) name = Some members /\
    In id members.
Proof.
  unfold Warp.append_to.
  destruct (Dict.get String.eqb nets name) as [l |];
    rewrite (@Dict_get_set_same _ _ _ String.eqb_eq); eexists; split; eauto.
  - apply in_or_app. right. now left.
  - now left.
Qed.

Lemma append_to_other nets name id name' :
  name <> name' ->
  Dict.get String.eqb (Warp.append_to nets name id) name'
  = Dict.get String.eqb nets name'.
Proof.
  intros Hne. unfold Warp.append_to.
  destruct (Dict.get String.eqb nets name) as [l |];
    now rewrite (@Dict_get_set_other _ _ _ String.eqb_eq).
Qed.

Lemma append_to_members nets name id name' members x :
  Dict.get String.eqb (Warp.append_to nets name id) name' = Some members ->
  In x members ->
  (name' = name /\ x = id)
  \/ exists l, Dict.get String.eqb nets name' = Some l /\ In x l.
Proof.
  destruct (string_dec name name') as [<- | Hne].
  - unfold Warp.append_to.
    destruct (Dict.get String.eqb nets name) as [l |] eqn:E;
      rewrite (@Dict_get_set_same _ _ _ String.eqb_eq); intros [= <-] Hx.
    + apply in_app_or in Hx. destruct Hx as [Hx | [<- | []]]; eauto.
    + destruct Hx as [<- | []]. auto.
  - rewrite (append_to_other _ _ Hne). eauto.
Qed.

Lemma append_to_grows nets name id name' l x :
  Dict.get String.eqb nets name' = Some l -> In x l ->
  exists l',
    Dict.get String.eqb (Warp.append_to nets name id) name' = Some l' /\ In x l'.
Proof.
  intros Hl Hx. destruct (string_dec name name') as [<- | Hne].
  - unfold Warp.append_to. rewrite Hl.
    rewrite (@Dict_get_set_same _ _ _ String.eqb_eq). eexists. split; eauto.
    apply in_or_app. now left.
  - rewrite (append_to_other _ _ Hne). eauto.
Qed.

(* one node of the loop of lines 111-127 *)
Lemma Warp_assign_nodes_step scorer tree_query coords data radius node_id node_data
    rest n2r0 nets0 n2r nets :
  run scorer
    (Warp.assign_nodes tree_query coords data radius ((node_id, node_data) :: rest)
       n2r0 nets0) = Ok (n2r, nets) ->
  let q := tree_query coords (Road.y node_data, Road.x node_data) in
  ((fst q * 111.0 <= radius)%R /\
   exists region,
     nth_error data (snd q) = Some region /\
     run scorer
       (Warp.assign_nodes tree_query coords data radius rest
          (Dict.set Z.eqb n2r0 node_id region)
          (Warp.append_to nets0 (Warp.areas region) node_id)) = Ok (n2r, nets))
  \/
  (~ (fst q * 111.0 <= radius)%R /\
   run scorer (Warp.assign_nodes tree_query coords data radius rest n2r0 nets0)
   = Ok (n2r, nets)).
Proof.
  cbn [Warp.assign_nodes].
  destruct (tree_query coords (Road.y node_data, Road.x node_data))
    as [distance_deg region_idx].
  cbn [fst snd]. destruct (Rle_dec _ _) as [Hle | Hgt]; [| now right].
  rewrite run_bind. unfold Warp.item.
  destruct (nth_error data region_idx) as [region |]; [| discriminate].
  cbn [run]. left. eauto.
Qed.

Lemma Warp_assign_nodes_frame scorer tree_query coords data radius nodes :
  forall n2r0 nets0 n2r nets,
    run scorer (Warp.assign_nodes tree_query coords data radius nodes n2r0 nets0)
    = Ok (n2r, nets) ->
    forall id, ~ In id (map fst nodes) ->
               Dict.get Z.eqb n2r id = Dict.get Z.eqb n2r0 id.
Proof.
  induction nodes as [| [node_id node_data] rest IH]; intros n2r0 nets0 n2r nets H.
  - cbn in H. now injection H as <- <-.
  - intros id Hid. cbn [map fst In] in Hid.
    apply Warp_assign_nodes_step in H.
    destruct H as [(_ & region & _ & H) | (_ & H)].
    + rewrite (IH _ _ _ _ H id) by tauto.
      apply (@Dict_get_set_other _ _ _ Z.eqb_eq). tauto.
    + apply (IH _ _ _ _ H id). tauto.
Qed.

Lemma Warp_assign_nodes_grows scorer tree_query coords data radius nodes :
  forall n2r0 nets0 n2r nets,
    run scorer (Warp.assign_nodes tree_query coords data radius nodes n2r0 nets0)
    = Ok (n2r, nets) ->
    forall name l x,
      Dict.get String.eqb nets0 name = Some l -> In x l ->
      exists l', Dict.get String.eqb nets name = Some l' /\ In x l'.
Proof.
  induction nodes as [| [node_id node_data] rest IH]; intros n2r0 nets0 n2r nets H.
  - cbn in H. injection H as <- <-. eauto.
  - intros name l x Hl Hx. apply Warp_assign_nodes_step in H.
    destruct H as [(_ & region & _ & H) | (_ & H)].
    + destruct (@append_to_grows nets0 (Warp.areas region) node_id _ _ _ Hl Hx)
        as (l' & Hl' & Hx').
      exact (IH _ _ _ _ H _ _ _ Hl' Hx').
    + exact (IH _ _ _ _ H _ _ _ Hl Hx).
Qed.

Lemma Warp_assign_nodes_spec scorer tree_query coords data radius nodes :
  forall n2r0 nets0 n2r nets,
    NoDup (map fst nodes) ->
    (forall id, In id (map fst nodes) -> Dict.get Z.eqb n2r0 id = None) ->
    (forall name members id,
       Dict.get String.eqb nets0 name = Some members -> In id members ->
       exists region,
         Dict.get Z.eqb n2r0 id = Some region /\ Warp.areas region = name) ->
    run scorer (Warp.assign_nodes tree_query coords data radius nodes n2r0 nets0)
    = Ok (n2r, nets) ->
    (forall id nd,
       In (id, nd) nodes ->
       let q := tree_query coords (Road.y nd, Road.x nd) in
       ((fst q * 111.0 <= radius)%R ->
        exists region,
          nth_error data (snd q) = Some region /\
          Dict.get Z.eqb n2r id = Some region /\
          exists members,
            Dict.get String.eqb nets (Warp.areas region) = Some members /\
            In id members) /\
       (~ (fst q * 111.0 <= radius)%R -> Dict.get Z.eqb n2r id = None)) /\
    (forall name members id,
       Dict.get String.eqb nets name = Some members -> In id members ->
       exists region,
         Dict.get Z.eqb n2r id = Some region /\ Warp.areas region = name).
Proof.
  induction nodes as [| [node_id node_data] rest IH];
    intros n2r0 nets0 n2r nets Hnodup Hfresh Hinv H.
  - cbn in H. injection H as <- <-. split; [intros id nd [] | exact Hinv].
  - cbn [map fst] in Hnodup. apply NoDup_cons_iff in Hnodup.
    destruct Hnodup as [Hnotin Hnodup].
    pose proof (@Warp_assign_nodes_step _ _ _ _ _ _ _ _ _ _ _ _ H) as Hstep.
    cbv zeta in Hstep.
    destruct Hstep as [(Hle & region & Hnth & Hrest) | (Hgt & Hrest)].
    + (* the node is given a region *)
      assert (Hfresh' : forall id, In id (map fst rest) ->
                Dict.get Z.eqb (Dict.set Z.eqb n2r0 node_id region) id = None).
      { intros id Hid.
        rewrite (@Dict_get_set_other _ _ _ Z.eqb_eq)
          by (intros ->; contradiction).
        apply Hfresh. now right. }
      assert (Hinv' : forall name members id,
                Dict.get String.eqb
                  (Warp.append_to nets0 (Warp.areas region) node_id) name
                = Some members ->
                In id members ->
                exists region',
                  Dict.get Z.eqb (Dict.set Z.eqb n2r0 node_id region) id
                  = Some region' /\ Warp.areas region' = name).
      { intros name members id Hm Hid.
        destruct (@append_to_members _ _ _ _ _ _ Hm Hid)
          as [[-> ->] | (l & Hl & Hx)].
        - exists region. split; [| reflexivity].
          apply (@Dict_get_set_same _ _ _ Z.eqb_eq).
        - destruct (Hinv _ _ _ Hl Hx) as (region' & Hg & Ha).
          exists region'. split; [| exact Ha].
          rewrite (@Dict_get_set_other _ _ _ Z.eqb_eq); [exact Hg |].
          intros <-. rewrite Hfresh in Hg by now left. discriminate. }
      destruct (IH _ _ _ _ Hnodup Hfresh' Hinv' Hrest) as [Hnodes Hnets].
      split; [| exact Hnets].
      intros id nd [[= <- <-] | Hin]; [| exact (Hnodes id nd Hin)].
      cbv zeta. split; [intros _ | intros Hc; contradiction].
      exists region. split; [exact Hnth |].
      split.
      * rewrite (@Warp_assign_nodes_frame _ _ _ _ _ _ _ _ _ _ Hrest node_id Hnotin).
        apply (@Dict_get_set_same _ _ _ Z.eqb_eq).
      * destruct (append_to_same nets0 (Warp.areas region) node_id)
          as (members & Hm & Hid).
        exact (@Warp_assign_nodes_grows _ _ _ _ _ _ _ _ _ _ Hrest _ _ _ Hm Hid).
    + (* the node is farther than the radius *)
      assert (Hfresh' : forall id, In id (map fst rest) ->
                Dict.get Z.eqb n2r0 id = None).
      { intros id Hid. apply Hfresh. now right. }
      destruct (IH _ _ _ _ Hnodup Hfresh' Hinv Hrest) as [Hnodes Hnets].
      split; [| exact Hnets].
      intros id nd [[= <- <-] | Hin]; [| exact (Hnodes id nd Hin)].
      cbv zeta. split; [intros Hc; contradiction | intros _].
      rewrite (@Warp_assign_nodes_frame _ _ _ _ _ _ _ _ _ _ Hrest node_id Hnotin).
      apply Hfresh. now left.
Qed.

(** X11.  warp.py's map_regions_to_road_network gives a node the region
    the nearest-neighbour query names when that region lies within
    region_radius_km (distance in degrees times 111), and no region
    otherwise; region_networks and node_to_region agree: the node is
    listed under its region's name, and every node listed under a name
    is mapped to a region of that name.  The node ids are the keys of
    the graph, so they are pairwise different. *)
Theorem X11_warp_nodes_within_radius scorer tree_query G flood_df radius
    node_to_region edge_to_region region_networks :
  NoDup (map fst (Road.nodes G)) ->
  run scorer (Warp.map_regions_to_road_network tree_query G flood_df radius)
  = Ok (node_to_region, edge_to_region, region_networks) ->
  (forall node_id node_data,
     In (node_id, node_data) (Road.nodes G) ->
     let q :=
       tree_query (map (fun row => (Warp.latitude row, Warp.longitude row)) flood_df)
         (Road.y node_data, Road.x node_data) in
     ((fst q * 111.0 <= radius)%R ->
      exists region,
        nth_error flood_df (snd q) = Some region /\
        Dict.get Z.eqb node_to_region node_id = Some region /\
        exists members,
          Dict.get String.eqb region_networks (Warp.areas region) = Some members /\
          In node_id members) /\
     (~ (fst q * 111.0 <= radius)%R ->
      Dict.get Z.eqb node_to_region node_id = None))
  /\
  (forall name members node_id,
     Dict.get String.eqb region_networks name = Some members ->
     In node_id members ->
     exists region,
       Dict.get Z.eqb node_to_region node_id = Some region /\
       Warp.areas region = name).
Proof.
  intros Hnodup H. apply Warp_map_inv in H. destruct H as [H _].
  apply (@Warp_assign_nodes_spec _ _ _ _ _ _ _ _ _ _ Hnodup) in H; [exact H | |].
  - reflexivity.
  - intros name members id Hm. discriminate.
Qed.

Lemma X11_warp_nodes_within_radius_witness :
  NoDup (map fst (Road.nodes Fixture.two_node_graph)) /\
  In (2%Z, {| Road.x := 72.8141%R; Road.y := 18.9151%R |})
     (Road.nodes Fixture.two_node_graph) /\
  exists region,
    Dict.get Z.eqb Expected.warp_node_to_region 2%Z = Some region /\
    Warp.areas region = "Colaba"%string.
Proof.
  assert (Hnodup : NoDup (map fst (Road.nodes Fixture.two_node_graph))).
  { cbn. repeat constructor; cbn; intuition discriminate. }
  split; [exact Hnodup |]. split; [right; now left |].
  exact (proj2 (@X11_warp_nodes_within_radius Fixture.exact_scorer
                  Fixture.warp_tree_query Fixture.two_node_graph
                  Fixture.warp_catalog 2.0%R
                  Expected.warp_node_to_region Expected.warp_edge_to_region
                  Expected.warp_region_networks Hnodup (Warp_fixture_run _))
           "Colaba"%string [2%Z] 2%Z eq_refl (or_introl eq_refl)).
Defined.

(* np.argmin: the index of the first least entry *)
Lemma argmin_from_spec l : forall full best_i best i,
  nth_error full best_i = Some best ->
  (best_i < i)%nat ->
  (forall j, nth_error l j = nth_error full (i + j)) ->
  (forall j d, (j < i)%nat -> nth_error full j = Some d -> (best <= d)%R) ->
  (forall j d, (j < best_i)%nat -> nth_error full j = Some d -> (best < d)%R) ->
  exists m,
    nth_error full (Tload.argmin_from best_i best i l) = Some m /\
    (forall j d, nth_error full j = Some d -> (m <= d)%R) /\
    (forall j d, (j < Tload.argmin_from best_i best i l)%nat ->
                 nth_error full j = Some d -> (m < d)%R).
Proof.
  induction l as [| d rest IH]; intros full best_i best i Hbest Hlt Hsuffix Hle Hfirst.
  - cbn [Tload.argmin_from]. exists best. split; [exact Hbest |].
    split; [| exact Hfirst].
    intros j d Hj. destruct (Nat.lt_ge_cases j i) as [Hji | Hji]; [eauto |].
    specialize (Hsuffix (j - i)%nat).
    replace (i + (j - i))%nat with j in Hsuffix by lia.
    rewrite Hj in Hsuffix. now destruct (j - i)%nat.
  - cbn [Tload.argmin_from].
    assert (Hd : nth_error full i = Some d).
    { specialize (Hsuffix 0%nat). cbn in Hsuffix.
      now rewrite Nat.add_0_r in Hsuffix. }
    assert (Hsuffix' : forall j, nth_error rest j = nth_error full (S i + j)).
    { intros j. specialize (Hsuffix (S j)). cbn in Hsuffix.
      now rewrite Nat.add_succ_r in Hsuffix. }
    destruct (Rlt_dec d best) as [Hdb | Hdb].
    + apply IH; auto.
      * intros j d' Hj Hd'. destruct (Nat.eq_dec j i) as [-> | Hne].
        -- rewrite Hd in Hd'. injection Hd' as <-. lra.
        -- assert (Hb : (best <= d')%R) by (apply (Hle j); [lia | exact Hd']). lra.
      * intros j d' Hj Hd'.
        assert (Hb : (best <= d')%R) by (apply (Hle j); [lia | exact Hd']). lra.
    + apply IH; auto.
      intros j d' Hj Hd'. destruct (Nat.eq_dec j i) as [-> | Hne].
      * rewrite Hd in Hd'. injection Hd' as <-. lra.
      * apply (Hle j); [lia | exact Hd'].
Qed.

Lemma argmin_spec scorer l i :
  run scorer (Tload.argmin l) = Ok i ->
  exists m,
    nth_error l i = Some m /\
    (forall j d, nth_error l j = Some d -> (m <= d)%R) /\
    (forall j d, (j < i)%nat -> nth_error l j = Some d -> (m < d)%R).
Proof.
  destruct l as [| d rest]; [discriminate |].
  cbn [Tload.argmin run]. intros [= <-].
  apply argmin_from_spec; auto.
  - intros j d' Hj. destruct j; [| lia]. now intros [= <-]; lra.
  - intros j d' Hj. lia.
Qed.

(* dict(zip(keys, values)) when the keys are pairwise different *)
Lemma of_pairs_frame (V : Type) (pairs : list (Z * V)) : forall d k,
  ~ In k (map fst pairs) ->
  Dict.get Z.eqb (fold_left (fun d kv => Dict.set Z.eqb d (fst kv) (snd kv)) pairs d) k
  = Dict.get Z.eqb d k.
Proof.
  induction pairs as [| [k0 v0] rest IH]; intros d k Hk; cbn [fold_left]; auto.
  cbn [map fst In] in Hk. rewrite IH by tauto. cbn [fst snd].
  apply (@Dict_get_set_other _ _ _ Z.eqb_eq). tauto.
Qed.

Lemma of_pairs_get (V : Type) (pairs : list (Z * V)) k v :
  NoDup (map fst pairs) -> In (k, v) pairs ->
  Dict.get Z.eqb (Dict.of_pairs Z.eqb pairs) k = Some v.
Proof.
  unfold Dict.of_pairs. generalize (@nil (Z * V)).
  induction pairs as [| [k0 v0] rest IH]; intros d Hnodup Hin; [destruct Hin |].
  cbn [map fst] in Hnodup. apply NoDup_cons_iff in Hnodup.
  destruct Hnodup as [Hnotin Hnodup]. cbn [fold_left fst snd].
  destruct Hin as [[= -> ->] | Hin].
  - rewrite of_pairs_frame by exact Hnotin.
    apply (@Dict_get_set_same _ _ _ Z.eqb_eq).
  - now apply IH.
Qed.

Lemma Forall2_combine_In (A B : Type) (P : A -> B -> Prop) l l' x :
  Forall2 P l l' -> In x l -> exists y, In (x, y) (combine l l') /\ P x y.
Proof.
  induction 1 as [| a b t t' Hab _ IH]; [intros [] |].
  intros [<- | Hx]; cbn [combine].
  - exists b. split; [now left | exact Hab].
  - destruct (IH Hx) as (y & Hy & Hp). exists y. split; [now right | exact Hp].
Qed.

Lemma Forall2_length_eq (A B : Type) (P : A -> B -> Prop) l l' :
  Forall2 P l l' -> length l = length l'.
Proof. induction 1; simpl; congruence. Qed.

Lemma combine_map_fst (A B C : Type) (f : A -> B) (l : list A) (l' : list C) x y :
  In (x, y) (combine l l') -> In (f x, y) (combine (map f l) l').
Proof.
  revert l'. induction l as [| a t IH]; intros [| c t']; cbn; auto.
  intros [[= -> ->] | H]; auto.
Qed.

Lemma combine_keys (A B : Type) (l : list A) (l' : list B) :
  length l = length l' -> map fst (combine l l') = l.
Proof.
  revert l'. induction l as [| a t IH]; intros [| b t']; cbn; try discriminate; auto.
  intros [= H]. now rewrite IH.
Qed.

Lemma Tload_load_inv scorer G flood_df g :
  run scorer (Tload.load G flood_df) = Ok g ->
  exists nearest_region_idx_per_node,
    Forall2 (fun (n : Road.node * Road.NodeData) i =>
               run scorer
                 (Tload.argmin
                    (map (fun r => Tload.haversine_m (Tload.longitude r)
                                     (Tload.latitude r)
                                     (Road.x (snd n)) (Road.y (snd n))) flood_df))
               = Ok i)
            (Road.nodes G) nearest_region_idx_per_node /\
    Tload.nodeid_to_region_idx g
    = Dict.of_pairs Z.eqb
        (combine (map fst (Road.nodes G)) nearest_region_idx_per_node) /\
    Tload.regions g = map Tload.areas flood_df /\
    Tload.region_risks g = map Tload.flood_risk_level flood_df.
Proof.
  unfold Tload.load. rewrite run_bind.
  destruct (run scorer (mapM _ (Road.nodes G))) as [idxs | e] eqn:E; [| discriminate].
  apply run_mapM_inv in E. rewrite run_bind.
  destruct (run scorer (mapM _ (Road.edges G))) as [rows | e]; [| discriminate].
  cbn [run]. intros [= <-]. exists idxs. cbn. auto.
Qed.

(** X12.  tload.py tags every node of the graph with a nearest region:
    after loading, nodeid_to_region_idx maps each node to the index of a
    region whose Haversine distance to the node is least among all
    regions of the CSV, and the first such region when several are
    equally near.  The node ids are the keys of the graph, pairwise
    different. *)
Theorem X12_tload_nearest_region scorer G flood_df g node_id node_data :
  NoDup (map fst (Road.nodes G)) ->
  run scorer (Tload.load G flood_df) = Ok g ->
  In (node_id, node_data) (Road.nodes G) ->
  exists i region,
    Dict.get Z.eqb (Tload.nodeid_to_region_idx g) node_id = Some i /\
    nth_error flood_df i = Some region /\
    (forall other,
       In other flood_df ->
       (Tload.haversine_m (Tload.longitude region) (Tload.latitude region)
          (Road.x node_data) (Road.y node_data)
        <= Tload.haversine_m (Tload.longitude other) (Tload.latitude other)
             (Road.x node_data) (Road.y node_data))%R) /\
    (forall j other,
       (j < i)%nat -> nth_error flood_df j = Some other ->
       (Tload.haversine_m (Tload.longitude region) (Tload.latitude region)
          (Road.x node_data) (Road.y node_data)
        < Tload.haversine_m (Tload.longitude other) (Tload.latitude other)
            (Road.x node_data) (Road.y node_data))%R).
Proof.
  intros Hnodup H Hin. apply Tload_load_inv in H.
  destruct H as (idxs & Hall & Hdict & _).
  destruct (@Forall2_combine_In _ _ _ _ _ _ Hall Hin) as (i & Hpair & Hi).
  cbn [snd] in Hi. apply argmin_spec in Hi.
  destruct Hi as (m & Hm & Hle & Hfirst).
  rewrite nth_error_map in Hm.
  destruct (nth_error flood_df i) as [region |] eqn:Hregion; [| discriminate].
  cbn [option_map] in Hm. injection Hm as <-.
  exists i, region. split; [| split; [exact Hregion | split]].
  - rewrite Hdict. apply of_pairs_get.
    + rewrite combine_keys; [exact Hnodup |].
      rewrite length_map. exact (@Forall2_length_eq _ _ _ _ _ Hall).
    + exact (@combine_map_fst _ _ _ fst _ _ _ _ Hpair).
  - intros other Hother. apply In_nth_error in Hother. destruct Hother as [j Hj].
    apply (Hle j). rewrite nth_error_map, Hj. reflexivity.
  - intros j other Hj Hother. apply (Hfirst j); [exact Hj |].
    rewrite nth_error_map, Hother. reflexivity.
Qed.

Lemma X12_tload_nearest_region_witness :
  exists i region,
    Dict.get Z.eqb (Tload.nodeid_to_region_idx Expected.tload_globals) 2%Z = Some i /\
    nth_error Fixture.tload_catalog i = Some region /\
    (Tload.haversine_m (Tload.longitude region) (Tload.latitude region)
       72.8141 18.9151
     <= Tload.haversine_m 72.8284 18.9346 72.8141 18.9151)%R.
Proof.
  assert (Hnodup : NoDup (map fst (Road.nodes Fixture.two_node_graph))).
  { cbn. repeat constructor; cbn; intuition discriminate. }
  destruct (@X12_tload_nearest_region Fixture.exact_scorer Fixture.two_node_graph
              Fixture.tload_catalog Expected.tload_globals 2%Z
              {| Road.x := 72.8141%R; Road.y := 18.9151%R |}
              Hnodup (Tload_load_two_nodes _) (or_intror (or_introl eq_refl)))
    as (i & region & Hget & Hnth & Hle & _).
  exists i, region. split; [exact Hget |]. split; [exact Hnth |].
  exact (Hle _ (or_introl eq_refl)).
Defined.

Lemma opt_nat_eqb_spec a b : Tload.opt_nat_eqb a b = true <-> a = b.
Proof.
  destruct a as [i |], b as [j |]; cbn; try (split; [discriminate | discriminate]).
  - rewrite Nat.eqb_eq. split; [intros -> | intros [= ->]]; reflexivity.
  - split; reflexivity.
Qed.

Lemma existsb_opt_nat_false ridx seen :
  existsb (Tload.opt_nat_eqb ridx) seen = false -> ~ In ridx seen.
Proof.
  intros H Hin. assert (Ht : existsb (Tload.opt_nat_eqb ridx) seen = true).
  { apply existsb_exists. exists ridx. split; [exact Hin |].
    now apply opt_nat_eqb_spec. }
  congruence.
Qed.

(* the loop of lines 202-209 *)
Lemma Tload_select_spec n2r candidates : forall selected seen,
  (length selected <= 1)%nat ->
  NoDup (map snd selected) ->
  (forall s, In s selected -> In (snd s) seen) ->
  (length (Tload.select n2r candidates selected seen) <= 2)%nat /\
  NoDup (map snd (Tload.select n2r candidates selected seen)) /\
  (forall s, In s (Tload.select n2r candidates selected seen) ->
     In s selected
     \/ exists node dist,
          In (node, dist) candidates /\ s = (node, dist, Dict.get Z.eqb n2r node)).
Proof.
  induction candidates as [| [node dist] rest IH]; intros selected seen Hlen Hnodup Hseen.
  - cbn [Tload.select]. split; [lia |]. split; [exact Hnodup | auto].
  - cbn [Tload.select].
    destruct (existsb (Tload.opt_nat_eqb (Dict.get Z.eqb n2r node)) seen) eqn:E;
      cbn [negb].
    + (* the region was seen before *)
      destruct (2 <=? length selected)%nat eqn:E2.
      { apply Nat.leb_le in E2. lia. }
      destruct (IH selected seen Hlen Hnodup Hseen) as (H1 & H2 & H3).
      split; [exact H1 |]. split; [exact H2 |].
      intros s Hs. destruct (H3 s Hs) as [Hin | (n & d & Hin & ->)]; [now left |].
      right. exists n, d. split; [now right | reflexivity].
    + apply existsb_opt_nat_false in E.
      assert (Hnodup' : NoDup (map snd (selected
                                  ++ [(node, dist, Dict.get Z.eqb n2r node)])%list)).
      { rewrite map_app. cbn [map snd].
        apply NoDup_app; [exact Hnodup | repeat constructor; intros [] |].
        intros ridx Hr [<- | []]. apply E.
        apply in_map_iff in Hr. destruct Hr as (s & <- & Hs). now apply Hseen. }
      assert (Hin' : forall s,
                 In s (selected ++ [(node, dist, Dict.get Z.eqb n2r node)])%list ->
                 In s selected
                 \/ exists n d, In (n, d) ((node, dist) :: rest)
                                /\ s = (n, d, Dict.get Z.eqb n2r n)).
      { intros s Hs. apply in_app_or in Hs. destruct Hs as [Hs | [<- | []]];
          [now left |].
        right. exists node, dist. split; [now left | reflexivity]. }
      destruct (2 <=? length (selected
                              ++ [(node, dist, Dict.get Z.eqb n2r node)])%list)%nat
        eqn:E2.
      * split; [rewrite length_app; cbn [length]; lia |].
        split; [exact Hnodup' | exact Hin'].
      * apply Nat.leb_gt in E2.
        destruct (IH (selected ++ [(node, dist, Dict.get Z.eqb n2r node)])%list
                    (Dict.get Z.eqb n2r node :: seen)) as (H1 & H2 & H3).
        -- lia.
        -- exact Hnodup'.
        -- intros s Hs. apply in_app_or in Hs.
           destruct Hs as [Hs | [<- | []]]; [right; now apply Hseen | now left].
        -- split; [exact H1 |]. split; [exact H2 |].
           intros s Hs. destruct (H3 s Hs) as [Hin | (n & d & Hin & ->)].
           ++ now apply Hin'.
           ++ right. exists n, d. split; [now right | reflexivity].
Qed.

Lemma Tload_route_to_inv scorer lib g start_node node dist_m ridx r :
  run scorer (Tload.route_to lib g start_node (node, dist_m, ridx)) = Ok r ->
  ridx = Some (Tload.dest_region_idx r) /\
  Tload.dest_node r = node /\
  nth_error (Tload.regions g) (Tload.dest_region_idx r) = Some (Tload.dest_region r) /\
  Road.shortest_path lib (Tload.G g) start_node node = Some (Tload.path r) /\
  Tload.distance_km r
  = (Tload.route_length_m lib (Tload.G g) (Tload.path r) / 1000.0)%R /\
  Tload.eta_min r = (Tload.distance_km r / 25.0 * 60.0)%R.
Proof.
  unfold Tload.route_to.
  destruct (Road.shortest_path lib (Tload.G g) start_node node) as [path |];
    [| discriminate].
  destruct ridx as [i |]; [| discriminate].
  rewrite run_bind. unfold Tload.item.
  destruct (nth_error (Tload.regions g) i) as [name |] eqn:E; [| discriminate].
  cbn [run]. intros [= <-].
  cbn [Tload.dest_region_idx Tload.dest_node Tload.dest_region Tload.path
       Tload.distance_km Tload.eta_min].
  repeat split; auto.
Qed.

Lemma low_idxs_from_spec risks : forall k i,
  In i (Tload.low_idxs_from k risks) ->
  (k <= i)%nat /\
  exists risk, nth_error risks (i - k) = Some risk /\ PyStr.lower risk = "low"%string.
Proof.
  induction risks as [| r rest IH]; intros k i; cbn [Tload.low_idxs_from];
    [intros [] |].
  assert (Hrest : In i (Tload.low_idxs_from (S k) rest) ->
                  (k <= i)%nat /\
                  exists risk, nth_error (r :: rest) (i - k) = Some risk
                               /\ PyStr.lower risk = "low"%string).
  { intros Hi. destruct (IH _ _ Hi) as (Hk & risk & Hn & Hl).
    split; [lia |]. exists risk. split; [| exact Hl].
    replace (i - k)%nat with (S (i - S k)) by lia. exact Hn. }
  destruct (String.eqb_spec (PyStr.lower r) "low") as [E | E]; [| exact Hrest].
  intros [<- | Hi]; [| exact (Hrest Hi)].
  split; [lia |]. exists r. rewrite Nat.sub_diag. auto.
Qed.

Lemma Dict_get_In_NoDup (V : Type) (d : Dict.t Z V) k v :
  NoDup (map fst d) -> In (k, v) d -> Dict.get Z.eqb d k = Some v.
Proof.
  unfold Dict.get. induction d as [| [k0 v0] rest IH]; [intros _ [] |].
  cbn [map fst]. intros Hnodup Hin. apply NoDup_cons_iff in Hnodup.
  destruct Hnodup as [Hnotin Hnodup]. cbn [find fst].
  destruct Hin as [[= -> ->] | Hin].
  - now rewrite Z.eqb_refl.
  - destruct (Z.eqb_spec k0 k) as [-> | _]; [| now apply IH].
    elim Hnotin. apply in_map_iff. now exists (k, v).
Qed.

Lemma Tload_find_inv scorer lib g user_input_str m score routes :
  run scorer (Tload.find_two_safest_routes_for_user lib g user_input_str)
  = Ok (m, score, routes) ->
  routes = []
  \/ exists best start_node,
       m = Some best /\ (50 <= score)%Z /\
       Forall2 (fun sel r => run scorer (Tload.route_to lib g start_node sel) = Ok r)
         (Tload.select (Tload.nodeid_to_region_idx g)
            (Py.sorted Py.Rltb snd
               (flat_map
                  (fun node =>
                     match Dict.get Z.eqb
                             (Road.single_source_dijkstra_path_length lib
                                (Tload.G g) start_node) node with
                     | Some l => [(node, l)]
                     | None => []
                     end)
                  (map fst
                     (filter
                        (fun kv =>
                           existsb (Nat.eqb (snd kv))
                             (Tload.low_idxs_from 0 (Tload.region_risks g)))
                        (Tload.nodeid_to_region_idx g)))))
            [] [])
         routes.
Proof.
  unfold Tload.find_two_safest_routes_for_user, Tload.extract_best_match.
  rewrite !run_bind.
  destruct (run scorer (Fuzzy.extractOne _ (Tload.regions g))) as [res | e];
    [| discriminate].
  destruct res as [[best sc] |]; cbn [run]; [| intros [= <- <- <-]; now left].
  destruct (negb (PyStr.truthy best) || (sc <? 50)%Z) eqn:E;
    [intros [= <- <- <-]; now left |].
  apply Bool.orb_false_iff in E. destruct E as [_ E]. apply Z.ltb_ge in E.
  rewrite run_bind.
  destruct (run scorer (Tload.index_from 0 (Tload.regions g) best)) as [idx | e];
    [| discriminate].
  rewrite run_bind.
  destruct (run scorer (Tload.item (Tload.region_lons g) idx)) as [start_lon | e];
    [| discriminate].
  rewrite run_bind.
  destruct (run scorer (Tload.item (Tload.region_lats g) idx)) as [start_lat | e];
    [| discriminate].
  destruct (Py.empty (Tload.low_idxs_from 0 (Tload.region_risks g)));
    [intros [= <- <- <-]; now left |].
  destruct (Py.empty (map fst _)); [intros [= <- <- <-]; now left |].
  destruct (Py.empty (flat_map _ _)); [intros [= <- <- <-]; now left |].
  rewrite run_bind.
  destruct (run scorer (mapM _ _)) as [rs | e] eqn:Hrs; [| discriminate].
  cbn [run]. intros [= <- <- <-]. right.
  exists best, (Road.nearest_nodes lib (Tload.G g) start_lon start_lat).
  split; [reflexivity |]. split; [exact E |].
  exact (run_mapM_inv _ _ _ Hrs).
Qed.

(** X13.  tload.py's find_two_safest_routes_for_user returns at most two
    routes, to two different regions; a route is returned only for a
    matched name with a score of 50 or more; every destination node is
    tagged with the destination region, that region's flood_risk_level
    is "low" (whatever the case of its letters), and the ETA is the
    distance at 25 km/h.  nodeid_to_region_idx is a dict: its keys are
    pairwise different. *)
Theorem X13_tload_two_low_risk_routes scorer lib g user_input_str m score routes :
  NoDup (map fst (Tload.nodeid_to_region_idx g)) ->
  run scorer (Tload.find_two_safest_routes_for_user lib g user_input_str)
  = Ok (m, score, routes) ->
  (length routes <= 2)%nat /\
  NoDup (map Tload.dest_region_idx routes) /\
  (routes <> [] -> exists best, m = Some best /\ (50 <= score)%Z) /\
  (forall r,
     In r routes ->
     nth_error (Tload.regions g) (Tload.dest_region_idx r)
     = Some (Tload.dest_region r) /\
     Dict.get Z.eqb (Tload.nodeid_to_region_idx g) (Tload.dest_node r)
     = Some (Tload.dest_region_idx r) /\
     (exists risk,
        nth_error (Tload.region_risks g) (Tload.dest_region_idx r) = Some risk /\
        PyStr.lower risk = "low"%string) /\
     Tload.eta_min r = (Tload.distance_km r / 25.0 * 60.0)%R).
Proof.
  intros Hkeys H. apply Tload_find_inv in H.
  destruct H as [-> | (best & start_node & -> & Hscore & Hall)].
  { split; [cbn; lia |]. split; [constructor |].
    split; [intros Hne; now elim Hne | intros r []]. }
  set (n2r := Tload.nodeid_to_region_idx g) in *.
  set (candidates := Py.sorted Py.Rltb snd _) in Hall.
  destruct (@Tload_select_spec n2r candidates [] [])
    as (Hlen & Hnodup & Hfrom).
  { cbn; lia. }
  { constructor. }
  { intros s []. }
  set (selected := Tload.select n2r candidates [] []) in *.
  assert (Hridx : Forall2 (fun sel r => snd sel = Some (Tload.dest_region_idx r))
                    selected routes).
  { clear - Hall. induction Hall as [| [[node dist] ridx] r t t' H _ IH];
      constructor; auto.
    apply Tload_route_to_inv in H. cbn [snd]. tauto. }
  split; [rewrite <- (@Forall2_length_eq _ _ _ _ _ Hall); exact Hlen |].
  split.
  { clear - Hnodup Hridx.
    induction Hridx as [| sel r t t' H Hrest IH]; [constructor |].
    cbn [map] in *. apply NoDup_cons_iff in Hnodup.
    destruct Hnodup as [Hnotin Hnodup]. constructor; [| now apply IH].
    intros Hin. apply Hnotin. rewrite H.
    clear - Hin Hrest. induction Hrest as [| sel' r' t t' H' _ IH]; [destruct Hin |].
    cbn [map In] in *. destruct Hin as [Heq | Hin]; [left | right; now apply IH].
    now rewrite H', Heq. }
  split; [intros _; eauto |].
  intros r Hr.
  destruct (@Forall2_pick_r _ _ _ _ _ _ Hall Hr) as ([[node dist] ridx] & Hsel & Hrun).
  apply Tload_route_to_inv in Hrun.
  destruct Hrun as (-> & Hnode & Hregion & _ & _ & Heta).
  destruct (Hfrom _ Hsel) as [[] | (n & d & Hcand & [= -> -> Hget])].
  split; [exact Hregion |]. rewrite Hnode. split; [now symmetry |].
  split; [| exact Heta].
  unfold candidates in Hcand. apply sorted_In, in_flat_map in Hcand.
  destruct Hcand as (n' & Hsafe & Hn').
  assert (n' = n) as ->.
  { destruct (Dict.get Z.eqb _ n') as [l |]; [| destruct Hn'].
    destruct Hn' as [[= -> _] | []]. reflexivity. }
  apply in_map_iff in Hsafe. destruct Hsafe as ([k i] & Hk & Hkv).
  cbn [fst] in Hk. subst k. apply filter_In in Hkv. destruct Hkv as [Hkv Hlow].
  cbn [snd] in Hlow. apply existsb_exists in Hlow.
  destruct Hlow as (i' & Hi' & Heq). apply Nat.eqb_eq in Heq. subst i'.
  fold n2r in Hkv. rewrite (Dict_get_In_NoDup _ _ _ Hkeys Hkv) in Hget.
  injection Hget as <-.
  apply low_idxs_from_spec in Hi'. destruct Hi' as (_ & risk & Hrisk & Hlower).
  rewrite Nat.sub_0_r in Hrisk. eauto.
Qed.

Lemma Tload_fixture_find_run :
  run Fixture.exact_scorer
    (Tload.find_two_safest_routes_for_user Fixture.one_node_lib
       Expected.tload_globals " Churchgate ")
  = Ok (Some "churchgate"%string, 100%Z, [Expected.tload_route]).
Proof. eval_py. reflexivity. Qed.

Lemma X13_tload_two_low_risk_routes_witness :
  NoDup (map fst (Tload.nodeid_to_region_idx Expected.tload_globals)) /\
  (length [Expected.tload_route] <= 2)%nat /\
  exists risk,
    nth_error (Tload.region_risks Expected.tload_globals)
      (Tload.dest_region_idx Expected.tload_route) = Some risk /\
    PyStr.lower risk = "low"%string.
Proof.
  assert (Hkeys : NoDup (map fst (Tload.nodeid_to_region_idx Expected.tload_globals))).
  { cbn. repeat constructor; cbn; intuition discriminate. }
  destruct (@X13_tload_two_low_risk_routes Fixture.exact_scorer Fixture.one_node_lib
              Expected.tload_globals " Churchgate " _ _ _ Hkeys Tload_fixture_find_run)
    as (Hlen & _ & _ & Hall).
  split; [exact Hkeys |]. split; [exact Hlen |].
  destruct (Hall _ (or_introl eq_refl)) as (_ & _ & Hlow & _). exact Hlow.
Defined.

Lemma run_try_except (A : Type) scorer (p handler : prog A) :
  run scorer (WarpRoutes.try_except p handler)
  = match run scorer p with
    | Ok a => Ok a
    | Err _ => run scorer handler
    end.
Proof.
  induction p as [a | e | q c k IH]; simpl; auto.
Qed.

Lemma WarpRoutes_potential_routes_In lib G start_node safe_regions r :
  In r (WarpRoutes.potential_routes lib G start_node safe_regions) ->
  exists dest,
    In dest safe_regions /\ WarpRoutes.try_destination lib G start_node dest = Some r.
Proof.
  induction safe_regions as [| d rest IH]; simpl; [intros [] |].
  destruct (WarpRoutes.try_destination lib G start_node d) as [r' |] eqn:E.
  - intros [<- | H]; [eauto |]. destruct (IH H) as (dest & Hd & Ht). eauto.
  - intros H. destruct (IH H) as (dest & Hd & Ht). eauto.
Qed.

Lemma WarpRoutes_try_destination_inv lib G start_node dest r :
  WarpRoutes.try_destination lib G start_node dest = Some r ->
  WarpRoutes.destination r = WarpRoutes.areas dest /\
  WarpRoutes.risk_level r = WarpRoutes.flood_risk_level dest /\
  Road.nearest_nodes lib G (WarpRoutes.longitude dest) (WarpRoutes.latitude dest)
  <> start_node /\
  Road.shortest_path lib G start_node
    (Road.nearest_nodes lib G (WarpRoutes.longitude dest) (WarpRoutes.latitude dest))
  = Some (WarpRoutes.path r) /\
  WarpRoutes.distance_km r
  = (WarpRoutes.calculate_route_distance lib G (WarpRoutes.path r) / 1000.0)%R /\
  WarpRoutes.eta_minutes r = (WarpRoutes.distance_km r / 25.0 * 60.0)%R.
Proof.
  unfold WarpRoutes.try_destination.
  destruct (Z.eqb_spec
              (Road.nearest_nodes lib G (WarpRoutes.longitude dest)
                 (WarpRoutes.latitude dest)) start_node) as [_ | Hne];
    [discriminate |].
  destruct (Road.shortest_path lib G start_node _) as [path |]; [| discriminate].
  intros [= <-].
  cbn [WarpRoutes.destination WarpRoutes.risk_level WarpRoutes.path
       WarpRoutes.distance_km WarpRoutes.eta_minutes].
  repeat split; auto.
Qed.

(* the outcome of the try of lines 180-183 *)
Lemma WarpRoutes_match_run fuzzy scorer query choices :
  run scorer
    (WarpRoutes.try_except
       (res <- Fuzzy.extractOne query choices ;;
        p <- WarpRoutes.unpack_match fuzzy res ;;
        Ret (Some p))
       (Ret None))
  = Ok match fuzzy with
       | WarpRoutes.rapidfuzz => None
       | WarpRoutes.fuzzywuzzy =>
           match run scorer (Fuzzy.extractOne query choices) with
           | Ok (Some p) => Some p
           | _ => None
           end
       end
  /\
  exists res, run scorer (Fuzzy.extractOne query choices) = Ok res /\
              forall best score, res = Some (best, score) -> In best choices.
Proof.
  destruct (extractOne_run scorer query choices) as (res & Hres & Hin).
  split; [| exists res; split; [exact Hres | intros b sc E; now apply (Hin b sc)]].
  rewrite run_try_except, run_bind, Hres, run_bind.
  destruct res as [p |], fuzzy; reflexivity.
Qed.

Lemma find_lower_In (areas : list string) best :
  In best (map PyStr.lower areas) ->
  exists matched_region,
    find (fun area => (PyStr.lower area =? best)%string) areas = Some matched_region /\
    In matched_region areas /\ PyStr.lower matched_region = best.
Proof.
  induction areas as [| a t IH]; [intros [] |]. cbn [map In find].
  destruct (String.eqb_spec (PyStr.lower a) best) as [E | E].
  - intros _. exists a. auto.
  - intros [H | H]; [contradiction |].
    destruct (IH H) as (m & Hm & Hin & Hl). exists m. auto.
Qed.

Lemma WarpRoutes_find_inv fuzzy scorer lib user_input G flood_df n2r :
  run scorer
    (WarpRoutes.find_user_location_and_routes fuzzy lib user_input G flood_df n2r)
  = Ok (None, None, [])
  \/
  exists best confidence start rest,
    fuzzy = WarpRoutes.fuzzywuzzy /\
    run scorer (Fuzzy.extractOne (PyStr.strip (PyStr.lower user_input))
                  (map PyStr.lower (map WarpRoutes.areas flood_df)))
    = Ok (Some (best, confidence)) /\
    (60 <= confidence)%Z /\
    PyStr.lower (WarpRoutes.areas start) = best /\
    filter (fun r => (WarpRoutes.areas r =? WarpRoutes.areas start)%string) flood_df
    = start :: rest /\
    let start_node :=
      Road.nearest_nodes lib G (WarpRoutes.longitude start)
        (WarpRoutes.latitude start) in
    let low :=
      filter (fun r => (WarpRoutes.flood_risk_level r =? "low")%string) flood_df in
    let moderate :=
      filter (fun r => (WarpRoutes.flood_risk_level r =? "moderate")%string)
        flood_df in
    run scorer
      (WarpRoutes.find_user_location_and_routes fuzzy lib user_input G flood_df n2r)
    = Ok (Some (WarpRoutes.areas start), Some confidence,
          firstn 2
            (Py.sorted Py.Rltb WarpRoutes.distance_km
               (WarpRoutes.potential_routes lib G start_node
                  (if Py.empty low then moderate else low)))).
Proof.
  unfold WarpRoutes.find_user_location_and_routes. rewrite run_bind.
  destruct (WarpRoutes_match_run fuzzy scorer (PyStr.strip (PyStr.lower user_input))
              (map PyStr.lower (map WarpRoutes.areas flood_df)))
    as (-> & res & Hres & Hin).
  destruct fuzzy; [now left |]. rewrite Hres.
  destruct res as [[best confidence] |]; [| now left].
  destruct (confidence <? 60)%Z eqn:E; [now left |]. apply Z.ltb_ge in E.
  destruct (find_lower_In _ _ (Hin _ _ eq_refl)) as (matched & -> & Hm & Hl).
  destruct (PyStr.truthy matched); cbn [negb]; [| now left].
  apply in_map_iff in Hm. destruct Hm as (row & Hrow & Hinrow).
  destruct (filter (fun r => (WarpRoutes.areas r =? matched)%string) flood_df)
    as [| start rest] eqn:Ef.
  { exfalso. assert (Hf : In row (filter (fun r => (WarpRoutes.areas r =? matched)%string)
                                    flood_df)).
    { apply filter_In. split; [exact Hinrow |]. now apply String.eqb_eq. }
    rewrite Ef in Hf. destruct Hf. }
  assert (Hstart : WarpRoutes.areas start = matched).
  { assert (Hf : In start (filter (fun r => (WarpRoutes.areas r =? matched)%string)
                             flood_df)) by (rewrite Ef; now left).
    apply filter_In in Hf. now apply String.eqb_eq. }
  rewrite run_bind. cbn [Py.iloc0 run].
  right. exists best, confidence, start, rest.
  split; [reflexivity |]. split; [reflexivity |]. split; [exact E |].
  split; [now rewrite Hstart |]. rewrite Hstart. split; [exact Ef |].
  cbv zeta.
  destruct (filter (fun r => (WarpRoutes.flood_risk_level r =? "low")%string) flood_df)
    as [| l0 low]; cbn [Py.empty]; [| reflexivity].
  destruct (filter (fun r => (WarpRoutes.flood_risk_level r =? "moderate")%string)
              flood_df) as [| m0 moderate]; reflexivity.
Qed.

(** X14.  warp.py's find_user_location_and_routes, for a resolved
    location: the confidence is 60 or more and the location is an area
    of the CSV; at most two routes are returned, the nearer one first;
    every destination is a region of risk "low", or of risk "moderate"
    when the CSV has no "low" region; no destination has the start's
    own nearest road node; the path is the one the graph library gives
    from the start node, and the ETA is the distance at 25 km/h. *)
Theorem X14_warp_user_routes fuzzy scorer lib user_input G flood_df n2r
    matched c routes :
  run scorer
    (WarpRoutes.find_user_location_and_routes fuzzy lib user_input G flood_df n2r)
  = Ok (Some matched, c, routes) ->
  exists confidence start,
    c = Some confidence /\ (60 <= confidence)%Z /\
    In start flood_df /\ WarpRoutes.areas start = matched /\
    (length routes <= 2)%nat /\
    (forall i a b,
       nth_error routes i = Some a -> nth_error routes (S i) = Some b ->
       (WarpRoutes.distance_km a <= WarpRoutes.distance_km b)%R) /\
    (forall r,
       In r routes ->
       exists dest,
         In dest flood_df /\
         WarpRoutes.destination r = WarpRoutes.areas dest /\
         WarpRoutes.risk_level r = WarpRoutes.flood_risk_level dest /\
         (WarpRoutes.risk_level r = "low"%string
          \/ (WarpRoutes.risk_level r = "moderate"%string /\
              forall row, In row flood_df ->
                          WarpRoutes.flood_risk_level row <> "low"%string)) /\
         Road.nearest_nodes lib G (WarpRoutes.longitude dest) (WarpRoutes.latitude dest)
         <> Road.nearest_nodes lib G (WarpRoutes.longitude start)
              (WarpRoutes.latitude start) /\
         Road.shortest_path lib G
           (Road.nearest_nodes lib G (WarpRoutes.longitude start)
              (WarpRoutes.latitude start))
           (Road.nearest_nodes lib G (WarpRoutes.longitude dest)
              (WarpRoutes.latitude dest))
         = Some (WarpRoutes.path r) /\
         WarpRoutes.eta_minutes r = (WarpRoutes.distance_km r / 25.0 * 60.0)%R).
Proof.
  intros H.
  destruct (WarpRoutes_find_inv fuzzy scorer lib user_input G flood_df n2r)
    as [Hnone | (best & confidence & start & rest & _ & _ & Hc & _ & Ef & Hrun)].
  { rewrite Hnone in H. discriminate. }
  cbv zeta in Hrun. set (top := firstn 2 _) in Hrun.
  rewrite Hrun in H. injection H as <- <- <-. unfold top. clear top Hrun.
  exists confidence, start. split; [reflexivity |]. split; [exact Hc |].
  split.
  { assert (Hf : In start (filter (fun r => (WarpRoutes.areas r
                                             =? WarpRoutes.areas start)%string)
                             flood_df)) by (rewrite Ef; now left).
    apply filter_In in Hf. tauto. }
  split; [reflexivity |].
  destruct (top_sorted WarpRoutes.distance_km 2
              (WarpRoutes.potential_routes lib G
                 (Road.nearest_nodes lib G (WarpRoutes.longitude start)
                    (WarpRoutes.latitude start))
                 (if Py.empty (filter (fun r => (WarpRoutes.flood_risk_level r
                                                 =? "low")%string) flood_df)
                  then filter (fun r => (WarpRoutes.flood_risk_level r
                                         =? "moderate")%string) flood_df
                  else filter (fun r => (WarpRoutes.flood_risk_level r
                                         =? "low")%string) flood_df)))
    as [Hlen Hsorted].
  split; [exact Hlen |]. split; [exact Hsorted |].
  intros r Hr. apply firstn_subset, sorted_In, WarpRoutes_potential_routes_In in Hr.
  destruct Hr as (dest & Hdest & Htry).
  apply WarpRoutes_try_destination_inv in Htry.
  destruct Htry as (Hd & Hrisk & Hne & Hpath & _ & Heta).
  exists dest.
  assert (Hsafe : In dest flood_df /\
                  (WarpRoutes.flood_risk_level dest = "low"%string
                   \/ (WarpRoutes.flood_risk_level dest = "moderate"%string /\
                       forall row, In row flood_df ->
                                   WarpRoutes.flood_risk_level row <> "low"%string))).
  { destruct (filter (fun r => (WarpRoutes.flood_risk_level r =? "low")%string)
                flood_df) as [| l0 low] eqn:Elow; cbn [Py.empty] in Hdest.
    - apply filter_In in Hdest. destruct Hdest as [Hin Hm].
      apply String.eqb_eq in Hm. split; [exact Hin |]. right. split; [exact Hm |].
      intros row Hrow Hlow.
      assert (Hf : In row (filter (fun r => (WarpRoutes.flood_risk_level r
                                             =? "low")%string) flood_df)).
      { apply filter_In. split; [exact Hrow | now apply String.eqb_eq]. }
      rewrite Elow in Hf. destruct Hf.
    - rewrite <- Elow in Hdest. apply filter_In in Hdest. destruct Hdest as [Hin Hm].
      apply String.eqb_eq in Hm. auto. }
  destruct Hsafe as [Hin Hlevel]. rewrite Hrisk.
  repeat (split; [assumption || reflexivity |]). exact Heta.
Qed.

Lemma WarpRoutes_fixture_run :
  run Fixture.exact_scorer
    (WarpRoutes.find_user_location_and_routes WarpRoutes.fuzzywuzzy
       Fixture.two_node_lib " churchgate" Fixture.two_node_graph Fixture.warp_rows
       Expected.warp_node_to_region)
  = Ok (Some "Churchgate"%string, Some 100%Z, [Expected.warp_route]).
Proof.
  cbv - [Py.round Py.Rltb Py.Rleb Py.sorted
         Rplus Rmult Rminus Rdiv Ropp Rinv Q2R IZR Rlt_dec Rle_dec Rmin Rmax].
  repeat match goal with
         | |- context [Rlt_dec ?a ?b] =>
             destruct (Rlt_dec a b) as [? | ?]; try (exfalso; lra)
         end.
  reflexivity.
Qed.

Lemma X14_warp_user_routes_witness :
  exists confidence start,
    Some 100%Z = Some confidence /\ (60 <= confidence)%Z /\
    In start Fixture.warp_rows /\ WarpRoutes.areas start = "Churchgate"%string /\
    (length [Expected.warp_route] <= 2)%nat.
Proof.
  destruct (@X14_warp_user_routes WarpRoutes.fuzzywuzzy Fixture.exact_scorer
              Fixture.two_node_lib " churchgate" Fixture.two_node_graph
              Fixture.warp_rows Expected.warp_node_to_region _ _ _
              WarpRoutes_fixture_run)
    as (confidence & start & Hc & Hge & Hin & Hname & Hlen & _).
  exists confidence, start. auto.
Defined.

(** X15.  warp.py's find_user_location_and_routes never raises: a
    failure of the matcher or of the unpacking of its result is caught
    and answered with (None, None, []), so the empty CSV gives that
    answer too, and the row lookup cannot fail because the matched area
    comes from the CSV.  With rapidfuzz as fuzzy_process, whose
    extractOne returns a triple, the unpacking into two names always
    fails and the function answers (None, None, []) for every input. *)
Theorem X15_warp_never_raises scorer lib user_input G n2r :
  (forall fuzzy flood_df,
     exists res,
       run scorer
         (WarpRoutes.find_user_location_and_routes fuzzy lib user_input G flood_df n2r)
       = Ok res)
  /\
  (forall fuzzy,
     run scorer
       (WarpRoutes.find_user_location_and_routes fuzzy lib user_input G [] n2r)
     = Ok (None, None, []))
  /\
  (forall flood_df,
     run scorer
       (WarpRoutes.find_user_location_and_routes WarpRoutes.rapidfuzz lib user_input G
          flood_df n2r)
     = Ok (None, None, [])).
Proof.
  split; [| split].
  - intros fuzzy flood_df.
    destruct (WarpRoutes_find_inv fuzzy scorer lib user_input G flood_df n2r)
      as [-> | (best & confidence & start & rest & _ & _ & _ & _ & _ & Hrun)];
      [eauto |].
    cbv zeta in Hrun. rewrite Hrun. eauto.
  - intros fuzzy.
    destruct (WarpRoutes_find_inv fuzzy scorer lib user_input G [] n2r)
      as [H | (best & confidence & start & rest & _ & _ & _ & _ & Ef & _)];
      [exact H | discriminate].
  - intros flood_df.
    destruct (WarpRoutes_find_inv WarpRoutes.rapidfuzz scorer lib user_input G
                flood_df n2r)
      as [H | (best & confidence & start & rest & Hf & _)];
      [exact H | discriminate].
Qed.

Lemma length_lt_true_le d d' :
  Tload.length_lt d d' = true ->
  length_le (Road.length_attr d) (Road.length_attr d').
Proof.
  unfold Tload.length_lt, length_le.
  destruct (Road.length_attr d), (Road.length_attr d'); try discriminate; auto.
  apply Rltb_true_le.
Qed.

Lemma length_lt_false_le d d' :
  Tload.length_lt d d' = false ->
  length_le (Road.length_attr d') (Road.length_attr d).
Proof.
  unfold Tload.length_lt, length_le.
  destruct (Road.length_attr d), (Road.length_attr d'); try discriminate; auto.
  apply Rltb_false_le.
Qed.

Lemma length_le_chain a b c : length_le a b -> length_le b c -> length_le a c.
Proof.
  unfold length_le. destruct a, b, c; try tauto. apply Rle_trans.
Qed.

Lemma length_le_same a : length_le a a.
Proof. destruct a; cbn; auto. apply Rle_refl. Qed.

(* min(vals, key=...): an element of vals whose key is least *)
Lemma min_from_spec vals : forall best,
  In (Tload.min_from best vals) (best :: vals) /\
  forall d, In d (best :: vals) ->
            length_le (Road.length_attr (Tload.min_from best vals))
              (Road.length_attr d).
Proof.
  induction vals as [| d rest IH]; intros best; cbn [Tload.min_from].
  - split; [now left |]. intros d [<- | []]. apply length_le_same.
  - destruct (Tload.length_lt d best) eqn:E.
    + destruct (IH d) as [Hin Hle]. split.
      * destruct Hin as [<- | Hin]; [right; now left | right; now right].
      * intros d' [<- | [<- | Hd']].
        -- eapply length_le_chain; [apply Hle; now left |].
           now apply length_lt_true_le.
        -- apply Hle. now left.
        -- apply Hle. now right.
    + destruct (IH best) as [Hin Hle]. split.
      * destruct Hin as [<- | Hin]; [now left | right; now right].
      * intros d' [<- | [<- | Hd']].
        -- apply Hle. now left.
        -- eapply length_le_chain; [apply Hle; now left |].
           now apply length_lt_false_le.
        -- apply Hle. now right.
Qed.

Lemma fallback_total_le G pairs chosen : forall total total',
  (total <= total')%R ->
  Forall2 (fun uv d =>
             In d (Road.get_edge_data G (fst uv) (snd uv))
             /\ Road.length_attr d <> None)
          pairs chosen ->
  (fold_left
     (fun total uv =>
        match Road.get_edge_data G (fst uv) (snd uv) with
        | [] => total
        | d :: vals =>
            total + match Road.length_attr (Tload.min_from d vals) with
                    | Some l => l
                    | None => 0.0
                    end
        end) pairs total
   <= fold_left Rplus (map length_or_zero chosen) total')%R.
Proof.
  intros total total' Hle Hall. revert total total' Hle.
  induction Hall as [| uv d pairs chosen [Hin Hlen] _ IH]; intros total total' Hle.
  - exact Hle.
  - cbn [fold_left map]. apply IH.
    destruct (Road.get_edge_data G (fst uv) (snd uv)) as [| d0 vals];
      [destruct Hin |].
    destruct (min_from_spec vals d0) as [_ Hmin]. specialize (Hmin d Hin).
    unfold length_or_zero, length_le in *.
    destruct (Road.length_attr d) as [l |]; [| now elim Hlen].
    destruct (Road.length_attr (Tload.min_from d0 vals)) as [l0 |]; [lra | tauto].
Qed.

(** X16.  The route length of tload.py (route_length_m) and of warp.py
    (calculate_route_distance) is the same function.  When osmnx's
    helper gives the edge lengths it is their sum; when the helper
    raises, the fallback takes for each step of the route a parallel
    edge of least length, so its total does not exceed the total along
    any choice of one edge with a length per step. *)
Theorem X16_route_length_takes_shortest_parallel_edges lib G route :
  WarpRoutes.calculate_route_distance lib G route = Tload.route_length_m lib G route
  /\
  (forall lengths,
     Road.get_route_edge_attributes lib G route = Some lengths ->
     Tload.route_length_m lib G route = fold_left Rplus lengths 0%R)
  /\
  (forall chosen,
     Road.get_route_edge_attributes lib G route = None ->
     Forall2 (fun uv d =>
                In d (Road.get_edge_data G (fst uv) (snd uv))
                /\ Road.length_attr d <> None)
             (Road.steps route) chosen ->
     (Tload.route_length_m lib G route
      <= fold_left Rplus (map length_or_zero chosen) 0%R)%R).
Proof.
  split; [reflexivity |]. split.
  - intros lengths H. unfold Tload.route_length_m. now rewrite H.
  - intros chosen H Hall. unfold Tload.route_length_m. rewrite H.
    apply fallback_total_le; [lra | exact Hall].
Qed.

Lemma X16_route_length_takes_shortest_parallel_edges_witness :
  (Tload.route_length_m Fixture.no_paths Fixture.two_node_graph [1%Z; 2%Z]
   <= fold_left Rplus
        (map length_or_zero
           [ {| Road.length_attr := Some 2500%R; Road.risk_attr := None;
                Road.name_attr := None |} ]) 0%R)%R.
Proof.
  refine (proj2 (proj2 (@X16_route_length_takes_shortest_parallel_edges
                          Fixture.no_paths Fixture.two_node_graph [1%Z; 2%Z]))
            _ eq_refl _).
  constructor; [| constructor].
  split; [now left | discriminate].
Defined.

Lemma is_space_lower_char c : PyStr.is_space (PyStr.lower_char c) = PyStr.is_space c.
Proof. destruct c as [[] [] [] [] [] [] [] []]; reflexivity. Qed.

Lemma lower_char_idem c : PyStr.lower_char (PyStr.lower_char c) = PyStr.lower_char c.
Proof. destruct c as [[] [] [] [] [] [] [] []]; reflexivity. Qed.

Lemma lower_char_title c :
  (PyStr.is_lower c = true ->
   PyStr.lower_char (PyStr.upper_char c) = PyStr.lower_char c) /\
  (PyStr.is_lower c = true -> PyStr.is_upper c = false).
Proof. destruct c as [[] [] [] [] [] [] [] []]; split; intros; try reflexivity; discriminate. Qed.

Lemma lower_idem s : PyStr.lower (PyStr.lower s) = PyStr.lower s.
Proof.
  induction s as [| c t IH]; cbn [PyStr.lower]; [reflexivity |].
  now rewrite lower_char_idem, IH.
Qed.

Lemma lower_title_from b s : PyStr.lower (PyStr.title_from b s) = PyStr.lower s.
Proof.
  revert b. induction s as [| c t IH]; intros b; cbn [PyStr.title_from PyStr.lower];
    [reflexivity |].
  destruct (PyStr.is_lower c) eqn:El.
  - cbn [PyStr.lower]. rewrite IH. destruct b; [reflexivity |].
    now rewrite (proj1 (lower_char_title c) El).
  - destruct (PyStr.is_upper c) eqn:Eu; cbn [PyStr.lower]; rewrite IH;
      [| reflexivity].
    destruct b; [| reflexivity]. now rewrite lower_char_idem.
Qed.

Lemma lstrip_lower s : PyStr.lstrip (PyStr.lower s) = PyStr.lower (PyStr.lstrip s).
Proof.
  induction s as [| c t IH]; cbn [PyStr.lower PyStr.lstrip]; [reflexivity |].
  rewrite is_space_lower_char. destruct (PyStr.is_space c); [exact IH | reflexivity].
Qed.

Lemma rstrip_lower s : PyStr.rstrip (PyStr.lower s) = PyStr.lower (PyStr.rstrip s).
Proof.
  induction s as [| c t IH]; cbn [PyStr.lower PyStr.rstrip]; [reflexivity |].
  rewrite IH, is_space_lower_char.
  destruct (PyStr.rstrip t) as [| c' t']; cbn [PyStr.lower]; [| reflexivity].
  destruct (PyStr.is_space c); reflexivity.
Qed.

Lemma rstrip_idem s : PyStr.rstrip (PyStr.rstrip s) = PyStr.rstrip s.
Proof.
  induction s as [| c t IH]; cbn [PyStr.rstrip]; [reflexivity |].
  destruct (PyStr.rstrip t) as [| c' t'] eqn:E.
  - destruct (PyStr.is_space c) eqn:Ec; cbn [PyStr.rstrip]; [reflexivity |].
    now rewrite Ec.
  - change (PyStr.rstrip (String c (String c' t'))) with
      match PyStr.rstrip (String c' t') with
      | EmptyString => if PyStr.is_space c then EmptyString else String c EmptyString
      | r => String c r
      end.
    now rewrite IH.
Qed.

Lemma rstrip_keeps_head c t :
  PyStr.is_space c = false -> exists u, PyStr.rstrip (String c t) = String c u.
Proof.
  intros E. cbn [PyStr.rstrip].
  destruct (PyStr.rstrip t); [rewrite E |]; eauto.
Qed.

Lemma strip_idem s : PyStr.strip (PyStr.strip s) = PyStr.strip s.
Proof.
  unfold PyStr.strip. destruct (blank s) eqn:E.
  - now rewrite (lstrip_blank s E).
  - destruct (lstrip_not_blank s E) as (c & t & -> & Hc).
    destruct (@rstrip_keeps_head c t Hc) as (u & Hu).
    rewrite Hu. cbn [PyStr.lstrip]. rewrite Hc, <- Hu. apply rstrip_idem.
Qed.

(** X17.  The names compared by the matcher are cleaned alike on both
    sides.  tload.py stores a CSV name stripped and then lower-cased and
    strips the lower-cased query: both give the same string, so a name
    typed as the CSV writes it, in any case and with blanks around it,
    is compared as the stored name, the first component of every
    comparison find_two_safest_routes_for_user asks for.  A stored name
    is not changed by cleaning it again, and warp.py's title-cased name
    gives the same string when lower-cased. *)
Theorem X17_names_cleaned_alike s :
  PyStr.strip (PyStr.lower s) = PyStr.lower (PyStr.strip s) /\
  PyStr.strip (PyStr.lower (PyStr.lower (PyStr.strip s))) = PyStr.lower (PyStr.strip s) /\
  PyStr.lower (PyStr.title (PyStr.strip s)) = PyStr.lower (PyStr.strip s) /\
  (forall scorer lib g,
     exists rest,
       calls scorer (Tload.find_two_safest_routes_for_user lib g s)
       = (map (fun c => (PyStr.lower (PyStr.strip s), c)) (Tload.regions g)
          ++ rest)%list).
Proof.
  assert (Hcomm : forall x, PyStr.strip (PyStr.lower x) = PyStr.lower (PyStr.strip x)).
  { intros x. unfold PyStr.strip. now rewrite lstrip_lower, rstrip_lower. }
  split; [apply Hcomm |]. split; [| split].
  - now rewrite lower_idem, Hcomm, strip_idem.
  - apply lower_title_from.
  - intros scorer lib g.
    destruct (Tload_find_calls scorer lib g s) as (rest & Hrest).
    exists rest. now rewrite <- Hcomm.
Qed.

(** X18.  The flat-earth distance of evacuation_app_simple.py (111 km
    per degree of latitude and of longitude) is never negative, does not
    depend on the direction, and is 0 from a place to itself. *)
Theorem X18_euclid_km_symmetric lat1 lon1 lat2 lon2 :
  (0 <= Simple.euclid_km lat1 lon1 lat2 lon2)%R /\
  Simple.euclid_km lat1 lon1 lat2 lon2 = Simple.euclid_km lat2 lon2 lat1 lon1 /\
  Simple.euclid_km lat1 lon1 lat1 lon1 = 0%R.
Proof.
  unfold Simple.euclid_km. cbv zeta.
  split; [| split].
  - assert (H := sqrt_pos ((lat2 - lat1) ^ 2 + (lon2 - lon1) ^ 2)). lra.
  - f_equal. f_equal. ring.
  - replace ((lat1 - lat1) ^ 2 + (lon1 - lon1) ^ 2)%R with 0%R by ring.
    rewrite sqrt_0. ring.
Qed.

Lemma App_haversine_nonneg lat1 lon1 lat2 lon2 :
  (0 <= App.haversine_km lat1 lon1 lat2 lon2)%R.
Proof.
  assert (Ha := App_haversine_a_range lat1 lon1 lat2 lon2).
  assert (Hs : (0 <= sqrt (App_haversine_a lat1 lon1 lat2 lon2) <= 1)%R).
  { split; [apply sqrt_pos |]. rewrite <- sqrt_1. apply sqrt_le_1; lra. }
  change (App.haversine_km lat1 lon1 lat2 lon2)
    with (6371 * (2 * asin (sqrt (App_haversine_a lat1 lon1 lat2 lon2))))%R.
  assert (H0 := asin_nonneg Hs). nra.
Qed.

Lemma App_route_to_fields scorer slat slon a r :
  run scorer (App.route_to slat slon a) = Ok r ->
  App.distance_km r
  = Py.round (App.haversine_km slat slon (App.Latitude a) (App.Longitude a)) 2 /\
  App.ward r = App.Ward_Code a /\
  App.destination_lat r = App.Latitude a /\
  App.destination_lon r = App.Longitude a.
Proof.
  unfold App.route_to. rewrite run_bind.
  destruct (run scorer (Py.getitem App.risk_scores (App.Flood_Risk_Level a)))
    as [risk_score | e]; [| discriminate].
  cbn [run]. intros [= <-]. cbn. auto.
Qed.

(** X19.  In app.py one risk level weighs as much as 4 km.  A returned
    Low destination has the score 2 + d/2 and a returned Medium one the
    score 4 + d/2, d being the Haversine distance from the start (which
    the route shows rounded to two decimals); so the Low destination has
    the smaller score exactly when it is less than 4 km farther away
    than the Medium one. *)
Theorem X19_app_risk_level_is_worth_4_km scorer user_area flood_df m s routes a b :
  run scorer (App.calculate_evacuation_routes user_area flood_df) = Ok (m, s, routes) ->
  In a routes -> In b routes ->
  App.risk_level a = "Low"%string -> App.risk_level b = "Medium"%string ->
  exists da db,
    (0 <= da)%R /\ (0 <= db)%R /\
    App.distance_km a = Py.round da 2 /\ App.distance_km b = Py.round db 2 /\
    App.combined_score a = (2 + da / 2)%R /\
    App.combined_score b = (4 + db / 2)%R /\
    ((App.combined_score a < App.combined_score b)%R <-> (da < db + 4)%R).
Proof.
  intros H Ha Hb Hlow Hmedium. apply App_calc_inv in H.
  destruct H as (best & score & _ & [(_ & _ & _ & ->) | (_ & _ & _ & H)]);
    [destruct Ha |].
  destruct H as (start & all_routes & _ & _ & Hall & ->).
  apply firstn_subset, sorted_In in Ha. apply firstn_subset, sorted_In in Hb.
  destruct (@Forall2_pick_r _ _ _ _ _ _ Hall Ha) as (ra & _ & Hra).
  destruct (@Forall2_pick_r _ _ _ _ _ _ Hall Hb) as (rb & _ & Hrb).
  pose proof (App_route_to_fields _ _ _ _ Hra) as (Hda & _).
  pose proof (App_route_to_fields _ _ _ _ Hrb) as (Hdb & _).
  apply App_route_to_inv in Hra. destruct Hra as (_ & Hla & sa & Hsa & Hca).
  apply App_route_to_inv in Hrb. destruct Hrb as (_ & Hlb & sb & Hsb & Hcb).
  rewrite <- Hla, Hlow in Hsa. rewrite <- Hlb, Hmedium in Hsb.
  cbn in Hsa, Hsb. injection Hsa as <-. injection Hsb as <-.
  exists (App.haversine_km (App.Latitude start) (App.Longitude start)
            (App.Latitude ra) (App.Longitude ra)),
         (App.haversine_km (App.Latitude start) (App.Longitude start)
            (App.Latitude rb) (App.Longitude rb)).
  split; [apply App_haversine_nonneg |]. split; [apply App_haversine_nonneg |].
  split; [exact Hda |]. split; [exact Hdb |].
  unfold App.score_formula in Hca, Hcb.
  assert (Ea : App.combined_score a
               = (2 + App.haversine_km (App.Latitude start) (App.Longitude start)
                        (App.Latitude ra) (App.Longitude ra) / 2)%R)
    by (rewrite Hca; lra).
  assert (Eb : App.combined_score b
               = (4 + App.haversine_km (App.Latitude start) (App.Longitude start)
                        (App.Latitude rb) (App.Longitude rb) / 2)%R)
    by (rewrite Hcb; lra).
  split; [exact Ea |]. split; [exact Eb |].
  rewrite Ea, Eb. split; intros; lra.
Qed.

Lemma X19_app_risk_level_is_worth_4_km_witness :
  exists da db,
    (0 <= da)%R /\ (0 <= db)%R /\
    App.distance_km Expected.app_churchgate = Py.round da 2 /\
    App.distance_km Expected.app_station = Py.round db 2 /\
    App.combined_score Expected.app_churchgate = (2 + da / 2)%R /\
    App.combined_score Expected.app_station = (4 + db / 2)%R /\
    ((App.combined_score Expected.app_churchgate
      < App.combined_score Expected.app_station)%R <-> (da < db + 4)%R).
Proof.
  exact (@X19_app_risk_level_is_worth_4_km Fixture.exact_scorer "colaba"
           Fixture.app_catalog2 _ _ _ Expected.app_churchgate Expected.app_station
           App_catalog2_run (or_introl eq_refl) (or_intror (or_introl eq_refl))
           eq_refl eq_refl).
Defined.

(* df.iloc[::10] keeps the rows 0, 10, 20, ... *)
Lemma every_10th_nth l : forall skip k,
  nth_error (Tload.every_10th skip l) k = nth_error l (skip + 10 * k).
Proof.
  induction l as [| e rest IH]; intros skip k; cbn [Tload.every_10th].
  - destruct k; [destruct (skip + 10 * 0)%nat | destruct (skip + 10 * S k)%nat];
      reflexivity.
  - destruct skip as [| n].
    + destruct k as [| k]; [reflexivity |].
      cbn [nth_error]. rewrite IH.
      replace (0 + 10 * S k)%nat with (S (9 + 10 * k)) by lia. reflexivity.
    + rewrite IH. reflexivity.
Qed.

Lemma Forall2_nth_error_r (A B : Type) (P : A -> B -> Prop) l l' k :
  Forall2 P l l' ->
  match nth_error l' k with
  | Some y => exists x, nth_error l k = Some x /\ P x y
  | None => nth_error l k = None
  end.
Proof.
  intros H. revert k. induction H as [| x y t t' Hxy _ IH]; intros [| k]; cbn; eauto.
  apply IH.
Qed.

Lemma Tload_tag_edge_inv scorer regions region_risks n2r u v key data row :
  run scorer (Tload.tag_edge regions region_risks n2r (u, v, key, data)) = Ok row ->
  Tload._u row = u /\ Tload._v row = v /\
  Tload.region_idx row = Dict.get Z.eqb n2r u /\
  match Tload.region_idx row with
  | Some i =>
      nth_error regions i = Some (Tload.region_name row) /\
      nth_error region_risks i = Some (Tload.risk_level row)
  | None =>
      Tload.region_name row = "unknown"%string /\
      Tload.risk_level row = "unknown"%string
  end.
Proof.
  unfold Tload.tag_edge. rewrite run_bind.
  destruct (Dict.get Z.eqb n2r u) as [i |].
  - unfold Tload.item.
    destruct (nth_error regions i) as [name |] eqn:En; [| discriminate].
    cbn [run]. rewrite run_bind.
    destruct (nth_error region_risks i) as [risk |] eqn:Er; [| discriminate].
    cbn [run]. intros [= <-].
    cbn [Tload._u Tload._v Tload.region_idx Tload.region_name Tload.risk_level].
    repeat split; assumption || reflexivity.
  - cbn [run]. rewrite run_bind. cbn [run]. intros [= <-].
    cbn [Tload._u Tload._v Tload.region_idx Tload.region_name Tload.risk_level].
    repeat split; reflexivity.
Qed.

Lemma Tload_load_edges_inv scorer G flood_df g :
  run scorer (Tload.load G flood_df) = Ok g ->
  exists rows,
    Forall2 (fun e row =>
               run scorer
                 (Tload.tag_edge (Tload.regions g) (Tload.region_risks g)
                    (Tload.nodeid_to_region_idx g) e) = Ok row)
            (Road.edges G) rows /\
    Tload.edges_gdf g = Tload.every_10th 0 rows.
Proof.
  unfold Tload.load. rewrite run_bind.
  destruct (run scorer (mapM _ (Road.nodes G))) as [idxs | e]; [| discriminate].
  rewrite run_bind.
  destruct (run scorer (mapM _ (Road.edges G))) as [rows | e] eqn:E; [| discriminate].
  apply run_mapM_inv in E. cbn [run]. intros [= <-]. exists rows. cbn. auto.
Qed.

(** X20.  tload.py draws every tenth edge: row k of the sampled
    edges_gdf is edge 10 k of the graph (and there is no row k when the
    graph has no edge 10 k), tagged with the region of the edge's
    source node and with that region's name and risk level. *)
Theorem X20_tload_every_tenth_edge scorer G flood_df g k :
  run scorer (Tload.load G flood_df) = Ok g ->
  match nth_error (Tload.edges_gdf g) k with
  | Some row =>
      exists u v key data,
        nth_error (Road.edges G) (10 * k) = Some (u, v, key, data) /\
        Tload._u row = u /\ Tload._v row = v /\
        Tload.region_idx row = Dict.get Z.eqb (Tload.nodeid_to_region_idx g) u /\
        forall i,
          Tload.region_idx row = Some i ->
          nth_error (Tload.regions g) i = Some (Tload.region_name row) /\
          nth_error (Tload.region_risks g) i = Some (Tload.risk_level row)
  | None => (length (Road.edges G) <= 10 * k)%nat
  end.
Proof.
  intros H. apply Tload_load_edges_inv in H. destruct H as (rows & Hall & ->).
  rewrite every_10th_nth. cbn [Nat.add].
  pose proof (@Forall2_nth_error_r _ _ _ _ _ (10 * k) Hall) as Hk.
  destruct (nth_error rows (10 * k)) as [row |].
  - destruct Hk as ([[[u v] key] data] & He & Hrun).
    apply Tload_tag_edge_inv in Hrun. destruct Hrun as (Hu & Hv & Hidx & Htag).
    exists u, v, key, data.
    split; [exact He |]. split; [exact Hu |]. split; [exact Hv |].
    split; [exact Hidx |].
    intros i Hi. rewrite Hi in Htag. exact Htag.
  - now apply nth_error_None.
Qed.

Lemma X20_tload_every_tenth_edge_witness :
  exists u v key data,
    nth_error (Road.edges Fixture.two_node_graph) (10 * 0) = Some (u, v, key, data) /\
    u = 1%Z /\ v = 2%Z.
Proof.
  pose proof (@X20_tload_every_tenth_edge Fixture.exact_scorer Fixture.two_node_graph
                Fixture.tload_catalog Expected.tload_globals 0
                (Tload_load_two_nodes _)) as H.
  cbn [nth_error Tload.edges_gdf Expected.tload_globals] in H.
  destruct H as (u & v & key & data & He & Hu & Hv & _).
  exists u, v, key, data. cbn [Tload._u Tload._v] in Hu, Hv. auto.
Defined.

Lemma App_route_to_eta scorer slat slon a r :
  run scorer (App.route_to slat slon a) = Ok r ->
  App.eta_min r
  = Py.round
      (App.haversine_km slat slon (App.Latitude a) (App.Longitude a)
       / App.speed_for
           (App.haversine_km slat slon (App.Latitude a) (App.Longitude a))
       * 60 * 1.3) 1.
Proof.
  unfold App.route_to. rewrite run_bind.
  destruct (run scorer (Py.getitem App.risk_scores (App.Flood_Risk_Level a)))
    as [risk_score | e]; [| discriminate].
  cbn [run]. now intros [= <-].
Qed.

Lemma App_eta_bounds d :
  (0 <= d)%R ->
  (d * (78 / 35) <= d / App.speed_for d * 60 * 1.3 <= d * (26 / 5))%R /\
  (d < 5 -> d / App.speed_for d * 60 * 1.3 = d * (26 / 5))%R.
Proof.
  intros Hd. unfold App.speed_for.
  destruct (Rlt_dec d 5) as [H5 | H5]; [split; [lra | intros _; lra] |].
  split; [| intros Hc; contradiction].
  destruct (Rlt_dec d 15) as [H15 | H15]; lra.
Qed.

(** X21.  The ETA app.py shows for a returned route is the rounding to
    one decimal of a time between 78/35 and 5.2 minutes per kilometre
    of Haversine distance (35, 25 or 15 km/h with a 30 % buffer), 5.2
    minutes per kilometre under 5 km; it is never negative. *)
Theorem X21_app_eta_bounds scorer user_area flood_df m s routes r :
  run scorer (App.calculate_evacuation_routes user_area flood_df) = Ok (m, s, routes) ->
  In r routes ->
  exists d e,
    (0 <= d)%R /\
    App.distance_km r = Py.round d 2 /\
    App.eta_min r = Py.round e 1 /\
    (d * (78 / 35) <= e <= d * (26 / 5))%R /\
    (d < 5 -> e = d * (26 / 5))%R /\
    (0 <= App.eta_min r)%R.
Proof.
  intros H Hr. apply App_calc_inv in H.
  destruct H as (best & score & _ & [(_ & _ & _ & ->) | (_ & _ & _ & H)]);
    [destruct Hr |].
  destruct H as (start & all_routes & _ & _ & Hall & ->).
  apply firstn_subset, sorted_In in Hr.
  destruct (@Forall2_pick_r _ _ _ _ _ _ Hall Hr) as (a & _ & Hrun).
  pose proof (App_route_to_fields _ _ _ _ Hrun) as (Hd & _).
  pose proof (App_route_to_eta _ _ _ _ Hrun) as He.
  set (d := App.haversine_km (App.Latitude start) (App.Longitude start)
              (App.Latitude a) (App.Longitude a)) in *.
  assert (Hpos : (0 <= d)%R) by apply App_haversine_nonneg.
  destruct (App_eta_bounds Hpos) as [Hb Hnear].
  exists d, (d / App.speed_for d * 60 * 1.3)%R.
  split; [exact Hpos |]. split; [exact Hd |]. split; [exact He |].
  split; [exact Hb |]. split; [exact Hnear |].
  rewrite He. apply Rle_trans with (Py.round 0 1).
  - rewrite (round_1_of_int 0). lra.
  - apply round_monotone. nra.
Qed.

Lemma X21_app_eta_bounds_witness :
  (0 <= App.eta_min Expected.app_churchgate)%R.
Proof.
  destruct (@X21_app_eta_bounds Fixture.exact_scorer "colaba" Fixture.app_catalog2
              _ _ _ Expected.app_churchgate App_catalog2_run (or_introl eq_refl))
    as (d & e & _ & _ & _ & _ & _ & H).
  exact H.
Defined.

Lemma unique_from_NoDup l : forall seen,
  NoDup (Py.unique_from seen l) /\
  forall x, In x (Py.unique_from seen l) -> ~ In x seen.
Proof.
  induction l as [| y t IH]; intros seen; cbn [Py.unique_from].
  - split; [constructor | intros x []].
  - destruct (PyStr.isin y seen) eqn:E; [apply IH |].
    destruct (IH (y :: seen)) as [Hnd Hnot]. split.
    + constructor; [| exact Hnd]. intros Hy. apply (Hnot y Hy). now left.
    + intros x [<- | Hx].
      * intros Hin. apply isin_In in Hin. congruence.
      * intros Hin. apply (Hnot x Hx). now right.
Qed.

Lemma unique_from_complete l : forall seen x,
  In x l -> In x (Py.unique_from seen l) \/ In x seen.
Proof.
  induction l as [| y t IH]; intros seen x; [intros [] |].
  cbn [Py.unique_from]. intros [<- | Hx].
  - destruct (PyStr.isin y seen) eqn:E; [right; now apply isin_In | left; now left].
  - destruct (PyStr.isin y seen) eqn:E; [now apply IH |].
    destruct (IH (y :: seen) x Hx) as [H | [<- | H]]; auto.
    + left. now right.
    + left. now left.
Qed.

Lemma node_in_In n path : EvacApp.node_in n path = true <-> In n path.
Proof.
  unfold EvacApp.node_in. rewrite existsb_exists. split.
  - intros (y & Hy & E). apply Z.eqb_eq in E. now subst.
  - intros H. exists n. split; [exact H | apply Z.eqb_refl].
Qed.

Lemma try_route_roads lib G orig dest r :
  EvacApp.try_route lib G orig dest = Some r ->
  EvacApp.roads r = EvacApp.road_names G (EvacApp.path r).
Proof.
  unfold EvacApp.try_route.
  destruct (Road.shortest_path lib G orig dest) as [path |]; [| discriminate].
  destruct (EvacApp.sum_lengths G (Road.steps path)) as [len |]; [| discriminate].
  destruct (EvacApp.sum_risks G (Road.steps path)) as [risk |]; [| discriminate].
  now intros [= <-].
Qed.

(** X22.  The roads evacuation_app.py lists for a route are the names,
    each once, of the edges of the graph whose two end nodes both lie
    on the path ("Unnamed Road" for an edge without a name), whether or
    not the route runs along the edge. *)
Theorem X22_evac_road_names scorer lib user_area G flood_df m s routes r :
  run scorer (EvacApp.get_two_safest_routes lib user_area G flood_df)
  = Ok (m, s, Some routes) ->
  In r routes ->
  NoDup (EvacApp.roads r) /\
  forall name,
    In name (EvacApp.roads r) <->
    exists u v key data,
      In (u, v, key, data) (Road.edges G) /\
      In u (EvacApp.path r) /\ In v (EvacApp.path r) /\
      name = match Road.name_attr data with
             | Some n => n
             | None => "Unnamed Road"%string
             end.
Proof.
  intros H Hr. apply EvacApp_calc_inv in H.
  destruct H as (best & score & start & _ & _ & _ & _ & _ & ->).
  apply firstn_subset, sorted_In, EvacApp_routes_to_In in Hr.
  destruct Hr as (dest & _ & Ht). rewrite (try_route_roads _ _ _ _ Ht).
  unfold EvacApp.road_names, Py.unique.
  split; [apply unique_from_NoDup |].
  intros name. split.
  - intros Hn. apply unique_from_In, in_map_iff in Hn.
    destruct Hn as ([[[u v] key] data] & <- & He).
    apply filter_In in He. destruct He as [He Hb].
    apply andb_true_iff in Hb. destruct Hb as [Hu Hv].
    apply node_in_In in Hu. apply node_in_In in Hv.
    exists u, v, key, data. auto.
  - intros (u & v & key & data & He & Hu & Hv & ->).
    destruct (unique_from_complete
                (map (fun e : Road.edge =>
                        let '(_, _, _, d) := e in
                        match Road.name_attr d with
                        | Some n => n
                        | None => "Unnamed Road"%string
                        end)
                     (filter (fun e : Road.edge =>
                                let '(u, v, _, _) := e in
                                EvacApp.node_in u (EvacApp.path r)
                                && EvacApp.node_in v (EvacApp.path r))
                             (Road.edges G)))
                []
                (match Road.name_attr data with
                 | Some n => n
                 | None => "Unnamed Road"%string
                 end)) as [H | []]; [| exact H].
    apply in_map_iff. exists (u, v, key, data). split; [reflexivity |].
    apply filter_In. split; [exact He |].
    apply andb_true_iff. split; now apply node_in_In.
Qed.

Lemma X22_evac_road_names_witness :
  NoDup (EvacApp.roads Expected.evac_mulund) /\
  In "LBS Marg"%string (EvacApp.roads Expected.evac_mulund) /\
  In "Unnamed Road"%string (EvacApp.roads Expected.evac_mahim).
Proof.
  destruct (@X22_evac_road_names Fixture.exact_scorer Fixture.three_node_lib
              "dharavi" (EvacApp.assign_risk_to_edges Fixture.three_node_graph)
              Fixture.evac_catalog3 _ _ _ Expected.evac_mulund
              EvacApp_three_node_run (or_intror (or_introl eq_refl)))
    as [Hnodup Hmulund].
  destruct (@X22_evac_road_names Fixture.exact_scorer Fixture.three_node_lib
              "dharavi" (EvacApp.assign_risk_to_edges Fixture.three_node_graph)
              Fixture.evac_catalog3 _ _ _ Expected.evac_mahim
              EvacApp_three_node_run (or_introl eq_refl))
    as [_ Hmahim].
  split; [exact Hnodup |]. split.
  - apply Hmulund.
    exists 2%Z, 1%Z, 0%Z,
      {| Road.length_attr := Some 14800%R; Road.risk_attr := Some 0%Z;
         Road.name_attr := Some "LBS Marg"%string |}.
    cbn. auto 10.
  - apply Hmahim.
    exists 1%Z, 3%Z, 0%Z,
      {| Road.length_attr := Some 1200%R; Road.risk_attr := Some 0%Z;
         Road.name_attr := None |}.
    cbn. auto 10.
Defined.
